(** * Trader / market-sentiment report (work.py): a shallow embedding

    The program reads two tabular files with pandas, joins them on a
    calendar date, aggregates, and writes charts and a workbook.  The
    embedding follows pandas' column-oriented view of a frame: a frame is
    an ordered list of labelled columns over a common row index, and the
    operations the program calls ([rename], [to_datetime], [merge],
    [groupby(..).agg], [shift], [value_counts], ...) are functions on
    columns.

    Modelling conventions.
    - A cell is a string, a number, a timestamp, a calendar date or a
      null (pandas' NaN / NaT / None).  Numbers are rationals.  A mean
      is rounded to the nearest float64, as the division of the program
      is; a sum is exact, which is what the program computes when the
      values are whole numbers of bounded size (the statements that
      depend on it say so).  Infinities are not modelled.
    - Column labels of an input frame are pairwise distinct (read_csv
      guarantees it); where a claim needs it the statement says so.
    - Python exceptions are values of [exn]; a fallible computation
      returns [exn + A]. *)

From Stdlib Require Import List String Ascii ZArith QArith Qround Qabs Bool Arith Lia Permutation FinFun DecimalString.
From Stdlib Require Import Sorted Qpower Lqa.
Import ListNotations.
Local Open Scope string_scope.
Local Open Scope nat_scope.

(** ** Exceptions and fallible computations *)

Inductive exn : Type :=
| KeyError (msg : string)
| ValueError (msg : string)
| TypeError (msg : string).

Definition Result (A : Type) : Type := (exn + A)%type.

Definition ok {A : Type} (a : A) : Result A := inr a.
Definition raise {A : Type} (e : exn) : Result A := inl e.

Definition rbind {A B : Type} (m : Result A) (k : A -> Result B) : Result B :=
  match m with
  | inl e => inl e
  | inr a => k a
  end.

Notation "x <- m ;; k" := (rbind m (fun x => k))
  (at level 61, m at next level, right associativity).

Fixpoint mapM {A B : Type} (f : A -> Result B) (l : list A) : Result (list B) :=
  match l with
  | [] => ok []
  | a :: tl => b <- f a ;; bs <- mapM f tl ;; ok (b :: bs)
  end.

(** ** Cells, series, frames *)

Record date : Type := mkdate { year : Z; month : Z; day : Z }.

Inductive cell : Type :=
| VStr (s : string)
| VNum (q : Q)
| VTime (d : date) (secs : Z)
| VDate (d : date)
| VNull.

Definition Series : Type := list cell.

Record DataFrame : Type := mkFrame {
  nrows : nat;
  cols : list (string * Series)
}.

Definition columns (df : DataFrame) : list string := map fst (cols df).

Definition has_column (c : string) (df : DataFrame) : bool :=
  existsb (String.eqb c) (columns df).

Fixpoint lookup_col (c : string) (l : list (string * Series)) : option Series :=
  match l with
  | [] => None
  | (c', s) :: tl => if String.eqb c' c then Some s else lookup_col c tl
  end.

(** [df[c]], for a frame whose labels are distinct: with a repeated
    label pandas returns a frame, not a column, and a statement that
    depends on the column read says that the labels are distinct. *)
Definition getitem (df : DataFrame) (c : string) : Result Series :=
  match lookup_col c (cols df) with
  | Some s => ok s
  | None => raise (KeyError c)
  end.

Fixpoint assign_col (c : string) (s : Series) (l : list (string * Series))
  : list (string * Series) :=
  match l with
  | [] => [(c, s)]
  | (c', s') :: tl =>
      if String.eqb c' c then (c, s) :: tl else (c', s') :: assign_col c s tl
  end.

(** [df[c] = s]: replaces the column in place when the label exists,
    appends it as the last column otherwise. *)
Definition setitem (df : DataFrame) (c : string) (s : Series) : DataFrame :=
  mkFrame (nrows df) (assign_col c s (cols df)).

Fixpoint rename_label (mapping : list (string * string)) (c : string) : string :=
  match mapping with
  | [] => c
  | (old, new) :: tl => if String.eqb old c then new else rename_label tl c
  end.

(** [df.rename(columns=mapping)] *)
Definition rename (mapping : list (string * string)) (df : DataFrame) : DataFrame :=
  mkFrame (nrows df) (map (fun cs => (rename_label mapping (fst cs), snd cs)) (cols df)).

Definition wf_frame (df : DataFrame) : Prop :=
  NoDup (columns df) /\ Forall (fun cs => List.length (snd cs) = nrows df) (cols df).

(** ** Equality and order on cells *)

Definition date_eqb (a b : date) : bool :=
  (year a =? year b)%Z && (month a =? month b)%Z && (day a =? day b)%Z.

Definition Q_eqb (a b : Q) : bool :=
  (Qnum a =? Qnum b)%Z && (Qden a =? Qden b)%positive.

Definition cell_eqb (a b : cell) : bool :=
  match a, b with
  | VStr x, VStr y => String.eqb x y
  | VNum x, VNum y => Q_eqb x y
  | VTime d s, VTime e t => date_eqb d e && (s =? t)%Z
  | VDate d, VDate e => date_eqb d e
  | VNull, VNull => true
  | _, _ => false
  end.

Definition is_null (c : cell) : bool :=
  match c with VNull => true | _ => false end.

Fixpoint key_eqb (a b : list cell) : bool :=
  match a, b with
  | [], [] => true
  | x :: a', y :: b' => cell_eqb x y && key_eqb a' b'
  | _, _ => false
  end.

Definition date_leb (a b : date) : bool :=
  match (year a ?= year b)%Z with
  | Lt => true
  | Gt => false
  | Eq => match (month a ?= month b)%Z with
          | Lt => true
          | Gt => false
          | Eq => (day a <=? day b)%Z
          end
  end.

Definition cell_rank (c : cell) : nat :=
  match c with
  | VNum _ => 0 | VStr _ => 1 | VDate _ => 2 | VTime _ _ => 3 | VNull => 4
  end.

Definition cell_leb (a b : cell) : bool :=
  match a, b with
  | VStr x, VStr y => String.leb x y
  | VNum x, VNum y => Qle_bool x y
  | VDate d, VDate e => date_leb d e
  | VTime d s, VTime e t => if date_eqb d e then (s <=? t)%Z else date_leb d e
  | _, _ => cell_rank a <=? cell_rank b
  end.

Fixpoint key_leb (a b : list cell) : bool :=
  match a, b with
  | [], _ => true
  | _ :: _, [] => false
  | x :: a', y :: b' => if cell_eqb x y then key_leb a' b' else cell_leb x y
  end.

(** Stable insertion sort, the order being given by [leb]. *)
Fixpoint insert_sorted {A : Type} (leb : A -> A -> bool) (x : A) (l : list A) : list A :=
  match l with
  | [] => [x]
  | y :: tl => if leb x y then x :: y :: tl else y :: insert_sorted leb x tl
  end.

Fixpoint sort_by {A : Type} (leb : A -> A -> bool) (l : list A) : list A :=
  match l with
  | [] => []
  | x :: tl => insert_sorted leb x (sort_by leb tl)
  end.

(** First occurrences, in order of appearance. *)
Fixpoint uniq {A : Type} (eqb : A -> A -> bool) (l : list A) : list A :=
  match l with
  | [] => []
  | x :: tl => x :: filter (fun y => negb (eqb x y)) (uniq eqb tl)
  end.

(** ** Column operations used by the loaders *)

Definition take (idx : list nat) (s : Series) : Series :=
  map (fun i => nth i s VNull) idx.

(** [.dt.date]: the calendar day of a timestamp; NaT stays null. *)
Definition dt_date_cell (c : cell) : cell :=
  match c with
  | VTime d _ => VDate d
  | _ => VNull
  end.

Definition dt_date (s : Series) : Series := map dt_date_cell s.

Inductive errors_mode : Type := ErrorsRaise | ErrorsCoerce.

Section Loaders.

(** pandas' scalar conversion of a non-null cell to a timestamp, with
    its [dayfirst] flag: [None] when the value cannot be read as a
    date.  The program delegates this to pandas; the loaders are
    modelled for every such conversion. *)
Variable to_timestamp : bool -> cell -> option (date * Z).

Definition to_datetime_cell (dayfirst : bool) (errors : errors_mode) (c : cell)
  : Result cell :=
  match c with
  | VNull => ok VNull
  | _ =>
      match to_timestamp dayfirst c with
      | Some (d, t) => ok (VTime d t)
      | None =>
          match errors with
          | ErrorsCoerce => ok VNull
          | ErrorsRaise => raise (ValueError "Unknown datetime string format")
          end
      end
  end.

(** [pd.to_datetime(s, dayfirst=.., errors=..)] *)
Definition to_datetime (dayfirst : bool) (errors : errors_mode) (s : Series)
  : Result Series :=
  mapM (to_datetime_cell dayfirst errors) s.

Definition column_mapping : list (string * string) :=
  [ ("Account", "account");
    ("Coin", "symbol");
    ("Execution Price", "execution_price");
    ("Size Tokens", "size");
    ("Side", "side");
    ("Timestamp IST", "time");
    ("Start Position", "start_position");
    ("Direction", "event");
    ("Closed PnL", "closedPnL") ].

(** [load_trader_data]; the argument is the frame [pd.read_csv] returns. *)
Definition load_trader_data (csv : DataFrame) : Result DataFrame :=
  let df := rename column_mapping csv in
  df <- (if has_column "time" df then
           t <- getitem df "time" ;;
           t' <- to_datetime true ErrorsCoerce t ;;
           ok (setitem df "time" t')
         else raise (KeyError "No valid time column found in trader data")) ;;
  t <- getitem df "time" ;;
  let df := setitem df "Date" (dt_date t) in
  let df := if negb (has_column "leverage" df)
            then setitem df "leverage" (repeat VNull (nrows df))
            else df in
  ok df.

(** [load_fear_greed_data]: [pd.to_datetime] is called with its default
    [errors="raise"] and no [dayfirst]. *)
Definition load_fear_greed_data (csv : DataFrame) : Result DataFrame :=
  let df := rename [("date", "Date"); ("classification", "Classification")] csv in
  d <- getitem df "Date" ;;
  d' <- to_datetime false ErrorsRaise d ;;
  ok (setitem df "Date" (dt_date d')).

(** What [errors="coerce"] makes of one cell. *)
Definition coerced (dayfirst : bool) (c : cell) : cell :=
  match c with
  | VNull => VNull
  | _ => match to_timestamp dayfirst c with
         | Some (d, t) => VTime d t
         | None => VNull
         end
  end.

(** The frame [load_trader_data] returns, written out. *)
Definition loaded_trades (csv : DataFrame) (raw : Series) : DataFrame :=
  let df := rename column_mapping csv in
  let df := setitem df "time" (map (coerced true) raw) in
  let df := setitem df "Date" (dt_date (map (coerced true) raw)) in
  if negb (has_column "leverage" df)
  then setitem df "leverage" (repeat VNull (nrows df))
  else df.

End Loaders.

(** ** The merger: [pd.merge(left, right, on=key, how="inner")] *)

(** Pairs of row positions with equal keys, left rows in order and, for
    each, the matching right rows in order.  As in pandas, a null key
    matches a null key. *)
Definition join_indexers (lk rk : Series) (n m : nat) : list (nat * nat) :=
  flat_map
    (fun i => map (fun j => (i, j))
                  (filter (fun j => cell_eqb (nth i lk VNull) (nth j rk VNull)) (seq 0 m)))
    (seq 0 n).

Definition mem_label (c : string) (l : list string) : bool :=
  existsb (String.eqb c) l.

Definition suffixed (on : string) (others : list string) (sfx : string) (c : string)
  : string :=
  if negb (String.eqb c on) && mem_label c others then c ++ sfx else c.

(** The result is a new frame: its columns are taken from those of the
    two arguments at the joined positions, and a label other than the
    key that both frames have gets the suffix [_x] or [_y].  Rows come in
    the order of the left frame. *)
Definition merge (left right : DataFrame) (on : string) : Result DataFrame :=
  lk <- getitem left on ;;
  rk <- getitem right on ;;
  let ix := join_indexers lk rk (nrows left) (nrows right) in
  let lcols :=
    map (fun cs => (suffixed on (columns right) "_x" (fst cs), take (map fst ix) (snd cs)))
        (cols left) in
  let rcols :=
    map (fun cs => (suffixed on (columns left) "_y" (fst cs), take (map snd ix) (snd cs)))
        (filter (fun cs => negb (String.eqb (fst cs) on)) (cols right)) in
  ok (mkFrame (List.length ix) (lcols ++ rcols)).

(** Row [i] of a frame: its cells with their labels. *)
Definition row_at (df : DataFrame) (i : nat) : list (string * cell) :=
  map (fun cs => (fst cs, nth i (snd cs) VNull)) (cols df).

(** The row an inner join makes of left row [i] and right row [j]: the
    cells of the left row, then those of the right row but its key. *)
Definition joined_row (left right : DataFrame) (on : string) (i j : nat)
  : list (string * cell) :=
  (map (fun lc => (suffixed on (columns right) "_x" (fst lc), snd lc)) (row_at left i)
   ++ map (fun lc => (suffixed on (columns left) "_y" (fst lc), snd lc))
          (filter (fun lc => negb (String.eqb (fst lc) on)) (row_at right j)))%list.

(** ** The analysis object *)

Record Analysis : Type := mkAnalysis {
  output_file : string;
  trader_data : DataFrame;
  fear_greed_data : DataFrame;
  merged_data : DataFrame
}.

Section Constructor.

Variable to_timestamp : bool -> cell -> option (date * Z).

(** [__init__]: [trader_file] and [fear_greed_file] stand for the
    frames read from the two paths. *)
Definition init (trader_file fear_greed_file : DataFrame) (out : string)
  : Result Analysis :=
  t <- load_trader_data to_timestamp trader_file ;;
  f <- load_fear_greed_data to_timestamp fear_greed_file ;;
  m <- merge t f "Date" ;;
  ok (mkAnalysis out t f m).

End Constructor.

(** ** Float64 values

    pandas holds the numbers of a column as int64 or float64 and
    computes a mean in float64.  A float64 is a rational [m * 2 ^ e] with
    [|m| < 2 ^ 53]; the exponent range is left unbounded here, which
    makes no difference for values between [2 ^ -1022] and [2 ^ 1023]. *)

(** Nearest integer, ties to the even one. *)
Definition round_half_even (x : Q) : Z :=
  let n := Qfloor x in
  match ((x - inject_Z n) ?= (1 # 2))%Q with
  | Lt => n
  | Gt => (n + 1)%Z
  | Eq => if Z.even n then n else (n + 1)%Z
  end.

Section Float64.

Local Open Scope Q_scope.

Definition two : Q := 2 # 1.

(** The exponent [e] of the float64 nearest to [q]: the one with
    [2 ^ 52 <= |q| / 2 ^ e < 2 ^ 53]. *)
Definition binade (q : Q) : Z :=
  let k := (Z.log2 (Z.abs (Qnum q)) - Z.log2 (Zpos (Qden q)))%Z in
  let e1 := (k - 52)%Z in
  if Qle_bool (two ^ 52) (Qabs q / two ^ e1) then e1 else (e1 - 1)%Z.

(** IEEE 754 rounding to nearest, ties to even: the result of a float64
    division whose exact quotient is [q]. *)
Definition float64_round (q : Q) : Q :=
  if Qeq_bool q 0 then 0
  else
    let e := binade q in
    let m := round_half_even (Qabs q / two ^ e) in
    Qred ((if Qle_bool 0 q then inject_Z m else - inject_Z m) * two ^ e).

Definition is_float64 (q : Q) : Prop :=
  exists m e : Z, (Z.abs m < 2 ^ 53)%Z /\ q == inject_Z m * two ^ e.

(** [q] is a float64 and no float64 is nearer to [x]. *)
Definition nearest_float64 (x q : Q) : Prop :=
  is_float64 q /\ forall f, is_float64 f -> Qabs (q - x) <= Qabs (f - x).

End Float64.

(** ** Grouping and aggregation *)

Definition as_number (c : cell) : Result (option Q) :=
  match c with
  | VNum q => ok (Some q)
  | VNull => ok None
  | _ => raise (TypeError "could not convert to numeric")
  end.

(** A value column read as numbers (null = NaN). *)
Definition numeric (s : Series) : Result (list (option Q)) := mapM as_number s.

Definition take_num (idx : list nat) (v : list (option Q)) : list (option Q) :=
  map (fun i => nth i v None) idx.

(** The non-null values, in order. *)
Fixpoint present (l : list (option Q)) : list Q :=
  match l with
  | [] => []
  | Some q :: tl => q :: present tl
  | None :: tl => present tl
  end.

Definition Qsum (l : list Q) : Q := fold_right Qplus (0 # 1) l.

Definition Qmean (l : list Q) : Q := (Qsum l / inject_Z (Z.of_nat (List.length l)))%Q.


(** ["sum"]: nulls are skipped; the sum of no value is 0.  The sum is
    the one the program computes when [exact_in_float64] holds of the
    column. *)
Definition agg_sum (l : list (option Q)) : cell := VNum (Qsum (present l)).

(** ["mean"]: nulls are skipped; the mean of no value is null.  The mean
    is the sum divided by the number of values in float64, that is the
    exact quotient rounded to the nearest float64. *)
Definition agg_mean (l : list (option Q)) : cell :=
  match present l with
  | [] => VNull
  | vs => VNum (float64_round (Qmean vs))
  end.


(** ["count"]: the number of non-null cells. *)
Definition agg_count (s : Series) : cell :=
  VNum (inject_Z (Z.of_nat (List.length (filter (fun c => negb (is_null c)) s)))).

Definition row_key (keys : list Series) (i : nat) : list cell :=
  map (fun s => nth i s VNull) keys.

Definition key_has_null (k : list cell) : bool := existsb is_null k.

(** The groups of [groupby(keys)]: the distinct key tuples without a null
    component (dropna), sorted (sort=True). *)
Definition group_keys (keys : list Series) (n : nat) : list (list cell) :=
  sort_by key_leb
    (uniq key_eqb
       (filter (fun k => negb (key_has_null k)) (map (row_key keys) (seq 0 n)))).

(** The row positions of a group, in row order. *)
Definition group_rows (keys : list Series) (n : nat) (k : list cell) : list nat :=
  filter (fun i => key_eqb (row_key keys i) k) (seq 0 n).

Definition get_numeric (df : DataFrame) (c : string) : Result (list (option Q)) :=
  s <- getitem df c ;; numeric s.

(** [calculate_trader_metrics] *)
Definition calculate_trader_metrics (self : Analysis) : Result DataFrame :=
  let m := merged_data self in
  keys <- mapM (getitem m) ["account"; "Date"; "Classification"] ;;
  pnl <- get_numeric m "closedPnL" ;;
  lev <- get_numeric m "leverage" ;;
  acc <- getitem m "account" ;;
  size <- get_numeric m "size" ;;
  let ks := group_keys keys (nrows m) in
  let rows := group_rows keys (nrows m) in
  ok (mkFrame (List.length ks)
        [ ("account", map (fun k => nth 0 k VNull) ks);
          ("Date", map (fun k => nth 1 k VNull) ks);
          ("Classification", map (fun k => nth 2 k VNull) ks);
          ("total_pnl", map (fun k => agg_sum (take_num (rows k) pnl)) ks);
          ("avg_leverage", map (fun k => agg_mean (take_num (rows k) lev)) ks);
          ("trade_count", map (fun k => agg_count (take (rows k) acc)) ks);
          ("avg_size", map (fun k => agg_mean (take_num (rows k) size)) ks) ]).


(** A series with an index of labels, as [groupby(key)[col].agg()] and
    [value_counts] return. *)
Definition LabelledSeries : Type := list (cell * cell).

Definition groupby_agg (agg : list (option Q) -> cell) (df : DataFrame) (key col : string)
  : Result LabelledSeries :=
  k <- getitem df key ;;
  v <- get_numeric df col ;;
  ok (map (fun g => (hd VNull g, agg (take_num (group_rows [k] (nrows df) g) v)))
          (group_keys [k] (nrows df))).

(** [s.get(label, default)] *)
Definition series_get (s : LabelledSeries) (label default : cell) : cell :=
  match find (fun e => cell_eqb (fst e) label) s with
  | Some e => snd e
  | None => default
  end.

(** [x < 0] and [x > 0] on a float; both are false on NaN. *)
Definition lt_zero (c : cell) : bool :=
  match c with VNum q => negb (Qle_bool (0 # 1) q) | _ => false end.

Definition gt_zero (c : cell) : bool :=
  match c with VNum q => negb (Qle_bool q (0 # 1)) | _ => false end.

Definition count_of (c : cell) (s : Series) : nat :=
  List.length (filter (cell_eqb c) s).

(** [s.value_counts()]: nulls dropped, most frequent label first. *)
Definition value_counts (s : Series) : list (cell * nat) :=
  let vs := filter (fun c => negb (is_null c)) s in
  sort_by (fun a b => snd b <=? snd a)
          (map (fun c => (c, count_of c vs)) (uniq cell_eqb vs)).

Definition counts_series (l : list (cell * nat)) : LabelledSeries :=
  map (fun e => (fst e, VNum (inject_Z (Z.of_nat (snd e))))) l.

(** The rows whose label in [cls] is the given one, and the mean of a
    value column over them (nulls ignored; null when nothing is left). *)
Definition rows_labelled (cls : Series) (n : nat) (label : cell) : list nat :=
  filter (fun i => cell_eqb (nth i cls VNull) label) (seq 0 n).

Definition mean_where (cls : Series) (v : list (option Q)) (n : nat) (label : cell) : cell :=
  agg_mean (take_num (rows_labelled cls n label) v).

(** ** Formatting with [:.2f] *)

Definition digit (d : Z) : ascii := ascii_of_nat (48 + Z.to_nat d).

Definition decimal (n : Z) : string :=
  NilZero.string_of_uint (N.to_uint (Z.to_N n)).

(** [f"{q:.2f}"] for a finite number: sign, integer part, point, two
    digits, the value rounded to the nearest hundredth (an exact tie
    goes to the even one).  A negative number that rounds to zero keeps
    its sign. *)
Definition format_2f (q : Q) : string :=
  let n := round_half_even (Qabs q * (100 # 1))%Q in
  (if negb (Qle_bool (0 # 1) q) then "-" else "")
    ++ decimal (n / 100) ++ "."
    ++ String (digit ((n mod 100) / 10)) (String (digit (n mod 10)) "").

(** [f"{x:.2f}"] on a cell: NaN prints as [nan]; a value that is not a
    number has no such format. *)
Definition format_cell_2f (c : cell) : Result string :=
  match c with
  | VNum q => ok (format_2f q)
  | VNull => ok "nan"
  | _ => raise (ValueError "Unknown format code 'f'")
  end.

Definition is_digit (c : ascii) : bool :=
  (48 <=? nat_of_ascii c) && (nat_of_ascii c <=? 57).

(** After a first digit: more digits, then a point and exactly two digits. *)
Fixpoint is_fixed2 (s : string) : bool :=
  match s with
  | EmptyString => false
  | String c tl =>
      if Ascii.eqb c "."
      then match tl with
           | String a (String b EmptyString) => is_digit a && is_digit b
           | _ => false
           end
      else is_digit c && is_fixed2 tl
  end.

(** The text is a number written with exactly two decimal places. *)
Definition is_two_decimal (s : string) : bool :=
  let body := match s with
              | String c tl => if Ascii.eqb c "-" then tl else s
              | EmptyString => s
              end in
  match body with
  | String c tl => is_digit c && is_fixed2 tl
  | EmptyString => false
  end.

Fixpoint all_digits (s : string) : bool :=
  match s with
  | EmptyString => true
  | String c tl => is_digit c && all_digits tl
  end.

(** ** The insight generator *)

Definition fear_sentence : string := "Traders tend to lose more during Fear sentiment.".
Definition greed_sentence : string := "Traders perform better during Greed sentiment.".
Definition fear_leverage_prefix : string := "Avg leverage during Fear: ".
Definition greed_leverage_prefix : string := "Avg leverage during Greed: ".

Definition zero : cell := VNum (0 # 1).

(** [generate_trading_insights] *)
Definition generate_trading_insights (self : Analysis) : Result (list string) :=
  let insights : list string := [] in
  sentiment_perf <- groupby_agg agg_mean (merged_data self) "Classification" "closedPnL" ;;
  let insights :=
    if lt_zero (series_get sentiment_perf (VStr "Fear") zero)
    then (insights ++ [fear_sentence])%list else insights in
  let insights :=
    if gt_zero (series_get sentiment_perf (VStr "Greed") zero)
    then (insights ++ [greed_sentence])%list else insights in
  avg_leverage <- groupby_agg agg_mean (merged_data self) "Classification" "leverage" ;;
  f <- format_cell_2f (series_get avg_leverage (VStr "Fear") zero) ;;
  let insights := (insights ++ [(fear_leverage_prefix ++ f)%string])%list in
  g <- format_cell_2f (series_get avg_leverage (VStr "Greed") zero) ;;
  let insights := (insights ++ [(greed_leverage_prefix ++ g)%string])%list in
  ok insights.

(** What [grouped_mean.get(label, 0)] evaluates to, in terms of the rows:
    the mean over the rows with that label, or 0 when there is none. *)
Definition lookup_mean (cls : Series) (v : list (option Q)) (n : nat) (label : cell) : cell :=
  if existsb (fun i => cell_eqb (nth i cls VNull) label) (seq 0 n)
  then mean_where cls v n label
  else zero.

(** The text [:.2f] gives for a float. *)
Definition float_text (c : cell) : string :=
  match c with
  | VNum q => format_2f q
  | _ => "nan"
  end.


(** The values of the column [v] on the rows whose label in [cls] is
    the given one, nulls left out. *)
Definition values_where (cls : Series) (v : list (option Q)) (n : nat) (label : cell)
  : list Q :=
  present (take_num (rows_labelled cls n label) v).

(** The text writes [h] hundredths: a minus sign or none, the whole part
    in decimal, a point and two digits. *)
Definition shows_hundredths (negative : bool) (h : Z) (t : string) : Prop :=
  t = ((if negative then "-" else "") ++ decimal (h / 100) ++ "."
       ++ String (digit ((h mod 100) / 10)) (String (digit (h mod 10)) ""))%string.

(** The text is the number [q] written with two decimal places: it
    shows a whole number of hundredths nearest to [|q|], with the sign
    of [q]. *)
Definition two_decimals_of (q : Q) (t : string) : Prop :=
  exists h, (0 <= h)%Z
            /\ (Qabs (inject_Z h - Qabs q * (100 # 1)) <= 1 # 2)%Q
            /\ shows_hundredths (negb (Qle_bool (0 # 1) q)) h t.

(** What a leverage statement shows for a label, case by case: no row
    with the label; some row with the label has a leverage, and the
    statement then shows, with two decimal places, a float64 nearest to
    the mean of the leverages of those rows; rows with the label exist
    and none has a leverage. *)
Definition leverage_text_ok (cls : Series) (lev : list (option Q)) (n : nat)
    (label : cell) (t : string) : Prop :=
  (~ (exists i, i < n /\ nth i cls VNull = label) -> t = "0.00")
  /\ ((exists i, i < n /\ nth i cls VNull = label /\ nth i lev None <> None) ->
      exists q, nearest_float64 (Qmean (values_where cls lev n label)) q
                /\ t = format_2f q /\ two_decimals_of q t /\ is_two_decimal t = true)
  /\ ((exists i, i < n /\ nth i cls VNull = label) ->
      (forall i, i < n -> nth i cls VNull = label -> nth i lev None = None) ->
      t = "nan").

(** ** Transitions between consecutive sentiment rows *)

(** [s.shift(1)]: every value moves one row down, the first row gets a
    null, the last value is lost. *)
Definition shift1 (s : Series) : Series :=
  match s with
  | [] => []
  | _ :: _ => VNull :: removelast s
  end.

(** A column that read_csv gave a numeric dtype: at least one row and no
    text in it.  [shift] keeps the dtype of the column it shifts. *)
Definition numeric_dtype (s : Series) : bool :=
  negb (List.length s =? 0)
  && forallb (fun c => match c with VNum _ | VNull => true | _ => false end) s.

(** [a + b] on the cells of object columns: text is concatenated, a
    null on either side gives a null. *)
Definition add_cells (a b : cell) : Result cell :=
  match a, b with
  | VNull, _ => ok VNull
  | _, VNull => ok VNull
  | VStr x, VStr y => ok (VStr (x ++ y))
  | _, _ => raise (TypeError "unsupported operand type(s) for +")
  end.

Fixpoint add_series (a b : Series) : Result Series :=
  match a, b with
  | x :: a', y :: b' => c <- add_cells x y ;; r <- add_series a' b' ;; ok (c :: r)
  | _, _ => ok []
  end.

Definition arrow : string := " → ".

(** [prev + " → " + cur], where [prev] has the dtype of [cur]. *)
Definition transition_labels (prev cur : Series) : Result Series :=
  left <- (if numeric_dtype cur
           then raise (TypeError "unsupported operand type(s) for +")
           else mapM (fun c => add_cells c (VStr arrow)) prev) ;;
  add_series left cur.

(** Consecutive rows in the order of the column: (row 0, row 1),
    (row 1, row 2), ...; and the label of the step from one row to the
    next, null when either classification is. *)
Definition consecutive (s : Series) : list (cell * cell) := combine s (tl s).

Definition pair_label (prev cur : cell) : cell :=
  match prev, cur with
  | VStr a, VStr b => VStr (a ++ arrow ++ b)
  | _, _ => VNull
  end.

Definition step_labels (s : Series) : Series :=
  map (fun pc => pair_label (fst pc) (snd pc)) (consecutive s).

Definition text_or_null (c : cell) : Prop :=
  match c with
  | VStr _ | VNull => True
  | _ => False
  end.

(** ** Effects: the object, the files written, the standard output *)

Record Sheet : Type := mkSheet {
  sheet_name : string;
  sheet_data : DataFrame;
  header_styled : bool
}.

Inductive artifact : Type :=
| Figure (kind title : string) (data : LabelledSeries)
| Workbook (sheets : list Sheet).

Record World : Type := mkWorld {
  files : list (string * artifact);
  stdout : list string
}.

Definition State : Type := (Analysis * World)%type.

(** A method: it may raise, and whatever it did to the object and to the
    world before raising stays done. *)
Definition M (A : Type) : Type := State -> Result A * State.

Definition ret {A : Type} (a : A) : M A := fun st => (ok a, st).

Definition bind {A B : Type} (m : M A) (k : A -> M B) : M B :=
  fun st =>
    match m st with
    | (inl e, st') => (inl e, st')
    | (inr a, st') => k a st'
    end.

Notation "x <~ m ;; k" := (bind m (fun x => k))
  (at level 61, m at next level, right associativity).
Notation "m ;;; k" := (bind m (fun _ => k))
  (at level 61, right associativity).

Definition lift {A : Type} (r : Result A) : M A := fun st => (r, st).

Definition get_self : M Analysis := fun st => (ok (fst st), st).

(** A method that only reads the object. *)
Definition call {A : Type} (f : Analysis -> Result A) : M A :=
  fun st => (f (fst st), st).

(** [self.fear_greed_data[c] = s] *)
Definition set_fear_greed_column (c : string) (s : Series) : M unit :=
  fun st =>
    let self := fst st in
    (ok tt,
     (mkAnalysis (output_file self) (trader_data self)
                 (setitem (fear_greed_data self) c s) (merged_data self),
      snd st)).

Definition write_file (path : string) (a : artifact) (fs : list (string * artifact))
  : list (string * artifact) :=
  (path, a) :: filter (fun e => negb (String.eqb (fst e) path)) fs.

Definition read_file (path : string) (fs : list (string * artifact)) : option artifact :=
  match find (fun e => String.eqb (fst e) path) fs with
  | Some e => Some (snd e)
  | None => None
  end.

Definition save (path : string) (a : artifact) : M unit :=
  fun st => (ok tt, (fst st, mkWorld (write_file path a (files (snd st))) (stdout (snd st)))).

(** [plt.savefig(path)] of the figure just drawn; rendering itself is
    taken to succeed.  A bar plot of an empty series raises in pandas, so
    a statement that a bar chart is saved carries the hypothesis that
    there is something to draw. *)
Definition savefig (path : string) (fig : artifact) : M unit := save path fig.

Definition print (line : string) : M unit :=
  fun st => (ok tt, (fst st, mkWorld (files (snd st)) (stdout (snd st) ++ [line]))).

Fixpoint for_each {A : Type} (l : list A) (body : A -> M unit) : M unit :=
  match l with
  | [] => ret tt
  | a :: tl => body a ;;; for_each tl body
  end.

Definition analyze_sentiment_distribution : M unit :=
  self <~ get_self ;;
  cls <~ lift (getitem (fear_greed_data self) "Classification") ;;
  let sentiment_counts := value_counts cls in
  savefig "sentiment_distribution.png"
          (Figure "pie" "Fear/Greed Distribution" (counts_series sentiment_counts)).

Definition analyze_performance_by_sentiment : M unit :=
  self <~ get_self ;;
  sentiment_perf <~ lift (groupby_agg agg_mean (merged_data self) "Classification" "closedPnL") ;;
  savefig "performance_by_sentiment.png"
          (Figure "bar" "Avg Trader PnL by Sentiment" sentiment_perf).

(** [.sort_values(ascending=False)] on the sums (never null). *)
Definition sort_values_desc (s : LabelledSeries) : LabelledSeries :=
  sort_by (fun a b => cell_leb (snd b) (snd a)) s.

Definition analyze_top_performers : M unit :=
  self <~ get_self ;;
  totals <~ lift (groupby_agg agg_sum (merged_data self) "account" "closedPnL") ;;
  let top_traders := firstn 10 (sort_values_desc totals) in
  savefig "top_traders.png" (Figure "bar" "Top 10 Traders by PnL" top_traders).

Definition sentiment_transition_analysis : M unit :=
  self <~ get_self ;;
  cls <~ lift (getitem (fear_greed_data self) "Classification") ;;
  set_fear_greed_column "Prev_Sentiment" (shift1 cls) ;;;
  self <~ get_self ;;
  prev <~ lift (getitem (fear_greed_data self) "Prev_Sentiment") ;;
  cur <~ lift (getitem (fear_greed_data self) "Classification") ;;
  tr <~ lift (transition_labels prev cur) ;;
  set_fear_greed_column "Transition" tr ;;;
  self <~ get_self ;;
  t <~ lift (getitem (fear_greed_data self) "Transition") ;;
  let transition_counts := value_counts t in
  savefig "sentiment_transitions.png"
          (Figure "bar" "Sentiment Transitions Over Time" (counts_series transition_counts)).

(** [style_excel_workbook]: reloads the workbook, styles the first row of
    every sheet and saves it again; cell values are not touched. *)
Definition style_excel_workbook : M unit :=
  fun st =>
    let path := output_file (fst st) in
    match read_file path (files (snd st)) with
    | Some (Workbook sheets) =>
        let styled := map (fun s => mkSheet (sheet_name s) (sheet_data s) true) sheets in
        (ok tt, (fst st, mkWorld (write_file path (Workbook styled) (files (snd st)))
                                 (stdout (snd st))))
    | _ => (raise (ValueError "not a workbook"), st)
    end.

Definition export_to_excel : M unit :=
  trader_metrics <~ call calculate_trader_metrics ;;
  self <~ get_self ;;
  save (output_file self)
       (Workbook [ mkSheet "Trader Metrics" trader_metrics false;
                   mkSheet "Merged Data" (merged_data self) false ]) ;;;
  style_excel_workbook.

Definition run_all_analyses : M unit :=
  analyze_sentiment_distribution ;;;
  analyze_performance_by_sentiment ;;;
  analyze_top_performers ;;;
  sentiment_transition_analysis ;;;
  insights <~ call generate_trading_insights ;;
  print "" ;;;
  print "Generated Insights:" ;;;
  for_each insights (fun i => print ("- " ++ i)).

(** What the script does once the object is built. *)
Definition script_body : M unit :=
  run_all_analyses ;;;
  export_to_excel ;;;
  self <~ get_self ;;
  print "" ;;;
  print ("Analysis complete. Results exported to: " ++ output_file self).

Section Main.

Variable to_timestamp : bool -> cell -> option (date * Z).

(** The script: build the object, run the analyses, export.  The
    result is the outcome, the object if it was built, and the world. *)
Definition main (trader_file fear_greed_file : DataFrame) (out : string) (w : World)
  : Result unit * option Analysis * World :=
  match init to_timestamp trader_file fear_greed_file out with
  | inl e => (inl e, None, w)
  | inr analysis =>
      let '(r, (a, w')) := script_body (analysis, w) in
      (r, Some a, w')
  end.

End Main.

(** ** Frame conditions on methods *)

(** The method leaves the object as it found it, whatever its outcome. *)
Definition preserves_object {A : Type} (m : M A) : Prop :=
  forall st, fst (snd (m st)) = fst st.

(** The method may change the sentiment frame and nothing else of the
    object, whatever its outcome. *)
Definition touches_only_sentiment {A : Type} (m : M A) : Prop :=
  forall st,
    output_file (fst (snd (m st))) = output_file (fst st)
    /\ trader_data (fst (snd (m st))) = trader_data (fst st)
    /\ merged_data (fst (snd (m st))) = merged_data (fst st).

(** The method writes no file. *)
Definition keeps_files {A : Type} (m : M A) : Prop :=
  forall st, files (snd (snd (m st))) = files (snd st).

(** ** A concrete date reader and sample inputs

    The loaders are modelled for every conversion; the examples below use
    one that reads the two layouts of the program's data files:
    [DD-MM-YYYY] optionally followed by [ HH:MM] (day first) and
    [YYYY-MM-DD]. *)

Definition digit_value (c : ascii) : option Z :=
  if is_digit c then Some (Z.of_nat (nat_of_ascii c - 48)) else None.

Fixpoint number_from (s : string) (acc : Z) : option Z :=
  match s with
  | EmptyString => Some acc
  | String c tl =>
      match digit_value c with
      | Some d => number_from tl (acc * 10 + d)
      | None => None
      end
  end.

Definition field (start len : nat) (s : string) : option Z :=
  number_from (substring start len s) 0.

Definition is_leap (y : Z) : bool :=
  ((y mod 4 =? 0) && negb (y mod 100 =? 0) || (y mod 400 =? 0))%Z.

Definition days_in_month (y m : Z) : Z :=
  if (m =? 2)%Z then (if is_leap y then 29 else 28)
  else if ((m =? 4) || (m =? 6) || (m =? 9) || (m =? 11))%Z then 30 else 31.

Definition valid_date (y m d : Z) : bool :=
  ((1 <=? m) && (m <=? 12) && (1 <=? d) && (d <=? days_in_month y m))%Z.

Definition make_timestamp (y m d hh mm : option Z) : option (date * Z) :=
  match y, m, d, hh, mm with
  | Some y, Some m, Some d, Some hh, Some mm =>
      if valid_date y m d && (hh <? 24)%Z && (mm <? 60)%Z
      then Some (mkdate y m d, (hh * 3600 + mm * 60)%Z)
      else None
  | _, _, _, _, _ => None
  end.

Definition dash_at (i : nat) (s : string) : bool :=
  match get i s with Some c => Ascii.eqb c "-" | None => false end.

Definition read_timestamp (dayfirst : bool) (c : cell) : option (date * Z) :=
  match c with
  | VStr s =>
      if negb (dash_at 2 s && dash_at 5 s) && negb (dash_at 4 s && dash_at 7 s) then None
      else if dayfirst && dash_at 2 s then
        if String.length s =? 10
        then make_timestamp (field 6 4 s) (field 3 2 s) (field 0 2 s) (Some 0%Z) (Some 0%Z)
        else if (String.length s =? 16) && String.eqb (substring 10 1 s) " "
                && String.eqb (substring 13 1 s) ":"
        then make_timestamp (field 6 4 s) (field 3 2 s) (field 0 2 s) (field 11 2 s) (field 14 2 s)
        else None
      else if negb dayfirst && dash_at 4 s && (String.length s =? 10)
      then make_timestamp (field 0 4 s) (field 5 2 s) (field 8 2 s) (Some 0%Z) (Some 0%Z)
      else None
  | VTime d t => Some (d, t)
  | VDate d => Some (d, 0%Z)
  | _ => None
  end.

Definition num (z : Z) : cell := VNum (inject_Z z).

(** Four trades on three days by two accounts; the third has a
    timestamp that cannot be read; there is no leverage column. *)
Definition sample_trades : DataFrame :=
  mkFrame 4
    [ ("Account", [VStr "0xa1"; VStr "0xa1"; VStr "0xb2"; VStr "0xb2"]);
      ("Coin", [VStr "BTC"; VStr "BTC"; VStr "ETH"; VStr "ETH"]);
      ("Size Tokens", [num 2; num 4; num 1; num 3]);
      ("Timestamp IST",
       [VStr "01-01-2021 10:30"; VStr "01-01-2021 18:05"; VStr "soon"; VStr "02-01-2021 09:00"]);
      ("Closed PnL", [num 10; num (-15); num 3; num 7]) ].

(** The same trades with a leverage column. *)
Definition sample_trades_leveraged : DataFrame :=
  mkFrame 4 (cols sample_trades ++ [("leverage", [num 2; num 3; VNull; num 5])]).

(** The trades without their timestamp column. *)
Definition sample_trades_no_time : DataFrame :=
  mkFrame 4 (filter (fun cs => negb (String.eqb (fst cs) "Timestamp IST")) (cols sample_trades)).

Definition sample_sentiment : DataFrame :=
  mkFrame 3
    [ ("date", [VStr "2021-01-01"; VStr "2021-01-02"; VStr "2021-01-03"]);
      ("classification", [VStr "Fear"; VStr "Greed"; VStr "Fear"]) ].

(** A sentiment file with one date that cannot be read. *)
Definition sample_sentiment_bad_date : DataFrame :=
  mkFrame 3
    [ ("date", [VStr "2021-01-01"; VStr "not a date"; VStr "2021-01-03"]);
      ("classification", [VStr "Fear"; VStr "Greed"; VStr "Fear"]) ].

Definition empty_world : World := mkWorld [] [].

Definition no_analysis : Analysis :=
  mkAnalysis "" (mkFrame 0 []) (mkFrame 0 []) (mkFrame 0 []).

(** The object built from the sample trades (no leverage column) and the
    sample sentiment file. *)
Definition sample_analysis : Analysis :=
  Eval vm_compute in
    match init read_timestamp sample_trades sample_sentiment "out.xlsx" with
    | inr a => a
    | inl _ => no_analysis
    end.

(** The object built from the sample trades with leverage. *)
Definition sample_analysis_leveraged : Analysis :=
  Eval vm_compute in
    match init read_timestamp sample_trades_leveraged sample_sentiment "out.xlsx" with
    | inr a => a
    | inl _ => no_analysis
    end.

(** A column of a frame, and a column read as numbers (empty when the
    column is missing). *)
Definition column_of (df : DataFrame) (c : string) : Series :=
  match getitem df c with
  | inr s => s
  | inl _ => []
  end.

Definition numbers_of (df : DataFrame) (c : string) : list (option Q) :=
  match get_numeric df c with
  | inr v => v
  | inl _ => []
  end.

Definition sample_state : State := (sample_analysis_leveraged, empty_world).


(** ** Further notions used in the properties *)

(** Every column has as many cells as the frame has rows. *)
Definition rectangular (df : DataFrame) : Prop :=
  Forall (fun cs => List.length (snd cs) = nrows df) (cols df).

(** The labels of the frame are distinct ([df.columns.is_unique]), so
    that [df[c]] is one column. *)
Definition unique_columns (df : DataFrame) : Prop := NoDup (columns df).

(** One of the first [n] cells of the series is present. *)
Definition some_present (s : Series) (n : nat) : Prop :=
  exists i, i < n /\ nth i s VNull <> VNull.

(** The cell is empty or the conversion reads it. *)
Definition readable (conv : bool -> cell -> option (date * Z)) (dayfirst : bool) (c : cell)
  : Prop :=
  c = VNull \/ conv dayfirst c <> None.

(** The method prints nothing. *)
Definition keeps_stdout {A : Type} (m : M A) : Prop :=
  forall st, stdout (snd (snd (m st))) = stdout (snd st).

(** The names under which the charts are saved. *)
Definition chart_files : list string :=
  [ "sentiment_distribution.png"; "performance_by_sentiment.png";
    "top_traders.png"; "sentiment_transitions.png" ].

(** The method keeps the output path of the object and leaves every file
    alone that is neither a chart nor the workbook, whatever its outcome. *)
Definition writes_only_outputs {A : Type} (m : M A) : Prop :=
  forall st,
    output_file (fst (snd (m st))) = output_file (fst st)
    /\ forall p, ~ In p chart_files -> p <> output_file (fst st) ->
                 read_file p (files (snd (snd (m st)))) = read_file p (files (snd st)).


(** The counts of a [value_counts] do not increase along it. *)
Definition counts_descending (l : list (cell * nat)) : Prop :=
  StronglySorted (fun a b => snd b <= snd a) l.

Definition nat_cell (n : nat) : cell := VNum (inject_Z (Z.of_nat n)).

(** A sentiment file without a date column. *)
Definition sample_sentiment_no_date : DataFrame :=
  mkFrame 3 [ ("classification", [VStr "Fear"; VStr "Greed"; VStr "Fear"]) ].

(** A sentiment file whose second date is empty. *)
Definition sample_sentiment_empty_date : DataFrame :=
  mkFrame 3
    [ ("date", [VStr "2021-01-01"; VNull; VStr "2021-01-03"]);
      ("classification", [VStr "Fear"; VStr "Greed"; VStr "Fear"]) ].

(** A sentiment file whose days are not those of the sample trades. *)
Definition sample_sentiment_other_days : DataFrame :=
  mkFrame 2
    [ ("date", [VStr "2022-05-01"; VStr "2022-05-02"]);
      ("classification", [VStr "Fear"; VStr "Greed"]) ].

(** A sentiment file in which the second day occurs twice. *)
Definition sample_sentiment_twice : DataFrame :=
  mkFrame 3
    [ ("date", [VStr "2021-01-01"; VStr "2021-01-02"; VStr "2021-01-02"]);
      ("classification", [VStr "Fear"; VStr "Greed"; VStr "Neutral"]) ].

(** A sentiment file that has a leverage column of its own. *)
Definition sample_sentiment_with_leverage : DataFrame :=
  mkFrame 3 (cols sample_sentiment ++ [("leverage", [num 1; num 1; num 1])]).

(** The sample trades without their closed PnL. *)
Definition sample_trades_no_pnl : DataFrame :=
  mkFrame 4 (filter (fun cs => negb (String.eqb (fst cs) "Closed PnL")) (cols sample_trades)).

Definition built (trader_file fear_greed_file : DataFrame) : Analysis :=
  match init read_timestamp trader_file fear_greed_file "out.xlsx" with
  | inr a => a
  | inl _ => no_analysis
  end.

(** The metrics table of an object (empty when it cannot be computed). *)
Definition metrics_of (a : Analysis) : DataFrame :=
  match calculate_trader_metrics a with
  | inr tm => tm
  | inl _ => mkFrame 0 []
  end.

(** The sample trades without their size. *)
Definition sample_trades_no_size : DataFrame :=
  mkFrame 4 (filter (fun cs => negb (String.eqb (fst cs) "Size Tokens")) (cols sample_trades)).

(** The object built from the trades without size, before any run. *)
Definition sample_state_no_size : State :=
  (built sample_trades_no_size sample_sentiment, empty_world).

(** The object built from the trades without closed PnL, before any run. *)
Definition sample_state_no_pnl : State :=
  (built sample_trades_no_pnl sample_sentiment, empty_world).

(** The leveraged sample in a world that already holds a file of its own. *)
Definition sample_state_with_notes : State :=
  (sample_analysis_leveraged, mkWorld [("notes.txt", Figure "note" "kept" [])] []).

(** * Properties *)

(** ** Rounding to float64 *)

Section Float64Facts.

Local Open Scope Q_scope.

Lemma round_half_even_nearest (x : Q) (z : Z) :
  Qabs (inject_Z (round_half_even x) - x) <= Qabs (inject_Z z - x).
Proof.
  unfold round_half_even. set (n := Qfloor x).
  assert (Hn1 : inject_Z n <= x) by apply Qfloor_le.
  assert (Hs : inject_Z (n + 1) == inject_Z n + 1).
  { rewrite inject_Z_plus. reflexivity. }
  assert (Hn2 : x < inject_Z n + 1).
  { rewrite <- Hs. apply Qlt_floor. }
  assert (Hz : inject_Z z <= inject_Z n \/ inject_Z n + 1 <= inject_Z z).
  { destruct (Z_le_gt_dec z n) as [H | H].
    - left. now rewrite <- Zle_Qle.
    - right. rewrite <- Hs, <- Zle_Qle. lia. }
  destruct (Qcompare_spec (x - inject_Z n) (1 # 2)) as [E | E | E];
    [destruct (Z.even n) |..];
    try rewrite Hs;
    apply Qabs_case; intros H1; apply Qabs_case; intros H2; destruct Hz; lra.
Qed.

Lemma round_half_even_ge (x : Q) (z : Z) : inject_Z z <= x -> (z <= round_half_even x)%Z.
Proof.
  intros H. unfold round_half_even.
  assert (Hf : (z <= Qfloor x)%Z).
  { rewrite <- (Qfloor_Z z). now apply Qfloor_resp_le. }
  destruct (_ ?= _); [destruct (Z.even _) |..]; lia.
Qed.

Lemma round_half_even_le (x : Q) (z : Z) : x <= inject_Z z -> (round_half_even x <= z)%Z.
Proof.
  intros H. unfold round_half_even. set (n := Qfloor x).
  assert (Hn1 : inject_Z n <= x) by apply Qfloor_le.
  assert (Hf : (n <= z)%Z) by (rewrite Zle_Qle; lra).
  destruct (Z.eq_dec n z) as [-> | Hne].
  - assert (E : x - inject_Z z == 0) by lra.
    destruct (Qcompare_spec (x - inject_Z z) (1 # 2)) as [E' | E' | E']; try lra.
    lia.
  - destruct (_ ?= _); [destruct (Z.even _) |..]; lia.
Qed.

Lemma two_pos (e : Z) : 0 < two ^ e.
Proof. apply Qpower_0_lt. reflexivity. Qed.

Lemma two_nonzero : ~ two == 0.
Proof. discriminate. Qed.

Lemma two_succ (e : Z) : two ^ (e + 1) == two ^ e * 2.
Proof. rewrite Qpower_plus by apply two_nonzero. reflexivity. Qed.

Lemma two_pred (e : Z) : two ^ (e - 1) == two ^ e / 2.
Proof. rewrite Qpower_minus by apply two_nonzero. reflexivity. Qed.

Lemma two_nat (n : Z) : (0 <= n)%Z -> two ^ n == inject_Z (2 ^ n).
Proof. intros H. now rewrite Zpower_Qpower. Qed.

Lemma log2_bounds (a : Z) :
  (0 < a)%Z -> two ^ Z.log2 a <= inject_Z a /\ inject_Z a < two ^ (Z.log2 a + 1).
Proof.
  intros Ha. destruct (Z.log2_spec a Ha) as [H1 H2].
  pose proof (Z.log2_nonneg a) as Hn.
  rewrite !two_nat by lia. rewrite <- Zle_Qle, <- Zlt_Qlt.
  split; [exact H1 |]. now rewrite Z.add_1_r.
Qed.

Lemma binade_spec (q : Q) :
  ~ q == 0 -> two ^ 52 <= Qabs q / two ^ binade q /\ Qabs q / two ^ binade q < two ^ 53.
Proof.
  intros Hq. unfold binade.
  set (a := Z.abs (Qnum q)). set (b := Z.pos (Qden q)).
  assert (Ha : (0 < a)%Z).
  { unfold a. destruct q as [n d]. unfold Qeq in Hq. simpl in *. lia. }
  assert (Hb : (0 < b)%Z) by (unfold b; lia).
  assert (Eq : Qabs q == inject_Z a / inject_Z b).
  { destruct q as [n d]. unfold a, b. simpl. apply Qmake_Qdiv. }
  destruct (log2_bounds a Ha) as [A1 A2]. destruct (log2_bounds b Hb) as [B1 B2].
  set (la := Z.log2 a) in *. set (lb := Z.log2 b) in *.
  set (e1 := (la - lb - 52)%Z).
  assert (HB : 0 < inject_Z b).
  { change 0 with (inject_Z 0). rewrite <- Zlt_Qlt. exact Hb. }
  pose proof (two_pos e1) as P1. pose proof (two_pos lb) as Plb.
  assert (Ela : two ^ la == two ^ e1 * two ^ lb * two ^ 52).
  { rewrite <- !Qpower_plus by apply two_nonzero. unfold e1.
    replace (la - lb - 52 + lb + 52)%Z with la by lia. reflexivity. }
  rewrite two_succ in A2, B2. rewrite Ela in A1, A2.
  set (A := inject_Z a) in *. set (B := inject_Z b) in *.
  set (p := two ^ e1) in *. set (L := two ^ lb) in *.
  assert (E52 : two ^ 52 == 4503599627370496) by reflexivity.
  assert (E53 : two ^ 53 == 9007199254740992) by reflexivity.
  assert (X1 : 2251799813685248 < A / B / p).
  { apply Qlt_shift_div_l; [exact P1 |]. apply Qlt_shift_div_l; [exact HB |].
    rewrite E52 in A1. nra. }
  assert (X2 : A / B / p < 9007199254740992).
  { apply Qlt_shift_div_r; [exact P1 |]. apply Qlt_shift_div_r; [exact HB |].
    rewrite E52 in A2. nra. }
  destruct (Qle_bool (two ^ 52) (Qabs q / p)) eqn:T.
  - apply Qle_bool_iff in T. split; [exact T |]. rewrite Eq, E53. fold A B. exact X2.
  - assert (T' : Qabs q / p < two ^ 52).
    { apply Qnot_le_lt. intros H. apply Qle_bool_iff in H. congruence. }
    rewrite two_pred, Eq, E52, E53. rewrite Eq, E52 in T'. fold A B p in T' |- *.
    assert (E : A / B / (p / 2) == 2 * (A / B / p)) by (field; split; lra).
    rewrite E. split; lra.
Qed.

Lemma is_float64_opp (f : Q) : is_float64 f -> is_float64 (- f).
Proof.
  intros (m & e & Hm & E). exists (- m)%Z, e. split; [lia |].
  rewrite E, inject_Z_opp. ring.
Qed.

Lemma Qabs_scale (a b p : Q) : 0 < p -> Qabs (a * p - b * p) == Qabs (a - b) * p.
Proof.
  intros Hp. assert (E : a * p - b * p == (a - b) * p) by ring.
  rewrite E, Qabs_Qmult, (Qabs_pos p) by lra. reflexivity.
Qed.

Lemma nearest_core (X : Q) (e : Z) (f : Q) :
  two ^ 52 <= X -> is_float64 f ->
  Qabs (inject_Z (round_half_even X) * two ^ e - X * two ^ e) <= Qabs (f - X * two ^ e).
Proof.
  intros HX (M & E & HM & Ef).
  pose proof (two_pos e) as Hp.
  assert (Ey : f == inject_Z M * two ^ (E - e) * two ^ e).
  { rewrite Ef, Qpower_minus by apply two_nonzero. field. lra. }
  rewrite Ey, !Qabs_scale by exact Hp.
  apply Qmult_le_compat_r; [| lra].
  destruct (Z_le_gt_dec e E) as [H | H].
  - rewrite two_nat by lia. rewrite <- inject_Z_mult. apply round_half_even_nearest.
  - pose proof (two_pos (E - e)) as Ht.
    assert (Hle : two ^ (E - e) <= two ^ (-1)).
    { apply Qpower_le_compat_l; [lia | unfold two; lra]. }
    assert (E1 : two ^ (-1) == 1 # 2) by reflexivity. rewrite E1 in Hle.
    assert (E52 : two ^ 52 == 4503599627370496) by reflexivity. rewrite E52 in HX.
    assert (HM1 : inject_Z M <= 9007199254740991).
    { change 9007199254740991 with (inject_Z 9007199254740991). rewrite <- Zle_Qle. lia. }
    pose proof (round_half_even_nearest X 4503599627370496) as Hn.
    change (inject_Z 4503599627370496) with 4503599627370496 in Hn.
    set (t := two ^ (E - e)) in *. set (m := inject_Z (round_half_even X)) in *.
    set (z := inject_Z M) in *.
    assert (Hy : z * t < 4503599627370496).
    { destruct (Qlt_le_dec z 0) as [Hz | Hz]; nra. }
    revert Hn. apply Qabs_case; intros H1; apply Qabs_case; intros H2;
      apply Qabs_case; intros H3; lra.
Qed.

Lemma float64_round_eq (x : Q) :
  ~ x == 0 ->
  float64_round x
  == (if Qle_bool 0 x then 1 else -1)
     * inject_Z (round_half_even (Qabs x / two ^ binade x)) * two ^ binade x.
Proof.
  intros Hx. unfold float64_round.
  destruct (Qeq_bool x 0) eqn:E; [apply Qeq_bool_iff in E; contradiction |].
  rewrite Qred_correct. destruct (Qle_bool 0 x); ring.
Qed.

Lemma significand_bounds (x : Q) :
  ~ x == 0 ->
  (2 ^ 52 <= round_half_even (Qabs x / two ^ binade x) <= 2 ^ 53)%Z.
Proof.
  intros Hx. destruct (binade_spec x Hx) as [H1 H2]. split.
  - apply round_half_even_ge. exact H1.
  - apply round_half_even_le. apply Qlt_le_weak. exact H2.
Qed.

Theorem float64_round_nearest (x : Q) : nearest_float64 x (float64_round x).
Proof.
  destruct (Qeq_dec x 0) as [Hx | Hx].
  - assert (E : float64_round x = 0).
    { unfold float64_round. apply Qeq_bool_iff in Hx. now rewrite Hx. }
    rewrite E. split.
    + exists 0%Z, 0%Z. split; [reflexivity | reflexivity].
    + intros f _. assert (E0 : 0 - x == 0) by lra. rewrite E0. apply Qabs_nonneg.
  - pose proof (float64_round_eq x Hx) as Er.
    pose proof (significand_bounds x Hx) as [M1 M2].
    destruct (binade_spec x Hx) as [B1 _].
    set (e := binade x) in *. set (m := round_half_even (Qabs x / two ^ e)) in *.
    pose proof (two_pos e) as Hp.
    split.
    + destruct (Z.eq_dec m (2 ^ 53)) as [Em | Em].
      * exists ((if Qle_bool 0 x then 1 else -1) * 2 ^ 52)%Z, (e + 1)%Z. split.
        { destruct (Qle_bool 0 x); reflexivity. }
        assert (E53 : inject_Z (2 ^ 53) == inject_Z (2 ^ 52) * 2) by reflexivity.
        rewrite Er, Em, two_succ, inject_Z_mult, E53.
        destruct (Qle_bool 0 x);
          [change (inject_Z 1) with 1 | change (inject_Z (-1)) with (-1)]; ring.
      * exists ((if Qle_bool 0 x then 1 else -1) * m)%Z, e. split.
        { destruct (Qle_bool 0 x); lia. }
        rewrite Er, inject_Z_mult.
        destruct (Qle_bool 0 x);
          [change (inject_Z 1) with 1 | change (inject_Z (-1)) with (-1)]; ring.
    + intros f Hf. rewrite Er.
      destruct (Qle_bool 0 x) eqn:S.
      * apply Qle_bool_iff in S.
        set (X := Qabs x / two ^ e) in *.
        assert (Ex : x == X * two ^ e).
        { unfold X. rewrite Qabs_pos by exact S. field. lra. }
        rewrite Ex.
        assert (E1 : 1 * inject_Z m * two ^ e == inject_Z m * two ^ e) by ring.
        rewrite E1. now apply nearest_core.
      * assert (S' : x < 0).
        { apply Qnot_le_lt. intros H. apply Qle_bool_iff in H. congruence. }
        set (X := Qabs x / two ^ e) in *.
        assert (Ex : x == - (X * two ^ e)).
        { unfold X. rewrite Qabs_neg by lra. field. lra. }
        rewrite Ex.
        assert (E1 : -1 * inject_Z m * two ^ e - - (X * two ^ e)
                     == - (inject_Z m * two ^ e - X * two ^ e)) by ring.
        assert (E2 : f - - (X * two ^ e) == - (- f - X * two ^ e)) by ring.
        rewrite E1, E2, !Qabs_opp. apply nearest_core; [exact B1 |].
        now apply is_float64_opp.
Qed.



Lemma float64_round_zero (x : Q) : x == 0 -> float64_round x = 0.
Proof.
  intros Hx. unfold float64_round. apply Qeq_bool_iff in Hx. now rewrite Hx.
Qed.

(** A value that is a float64 already is not changed. *)
Lemma float64_round_exact (x : Q) : is_float64 x -> float64_round x == x.
Proof.
  intros Hx. destruct (float64_round_nearest x) as [_ H]. specialize (H x Hx).
  assert (E : x - x == 0) by ring. rewrite E in H. change (Qabs 0) with 0 in H.
  revert H. apply Qabs_case; intros H1 H2; lra.
Qed.

Lemma round_half_even_half (x : Q) : Qabs (inject_Z (round_half_even x) - x) <= 1 # 2.
Proof.
  unfold round_half_even. set (n := Qfloor x).
  assert (Hn1 : inject_Z n <= x) by apply Qfloor_le.
  assert (Hs : inject_Z (n + 1) == inject_Z n + 1).
  { rewrite inject_Z_plus. reflexivity. }
  assert (Hn2 : x < inject_Z n + 1).
  { rewrite <- Hs. apply Qlt_floor. }
  destruct (Qcompare_spec (x - inject_Z n) (1 # 2)) as [E | E | E];
    [destruct (Z.even n) |..];
    try rewrite Hs; apply Qabs_case; intros H1; lra.
Qed.

End Float64Facts.

(** ** Fallible computations *)

Lemma rbind_ok {A B : Type} (m : Result A) (k : A -> Result B) (b : B) :
  rbind m k = inr b -> exists a, m = inr a /\ k a = inr b.
Proof.
  destruct m as [e | a]; simpl; intros H; [discriminate | eauto].
Qed.

Ltac inv_ok :=
  repeat match goal with
         | H : rbind _ _ = inr _ |- _ =>
             let a := fresh "v" in
             let Ha := fresh "Hv" in
             apply rbind_ok in H; destruct H as (a & Ha & H)
         | H : ok _ = inr _ |- _ => unfold ok in H
         | H : inr _ = inr _ |- _ => injection H as H
         | H : raise _ = inr _ |- _ => discriminate H
         | H : inl _ = inr _ |- _ => discriminate H
         end.




Lemma mapM_map {A B : Type} (f : A -> Result B) (g : A -> B) (l : list A) :
  (forall a, In a l -> f a = inr (g a)) -> mapM f l = inr (map g l).
Proof.
  induction l as [| a l IH]; simpl; intros H; [reflexivity |].
  rewrite (H a (or_introl eq_refl)), IH by (intros; apply H; now right).
  reflexivity.
Qed.

(** ** Equality of cells and keys *)

Lemma date_eqb_eq (a b : date) : date_eqb a b = true <-> a = b.
Proof.
  unfold date_eqb. destruct a as [y m d], b as [y' m' d']; simpl.
  rewrite !andb_true_iff, !Z.eqb_eq. split.
  - intros [[-> ->] ->]. reflexivity.
  - intros H. injection H as -> -> ->. auto.
Qed.

Lemma Q_eqb_eq (a b : Q) : Q_eqb a b = true <-> a = b.
Proof.
  unfold Q_eqb. destruct a as [n d], b as [n' d']; simpl.
  rewrite andb_true_iff, Z.eqb_eq, Pos.eqb_eq. split.
  - intros [-> ->]. reflexivity.
  - intros H. injection H as -> ->. auto.
Qed.

Lemma cell_eqb_eq (a b : cell) : cell_eqb a b = true <-> a = b.
Proof.
  destruct a, b; simpl; try (split; [discriminate | congruence]).
  - rewrite String.eqb_eq. split; congruence.
  - rewrite Q_eqb_eq. split; congruence.
  - rewrite andb_true_iff, date_eqb_eq, Z.eqb_eq. split.
    + intros [-> ->]. reflexivity.
    + intros H. injection H as -> ->. auto.
  - rewrite date_eqb_eq. split; congruence.
  - split; reflexivity.
Qed.

Lemma cell_eqb_refl (a : cell) : cell_eqb a a = true.
Proof. now apply cell_eqb_eq. Qed.

Lemma cell_eqb_neq (a b : cell) : cell_eqb a b = false <-> a <> b.
Proof.
  rewrite <- cell_eqb_eq. destruct (cell_eqb a b); split; congruence.
Qed.

Lemma key_eqb_eq (a b : list cell) : key_eqb a b = true <-> a = b.
Proof.
  revert b; induction a as [| x a IH]; intros [| y b]; simpl;
    try (split; [discriminate | congruence]).
  - split; reflexivity.
  - rewrite andb_true_iff, cell_eqb_eq, IH. split.
    + intros [-> ->]. reflexivity.
    + intros H. injection H as -> ->. auto.
Qed.

Lemma key_eqb_refl (a : list cell) : key_eqb a a = true.
Proof. now apply key_eqb_eq. Qed.

(** ** First occurrences and sorting *)

Section Uniq.

Context {A : Type} (eqb : A -> A -> bool).
Hypothesis eqb_eq : forall a b, eqb a b = true <-> a = b.

Lemma uniq_In (l : list A) (x : A) : In x (uniq eqb l) <-> In x l.
Proof.
  induction l as [| y l IH]; simpl; [reflexivity |].
  rewrite filter_In, IH. split.
  - intros [H | [H _]]; auto.
  - intros [H | H]; [now left |].
    destruct (eqb y x) eqn:E.
    + left. now apply eqb_eq.
    + right. split; [assumption | reflexivity].
Qed.

Lemma uniq_NoDup (l : list A) : NoDup (uniq eqb l).
Proof.
  induction l as [| y l IH]; simpl; constructor.
  - rewrite filter_In. intros [_ H].
    assert (E : eqb y y = true) by now apply eqb_eq.
    rewrite E in H. discriminate.
  - now apply NoDup_filter.
Qed.

End Uniq.

Lemma insert_sorted_perm {A : Type} (leb : A -> A -> bool) (x : A) (l : list A) :
  Permutation (x :: l) (insert_sorted leb x l).
Proof.
  induction l as [| y l IH]; simpl; [reflexivity |].
  destruct (leb x y); [reflexivity |].
  rewrite perm_swap. now constructor.
Qed.

Lemma sort_by_perm {A : Type} (leb : A -> A -> bool) (l : list A) :
  Permutation l (sort_by leb l).
Proof.
  induction l as [| x l IH]; simpl; [constructor |].
  rewrite <- insert_sorted_perm. now constructor.
Qed.

Lemma sort_by_In {A : Type} (leb : A -> A -> bool) (l : list A) (x : A) :
  In x (sort_by leb l) <-> In x l.
Proof.
  split; apply Permutation_in; [symmetry |]; apply sort_by_perm.
Qed.

Lemma sort_by_NoDup {A : Type} (leb : A -> A -> bool) (l : list A) :
  NoDup l -> NoDup (sort_by leb l).
Proof. apply Permutation_NoDup, sort_by_perm. Qed.

(** ** Columns of a frame *)

Lemma lookup_col_In (c : string) (l : list (string * Series)) (s : Series) :
  lookup_col c l = Some s -> In (c, s) l.
Proof.
  induction l as [| [c' s'] l IH]; simpl; [discriminate |].
  destruct (String.eqb_spec c' c) as [-> | Hne].
  - intros H. injection H as ->. now left.
  - intros H. right. auto.
Qed.

Lemma lookup_col_None (c : string) (l : list (string * Series)) :
  lookup_col c l = None <-> ~ In c (map fst l).
Proof.
  induction l as [| [c' s'] l IH]; simpl.
  - tauto.
  - destruct (String.eqb_spec c' c) as [-> | Hne].
    + split; [discriminate | tauto].
    + rewrite IH. tauto.
Qed.

Lemma lookup_col_Some (c : string) (l : list (string * Series)) :
  In c (map fst l) -> exists s, lookup_col c l = Some s.
Proof.
  intros H. destruct (lookup_col c l) eqn:E; [eauto |].
  apply lookup_col_None in E. contradiction.
Qed.

Lemma has_column_In (c : string) (df : DataFrame) :
  has_column c df = true <-> In c (columns df).
Proof.
  unfold has_column. rewrite existsb_exists. split.
  - intros (x & Hx & E). apply String.eqb_eq in E. now subst.
  - intros H. exists c. split; [assumption | apply String.eqb_refl].
Qed.

Lemma lookup_assign_same (c : string) (s : Series) (l : list (string * Series)) :
  lookup_col c (assign_col c s l) = Some s.
Proof.
  induction l as [| [c' s'] l IH]; simpl.
  - now rewrite String.eqb_refl.
  - destruct (String.eqb c' c) eqn:E; simpl.
    + now rewrite String.eqb_refl.
    + now rewrite E.
Qed.

Lemma lookup_assign_other (c c0 : string) (s : Series) (l : list (string * Series)) :
  c0 <> c -> lookup_col c0 (assign_col c s l) = lookup_col c0 l.
Proof.
  intros Hne. induction l as [| [c' s'] l IH]; simpl.
  - destruct (String.eqb_spec c c0); [congruence | reflexivity].
  - destruct (String.eqb_spec c' c) as [-> | Hc]; simpl.
    + destruct (String.eqb_spec c c0); [congruence | reflexivity].
    + now rewrite IH.
Qed.

Lemma assign_col_fresh (c : string) (s : Series) (l : list (string * Series)) :
  ~ In c (map fst l) -> assign_col c s l = (l ++ [(c, s)])%list.
Proof.
  induction l as [| [c' s'] l IH]; simpl; intros H; [reflexivity |].
  destruct (String.eqb_spec c' c) as [-> | Hc]; [tauto |].
  f_equal. apply IH. tauto.
Qed.

Lemma assign_col_labels (c : string) (s : Series) (l : list (string * Series)) (x : string) :
  In x (map fst (assign_col c s l)) <-> x = c \/ In x (map fst l).
Proof.
  induction l as [| [c' s'] l IH]; simpl.
  - intuition congruence.
  - destruct (String.eqb_spec c' c) as [-> | Hc]; simpl.
    + intuition congruence.
    + rewrite IH. intuition congruence.
Qed.

Lemma assign_col_lengths (n : nat) (c : string) (s : Series) (l : list (string * Series)) :
  List.length s = n ->
  Forall (fun cs => List.length (snd cs) = n) l ->
  Forall (fun cs => List.length (snd cs) = n) (assign_col c s l).
Proof.
  intros Hs. induction 1 as [| [c' s'] l Hc Hl IH]; simpl.
  - repeat constructor. assumption.
  - destruct (String.eqb c' c); constructor; auto.
Qed.

(** ** The loaders *)

Lemma nth_dt_date (s : Series) (i : nat) :
  nth i (dt_date s) VNull = dt_date_cell (nth i s VNull).
Proof. exact (map_nth dt_date_cell s VNull i). Qed.

Section LoaderFacts.

Variable to_timestamp : bool -> cell -> option (date * Z).

Lemma to_datetime_coerce (dayfirst : bool) (s : Series) :
  to_datetime to_timestamp dayfirst ErrorsCoerce s = inr (map (coerced to_timestamp dayfirst) s).
Proof.
  apply mapM_map. intros c _. unfold to_datetime_cell, coerced.
  destruct c; try reflexivity; destruct (to_timestamp dayfirst _) as [[dd tt] |]; reflexivity.
Qed.

Lemma to_datetime_raise (dayfirst : bool) (s : Series) (c : cell) :
  In c s -> c <> VNull -> to_timestamp dayfirst c = None ->
  to_datetime to_timestamp dayfirst ErrorsRaise s
  = inl (ValueError "Unknown datetime string format").
Proof.
  unfold to_datetime. induction s as [| x s IH]; simpl; [tauto |].
  intros [-> | Hin] Hc Hnone.
  - unfold to_datetime_cell. rewrite Hnone. destruct c; try reflexivity. congruence.
  - specialize (IH Hin Hc Hnone). rewrite IH.
    destruct (to_datetime_cell to_timestamp dayfirst ErrorsRaise x) as [e | y] eqn:E;
      simpl; [| reflexivity].
    unfold to_datetime_cell, raise, ok in E.
    destruct x; try discriminate;
      match type of E with
      | context [to_timestamp ?a ?b] => destruct (to_timestamp a b) as [[dd tt] |]
      end; try discriminate; injection E as <-; reflexivity.
Qed.

Lemma nth_coerced (dayfirst : bool) (s : Series) (i : nat) :
  nth i (map (coerced to_timestamp dayfirst) s) VNull = coerced to_timestamp dayfirst (nth i s VNull).
Proof. exact (map_nth (coerced to_timestamp dayfirst) s VNull i). Qed.

Lemma load_trader_data_time (csv : DataFrame) :
  In "time" (columns (rename column_mapping csv)) ->
  exists raw,
    getitem (rename column_mapping csv) "time" = inr raw /\
    load_trader_data to_timestamp csv = inr (loaded_trades to_timestamp csv raw).
Proof.
  intros Hin. destruct (lookup_col_Some _ _ Hin) as (raw & Hraw).
  exists raw. unfold load_trader_data, loaded_trades.
  apply has_column_In in Hin. rewrite Hin.
  unfold getitem at 1 2. rewrite Hraw. split; [reflexivity |]. simpl rbind.
  rewrite to_datetime_coerce. simpl rbind.
  unfold getitem, setitem. simpl cols. rewrite lookup_assign_same. reflexivity.
Qed.

Lemma load_trader_data_no_time (csv : DataFrame) :
  ~ In "time" (columns (rename column_mapping csv)) ->
  load_trader_data to_timestamp csv
  = inl (KeyError "No valid time column found in trader data").
Proof.
  intros Hnot. unfold load_trader_data.
  destruct (has_column "time" (rename column_mapping csv)) eqn:E; [| reflexivity].
  apply has_column_In in E. contradiction.
Qed.

Lemma loaded_trades_time (csv : DataFrame) (raw : Series) :
  getitem (loaded_trades to_timestamp csv raw) "time" = inr (map (coerced to_timestamp true) raw).
Proof.
  unfold loaded_trades.
  match goal with |- context [if ?b then _ else _] => destruct b end;
    unfold getitem, setitem; simpl cols;
    rewrite ?(lookup_assign_other "leverage" "time") by discriminate;
    rewrite (lookup_assign_other "Date" "time") by discriminate;
    rewrite lookup_assign_same; reflexivity.
Qed.

Lemma loaded_trades_Date (csv : DataFrame) (raw : Series) :
  getitem (loaded_trades to_timestamp csv raw) "Date" = inr (dt_date (map (coerced to_timestamp true) raw)).
Proof.
  unfold loaded_trades.
  match goal with |- context [if ?b then _ else _] => destruct b end;
    unfold getitem, setitem; simpl cols;
    rewrite ?(lookup_assign_other "leverage" "Date") by discriminate;
    rewrite lookup_assign_same; reflexivity.
Qed.

Lemma loaded_trades_nrows (csv : DataFrame) (raw : Series) :
  nrows (loaded_trades to_timestamp csv raw) = nrows csv.
Proof.
  unfold loaded_trades.
  match goal with |- context [if ?b then _ else _] => destruct b end; reflexivity.
Qed.

Lemma loaded_trades_lengths (csv : DataFrame) (raw : Series) :
  Forall (fun cs => List.length (snd cs) = nrows csv) (cols (rename column_mapping csv)) ->
  List.length raw = nrows csv ->
  Forall (fun cs => List.length (snd cs) = nrows csv) (cols (loaded_trades to_timestamp csv raw)).
Proof.
  intros Hall Hraw. unfold loaded_trades.
  match goal with |- context [if ?b then _ else _] => destruct b end;
    unfold setitem; simpl cols; simpl nrows;
    repeat apply assign_col_lengths; try assumption;
    unfold dt_date; rewrite ?repeat_length, ?length_map; auto.
Qed.

(** Claim C3.  A trade input that has no [time] column once the fixed
    header map is applied makes the trade loader raise its
    missing-time-column error whatever the other columns are, and the
    run stops there: no analysis object (hence no merged dataset) is
    built, and the files and the standard output are as they were. *)
Theorem missing_time_column_aborts_run
    (trader_file fear_greed_file : DataFrame) (out : string) (w : World) :
  ~ In "time" (columns (rename column_mapping trader_file)) ->
  load_trader_data to_timestamp trader_file
  = inl (KeyError "No valid time column found in trader data")
  /\ main to_timestamp trader_file fear_greed_file out w
     = (inl (KeyError "No valid time column found in trader data"), None, w).
Proof.
  intros Hnot. pose proof (load_trader_data_no_time trader_file Hnot) as E.
  split; [exact E |].
  unfold main, init. rewrite E. reflexivity.
Qed.

(** Claim C5.  When the renamed trade input has a [time] column, the
    trade loader returns a frame with as many rows as the input, all
    of whose columns have that many cells; a timestamp that cannot be
    read is kept as a null timestamp with a null date, and one that
    can be read is kept with its calendar day. *)
Theorem trade_loader_keeps_every_row (csv : DataFrame) :
  wf_frame (rename column_mapping csv) ->
  In "time" (columns (rename column_mapping csv)) ->
  exists df raw t d,
    load_trader_data to_timestamp csv = inr df
    /\ nrows df = nrows csv
    /\ Forall (fun cs => List.length (snd cs) = nrows csv) (cols df)
    /\ getitem (rename column_mapping csv) "time" = inr raw
    /\ getitem df "time" = inr t
    /\ getitem df "Date" = inr d
    /\ forall i, i < nrows csv ->
         (to_timestamp true (nth i raw VNull) = None ->
          nth i t VNull = VNull /\ nth i d VNull = VNull)
         /\ (forall day secs,
               nth i raw VNull <> VNull ->
               to_timestamp true (nth i raw VNull) = Some (day, secs) ->
               nth i t VNull = VTime day secs /\ nth i d VNull = VDate day).
Proof.
  intros [_ Hlen] Hin.
  destruct (load_trader_data_time csv Hin) as (raw & Hraw & Hload).
  assert (Hrawlen : List.length raw = nrows csv).
  { unfold getitem in Hraw.
    destruct (lookup_col "time" (cols (rename column_mapping csv))) as [s |] eqn:E;
      [| discriminate].
    injection Hraw as ->. apply lookup_col_In in E.
    rewrite Forall_forall in Hlen. apply (Hlen _ E). }
  exists (loaded_trades to_timestamp csv raw), raw, (map (coerced to_timestamp true) raw),
    (dt_date (map (coerced to_timestamp true) raw)).
  split; [exact Hload |].
  split; [apply loaded_trades_nrows |].
  split; [apply loaded_trades_lengths; assumption |].
  split; [exact Hraw |].
  split; [apply loaded_trades_time |].
  split; [apply loaded_trades_Date |].
  intros i Hi. rewrite nth_dt_date, !nth_coerced. unfold coerced. split.
  - intros Hnone. rewrite Hnone. now destruct (nth i raw VNull).
  - intros dd ss Hnn Hsome. rewrite Hsome.
    destruct (nth i raw VNull); simpl; auto; congruence.
Qed.

(** The sentiment loader, unlike the trade loader, converts its dates
    with [errors="raise"]: one non-null date that cannot be read makes
    the whole load fail. *)
Lemma sentiment_loader_raises (csv : DataFrame) (dates : Series) (c : cell) :
  getitem (rename [("date", "Date"); ("classification", "Classification")] csv) "Date"
  = inr dates ->
  In c dates -> c <> VNull -> to_timestamp false c = None ->
  load_fear_greed_data to_timestamp csv
  = inl (ValueError "Unknown datetime string format").
Proof.
  intros Hd Hin Hc Hnone. unfold load_fear_greed_data. rewrite Hd. simpl rbind.
  rewrite (to_datetime_raise false dates c Hin Hc Hnone). reflexivity.
Qed.

End LoaderFacts.

(** ** The merger *)

Lemma join_indexers_In (lk rk : Series) (n m i j : nat) :
  In (i, j) (join_indexers lk rk n m)
  <-> i < n /\ j < m /\ nth i lk VNull = nth j rk VNull.
Proof.
  unfold join_indexers. rewrite in_flat_map. split.
  - intros (i' & Hi' & Hin). apply in_map_iff in Hin.
    destruct Hin as (j' & E & Hj'). injection E as -> ->.
    apply filter_In in Hj'. destruct Hj' as [Hj' Heq].
    apply in_seq in Hi'. apply in_seq in Hj'. apply cell_eqb_eq in Heq.
    repeat split; [lia | lia | assumption].
  - intros (Hi & Hj & Heq). exists i. split; [apply in_seq; lia |].
    apply in_map. apply filter_In. split; [apply in_seq; lia |].
    now apply cell_eqb_eq.
Qed.

Lemma NoDup_flat_map_pairs (F : nat -> list nat) (l : list nat) :
  NoDup l -> (forall i, NoDup (F i)) ->
  NoDup (flat_map (fun i => map (fun j => (i, j)) (F i)) l).
Proof.
  intros Hl HF. induction Hl as [| i l Hnot Hl IH]; simpl; [constructor |].
  apply NoDup_app; [| assumption |].
  - apply Injective_map_NoDup; [| apply HF].
    intros a b E. now injection E.
  - intros [i' j'] H1 H2. apply in_map_iff in H1. destruct H1 as (j0 & E & _).
    injection E as -> ->. apply in_flat_map in H2.
    destruct H2 as (i0 & Hi0 & H2). apply in_map_iff in H2.
    destruct H2 as (j1 & E & _). injection E as -> ->. contradiction.
Qed.

Lemma join_indexers_NoDup (lk rk : Series) (n m : nat) :
  NoDup (join_indexers lk rk n m).
Proof.
  apply NoDup_flat_map_pairs; [apply seq_NoDup |].
  intros i. apply NoDup_filter, seq_NoDup.
Qed.

Lemma map_nth_seq (l : Series) :
  map (fun j => nth j l VNull) (seq 0 (List.length l)) = l.
Proof.
  induction l as [| x l IH]; simpl; [reflexivity |].
  f_equal. rewrite <- seq_shift, map_map. exact IH.
Qed.

Lemma filter_positions_length (p : cell -> bool) (l : Series) :
  List.length (filter (fun j => p (nth j l VNull)) (seq 0 (List.length l)))
  = List.length (filter p l).
Proof.
  transitivity
    (List.length (filter p (map (fun j => nth j l VNull) (seq 0 (List.length l))))).
  - rewrite filter_map_swap, length_map. reflexivity.
  - now rewrite map_nth_seq.
Qed.

Lemma NoDup_matches (k : cell) (l : Series) :
  NoDup l ->
  List.length (filter (cell_eqb k) l) = if existsb (cell_eqb k) l then 1 else 0.
Proof.
  induction 1 as [| x l Hnot Hl IH]; simpl; [reflexivity |].
  destruct (cell_eqb k x) eqn:E; simpl.
  - apply cell_eqb_eq in E. subst x. rewrite IH.
    destruct (existsb (cell_eqb k) l) eqn:Ex; [| reflexivity].
    apply existsb_exists in Ex. destruct Ex as (y & Hy & Ey).
    apply cell_eqb_eq in Ey. subst y. contradiction.
  - exact IH.
Qed.

Lemma join_indexers_length (lk rk : Series) (n : nat) :
  NoDup rk ->
  List.length (join_indexers lk rk n (List.length rk))
  = List.length (filter (fun i => existsb (cell_eqb (nth i lk VNull)) rk) (seq 0 n)).
Proof.
  intros Hnd. unfold join_indexers. induction (seq 0 n) as [| i l IH]; simpl; [reflexivity |].
  rewrite length_app, length_map, IH.
  rewrite (filter_positions_length (cell_eqb (nth i lk VNull)) rk), NoDup_matches by assumption.
  destruct (existsb (cell_eqb (nth i lk VNull)) rk); reflexivity.
Qed.

Lemma nth_take (idx : list nat) (s : Series) (k : nat) :
  k < List.length idx -> nth k (take idx s) VNull = nth (nth k idx 0) s VNull.
Proof.
  intros Hk. unfold take.
  rewrite (nth_indep _ VNull (nth 0 s VNull)) by now rewrite length_map.
  apply (map_nth (fun i => nth i s VNull)).
Qed.

Lemma merge_ok (left right : DataFrame) (on : string) (lk rk : Series) :
  getitem left on = inr lk -> getitem right on = inr rk ->
  merge left right on
  = inr (mkFrame
           (List.length (join_indexers lk rk (nrows left) (nrows right)))
           (map (fun cs => (suffixed on (columns right) "_x" (fst cs),
                            take (map fst (join_indexers lk rk (nrows left) (nrows right)))
                                 (snd cs)))
                (cols left)
            ++ map (fun cs => (suffixed on (columns left) "_y" (fst cs),
                               take (map snd (join_indexers lk rk (nrows left) (nrows right)))
                                    (snd cs)))
                   (filter (fun cs => negb (String.eqb (fst cs) on)) (cols right)))%list).
Proof.
  intros Hl Hr. unfold merge. rewrite Hl, Hr. reflexivity.
Qed.

Lemma merge_rows (left right merged : DataFrame) (on : string) (lk rk : Series) :
  getitem left on = inr lk -> getitem right on = inr rk ->
  merge left right on = inr merged ->
  forall k, k < nrows merged ->
    row_at merged k
    = joined_row left right on
        (fst (nth k (join_indexers lk rk (nrows left) (nrows right)) (0, 0)))
        (snd (nth k (join_indexers lk rk (nrows left) (nrows right)) (0, 0))).
Proof.
  intros Hl Hr Hm k Hk. rewrite (merge_ok _ _ _ _ _ Hl Hr) in Hm.
  injection Hm as <-. simpl in Hk.
  set (ix := join_indexers lk rk (nrows left) (nrows right)) in *.
  unfold joined_row, row_at. simpl cols.
  rewrite map_app, !map_map. f_equal.
  - apply map_ext. intros [c s]. simpl. f_equal.
    rewrite nth_take by now rewrite length_map.
    now rewrite <- (map_nth fst).
  - rewrite filter_map_swap, map_map. simpl.
    apply map_ext. intros [c s]. simpl. f_equal.
    rewrite nth_take by now rewrite length_map.
    now rewrite <- (map_nth snd).
Qed.

Lemma init_ok (conv : bool -> cell -> option (date * Z))
    (trader_file fear_greed_file : DataFrame) (out : string) (a : Analysis) :
  init conv trader_file fear_greed_file out = inr a ->
  load_trader_data conv trader_file = inr (trader_data a)
  /\ load_fear_greed_data conv fear_greed_file = inr (fear_greed_data a)
  /\ merge (trader_data a) (fear_greed_data a) "Date" = inr (merged_data a)
  /\ output_file a = out.
Proof.
  unfold init. intros H. inv_ok. subst a. simpl. auto.
Qed.

Lemma merge_keys (left right merged : DataFrame) (on : string) :
  merge left right on = inr merged ->
  exists lk rk, getitem left on = inr lk /\ getitem right on = inr rk.
Proof.
  unfold merge. intros H. inv_ok. eauto.
Qed.

(** Claim C1, as the code has it.  The merged dataset of a constructed
    analysis is the inner join of the loaded trade and sentiment frames
    on [Date], in which a null date is a key like any other: its rows
    are, one for one, the pairs (trade row i, sentiment row j) with equal
    [Date] cells, each pair once, and row k holds the cells of its pair;
    a trade row whose date cell equals that of no sentiment row is in no
    pair, and neither is a sentiment row whose date cell equals that of
    no trade row; when the sentiment date cells are distinct, the number
    of merged rows is the number of trade rows whose date cell occurs
    among them; and a trade row without a date is paired with exactly
    the sentiment rows without a date. *)
Theorem merger_is_inner_join_on_date (conv : bool -> cell -> option (date * Z))
    (trader_file fear_greed_file : DataFrame) (out : string) (a : Analysis) :
  init conv trader_file fear_greed_file out = inr a ->
  exists lk rk pairs,
    getitem (trader_data a) "Date" = inr lk
    /\ getitem (fear_greed_data a) "Date" = inr rk
    /\ pairs = join_indexers lk rk (nrows (trader_data a)) (nrows (fear_greed_data a))
    /\ nrows (merged_data a) = List.length pairs
    /\ NoDup pairs
    /\ (forall k, k < nrows (merged_data a) ->
          row_at (merged_data a) k
          = joined_row (trader_data a) (fear_greed_data a) "Date"
              (fst (nth k pairs (0, 0))) (snd (nth k pairs (0, 0))))
    /\ (forall i j, In (i, j) pairs
          <-> i < nrows (trader_data a) /\ j < nrows (fear_greed_data a)
              /\ nth i lk VNull = nth j rk VNull)
    /\ (forall i, (forall j, j < nrows (fear_greed_data a) ->
                     nth i lk VNull <> nth j rk VNull) ->
          ~ In i (map fst pairs))
    /\ (forall j, (forall i, i < nrows (trader_data a) ->
                     nth i lk VNull <> nth j rk VNull) ->
          ~ In j (map snd pairs))
    /\ (NoDup rk -> List.length rk = nrows (fear_greed_data a) ->
        nrows (merged_data a)
        = List.length
            (filter (fun i => existsb (cell_eqb (nth i lk VNull)) rk)
                    (seq 0 (nrows (trader_data a)))))
    /\ (forall i j, i < nrows (trader_data a) -> j < nrows (fear_greed_data a) ->
          nth i lk VNull = VNull ->
          (In (i, j) pairs <-> nth j rk VNull = VNull)).
Proof.
  intros Hinit. destruct (init_ok _ _ _ _ _ Hinit) as (_ & _ & Hm & _).
  destruct (merge_keys _ _ _ _ Hm) as (lk & rk & Hl & Hr).
  exists lk, rk, (join_indexers lk rk (nrows (trader_data a)) (nrows (fear_greed_data a))).
  assert (Hn : nrows (merged_data a)
               = List.length (join_indexers lk rk (nrows (trader_data a))
                                            (nrows (fear_greed_data a)))).
  { rewrite (merge_ok _ _ _ _ _ Hl Hr) in Hm. injection Hm as <-. reflexivity. }
  split; [exact Hl |]. split; [exact Hr |]. split; [reflexivity |].
  split; [exact Hn |]. split; [apply join_indexers_NoDup |].
  split; [apply (merge_rows _ _ _ _ _ _ Hl Hr Hm) |].
  split; [apply join_indexers_In |].
  split; [| split; [| split]].
  - intros i Hno Hin. apply in_map_iff in Hin. destruct Hin as ([i' j] & E & Hin).
    simpl in E. subst i'. apply join_indexers_In in Hin.
    destruct Hin as (_ & Hj & Heq). exact (Hno j Hj Heq).
  - intros j Hno Hin. apply in_map_iff in Hin. destruct Hin as ([i j'] & E & Hin).
    simpl in E. subst j'. apply join_indexers_In in Hin.
    destruct Hin as (Hi & _ & Heq). exact (Hno i Hi Heq).
  - intros Hnd Hlen. rewrite Hn, <- Hlen. now apply join_indexers_length.
  - intros i j Hi Hj Hnull. rewrite join_indexers_In, Hnull. split.
    + intros (_ & _ & E). now symmetry.
    + intros E. repeat split; [assumption | assumption | now symmetry].
Qed.

(** ** Groups *)

Lemma group_keys_In (keys : list Series) (n : nat) (k : list cell) :
  In k (group_keys keys n)
  <-> exists i, i < n /\ row_key keys i = k /\ key_has_null k = false.
Proof.
  unfold group_keys. rewrite sort_by_In, (uniq_In key_eqb key_eqb_eq), filter_In, in_map_iff.
  split.
  - intros [(i & E & Hi) Hnull]. apply in_seq in Hi. exists i.
    repeat split; [lia | assumption |]. now apply negb_true_iff.
  - intros (i & Hi & E & Hnull). split.
    + exists i. split; [assumption | apply in_seq; lia].
    + now apply negb_true_iff.
Qed.

Lemma group_keys_NoDup (keys : list Series) (n : nat) : NoDup (group_keys keys n).
Proof.
  unfold group_keys. apply sort_by_NoDup, (uniq_NoDup key_eqb key_eqb_eq).
Qed.

Lemma group_rows_In (keys : list Series) (n : nat) (k : list cell) (i : nat) :
  In i (group_rows keys n k) <-> i < n /\ row_key keys i = k.
Proof.
  unfold group_rows. rewrite filter_In, in_seq, key_eqb_eq. intuition lia.
Qed.



Lemma nth_map_lt {A B : Type} (f : A -> B) (l : list A) (d : A) (e : B) (r : nat) :
  r < List.length l -> nth r (map f l) e = f (nth r l d).
Proof.
  intros Hr. rewrite (nth_indep _ e (f d)) by now rewrite length_map.
  apply map_nth.
Qed.

Lemma agg_count_all (idx : list nat) (s : Series) :
  (forall i, In i idx -> nth i s VNull <> VNull) ->
  agg_count (take idx s) = VNum (inject_Z (Z.of_nat (List.length idx))).
Proof.
  intros H. unfold agg_count, take. do 3 f_equal.
  induction idx as [| i idx IH]; simpl; [reflexivity |].
  destruct (nth i s VNull) eqn:E; simpl;
    try (f_equal; apply IH; intros; apply H; now right).
  exfalso. apply (H i); [now left | assumption].
Qed.

Lemma row_key3 (a d c : Series) (i : nat) :
  row_key [a; d; c] i = [nth i a VNull; nth i d VNull; nth i c VNull].
Proof. reflexivity. Qed.



(** ** Grouped means and their lookup *)

Lemma rows_labelled_eq (cls : Series) (n : nat) (label : cell) :
  rows_labelled cls n label = group_rows [cls] n [label].
Proof.
  unfold rows_labelled, group_rows. apply filter_ext. intros i. simpl.
  now rewrite andb_true_r.
Qed.

Lemma rows_labelled_In (cls : Series) (n : nat) (label : cell) (i : nat) :
  In i (rows_labelled cls n label) <-> i < n /\ nth i cls VNull = label.
Proof.
  unfold rows_labelled. rewrite filter_In, in_seq, cell_eqb_eq. intuition lia.
Qed.

Lemma groupby_agg_ok (agg : list (option Q) -> cell) (df : DataFrame) (key col : string)
    (k : Series) (v : list (option Q)) :
  getitem df key = inr k -> get_numeric df col = inr v ->
  groupby_agg agg df key col
  = inr (map (fun g => (hd VNull g, agg (take_num (group_rows [k] (nrows df) g) v)))
             (group_keys [k] (nrows df))).
Proof.
  intros Hk Hv. unfold groupby_agg. rewrite Hk. simpl rbind. rewrite Hv. reflexivity.
Qed.

Lemma series_get_groups (F : list cell -> cell) (ks : list (list cell)) (label d : cell) :
  (forall g, In g ks -> exists c, g = [c]) ->
  series_get (map (fun g => (hd VNull g, F g)) ks) label d
  = if existsb (key_eqb [label]) ks then F [label] else d.
Proof.
  unfold series_get. induction ks as [| g ks IH]; intros Hone; simpl; [reflexivity |].
  destruct (Hone g (or_introl eq_refl)) as (c & ->). simpl.
  rewrite andb_true_r.
  destruct (cell_eqb c label) eqn:E.
  - apply cell_eqb_eq in E. subst c. rewrite cell_eqb_refl. reflexivity.
  - assert (E' : cell_eqb label c = false).
    { apply cell_eqb_neq. apply cell_eqb_neq in E. congruence. }
    rewrite E'. simpl. apply IH. intros; apply Hone; now right.
Qed.

(** [grouped.get(label, default)] on a grouped aggregate: the aggregate
    over the rows with that label when there is one, the default
    otherwise. *)
Lemma series_get_grouped (agg : list (option Q) -> cell) (k : Series)
    (v : list (option Q)) (n : nat) (label d : cell) :
  label <> VNull ->
  series_get (map (fun g => (hd VNull g, agg (take_num (group_rows [k] n g) v)))
                  (group_keys [k] n)) label d
  = if existsb (fun i => cell_eqb (nth i k VNull) label) (seq 0 n)
    then agg (take_num (rows_labelled k n label) v)
    else d.
Proof.
  intros Hl. rewrite series_get_groups.
  - rewrite rows_labelled_eq.
    assert (E : existsb (key_eqb [label]) (group_keys [k] n)
                = existsb (fun i => cell_eqb (nth i k VNull) label) (seq 0 n)).
    { apply eq_true_iff_eq. rewrite !existsb_exists. split.
      - intros (g & Hg & Eg). apply key_eqb_eq in Eg. subst g.
        apply group_keys_In in Hg. destruct Hg as (i & Hi & Ei & _).
        exists i. split; [apply in_seq; lia |].
        injection Ei as Ei. now apply cell_eqb_eq.
      - intros (i & Hi & Ei). apply in_seq in Hi. apply cell_eqb_eq in Ei.
        exists [label]. split; [| apply key_eqb_refl].
        apply group_keys_In. exists i. repeat split; [lia | simpl; congruence |].
        simpl. destruct label; simpl; congruence. }
    rewrite E. reflexivity.
  - intros g Hg. apply group_keys_In in Hg. destruct Hg as (i & _ & <- & _).
    eexists; reflexivity.
Qed.

Lemma label_occurs (k : Series) (n : nat) (label : cell) :
  existsb (fun i => cell_eqb (nth i k VNull) label) (seq 0 n) = true
  <-> exists i, i < n /\ nth i k VNull = label.
Proof.
  rewrite existsb_exists. split.
  - intros (i & Hi & E). apply in_seq in Hi. apply cell_eqb_eq in E. exists i. split; [lia | auto].
  - intros (i & Hi & E). exists i. split; [apply in_seq; lia | now apply cell_eqb_eq].
Qed.




(** ** Two-decimal texts *)

Lemma is_digit_digit (d : Z) : (0 <= d <= 9)%Z -> is_digit (digit d) = true.
Proof.
  intros Hd. unfold is_digit, digit.
  rewrite nat_ascii_embedding by lia.
  apply andb_true_iff. split; [apply Nat.leb_le | apply Nat.leb_le]; lia.
Qed.

Lemma is_digit_not_point (c : ascii) : is_digit c = true -> Ascii.eqb c "." = false.
Proof.
  intros H. destruct (Ascii.eqb_spec c "."); [subst c; discriminate | reflexivity].
Qed.

Lemma is_digit_not_minus (c : ascii) : is_digit c = true -> Ascii.eqb c "-" = false.
Proof.
  intros H. destruct (Ascii.eqb_spec c "-"); [subst c; discriminate | reflexivity].
Qed.

Lemma string_of_uint_digits (u : Decimal.uint) : all_digits (NilEmpty.string_of_uint u) = true.
Proof.
  induction u; simpl; auto.
Qed.

Lemma decimal_digits (n : Z) :
  exists c tl, decimal n = String c tl /\ is_digit c = true /\ all_digits tl = true.
Proof.
  unfold decimal, NilZero.string_of_uint.
  pose proof (string_of_uint_digits (N.to_uint (Z.to_N n))) as H.
  destruct (N.to_uint (Z.to_N n)); simpl in *;
    try (do 2 eexists; split; [reflexivity | split; [reflexivity | assumption]]).
Qed.

Lemma is_fixed2_digits (ds : string) (a b : ascii) :
  all_digits ds = true -> is_digit a = true -> is_digit b = true ->
  is_fixed2 (ds ++ String "." (String a (String b EmptyString))) = true.
Proof.
  intros Hds Ha Hb. induction ds as [| c ds IH]; simpl.
  - now rewrite Ha, Hb.
  - simpl in Hds. apply andb_true_iff in Hds. destruct Hds as [Hc Hds].
    rewrite (is_digit_not_point c Hc), Hc. simpl. auto.
Qed.

Lemma format_2f_two_decimal (q : Q) : is_two_decimal (format_2f q) = true.
Proof.
  unfold format_2f.
  set (n := round_half_even (Qabs q * (100 # 1))).
  destruct (decimal_digits (n / 100)) as (c & tl & E & Hc & Htl). rewrite E.
  assert (Ha : is_digit (digit (n mod 100 / 10)) = true).
  { apply is_digit_digit. pose proof (Z.mod_pos_bound n 100 ltac:(lia)).
    split; [apply Z.div_pos; lia |].
    assert (n mod 100 / 10 < 10)%Z by (apply Z.div_lt_upper_bound; lia). lia. }
  assert (Hb : is_digit (digit (n mod 10)) = true).
  { apply is_digit_digit. pose proof (Z.mod_pos_bound n 10 ltac:(lia)). lia. }
  pose proof (is_fixed2_digits tl _ _ Htl Ha Hb) as Hfix.
  destruct (negb (Qle_bool (0 # 1) q)); unfold is_two_decimal; simpl.
  - now rewrite Hc, Hfix.
  - now rewrite (is_digit_not_minus c Hc), Hc, Hfix.
Qed.

(** ** The insight generator *)

Lemma format_lookup_mean (cls : Series) (v : list (option Q)) (n : nat) (label : cell) :
  format_cell_2f (lookup_mean cls v n label) = inr (float_text (lookup_mean cls v n label)).
Proof.
  unfold lookup_mean, mean_where, agg_mean, zero.
  destruct (existsb _ _); [| reflexivity].
  destruct (present _); reflexivity.
Qed.

(** The list [generate_trading_insights] returns, written out. *)
Lemma generate_trading_insights_eq (self : Analysis) (cls : Series)
    (pnl lev : list (option Q)) :
  getitem (merged_data self) "Classification" = inr cls ->
  get_numeric (merged_data self) "closedPnL" = inr pnl ->
  get_numeric (merged_data self) "leverage" = inr lev ->
  generate_trading_insights self
  = inr ((if lt_zero (lookup_mean cls pnl (nrows (merged_data self)) (VStr "Fear"))
          then [fear_sentence] else [])
         ++ (if gt_zero (lookup_mean cls pnl (nrows (merged_data self)) (VStr "Greed"))
             then [greed_sentence] else [])
         ++ [ (fear_leverage_prefix
                ++ float_text (lookup_mean cls lev (nrows (merged_data self)) (VStr "Fear")))%string;
              (greed_leverage_prefix
                ++ float_text (lookup_mean cls lev (nrows (merged_data self)) (VStr "Greed")))%string ]
        )%list.
Proof.
  intros Hcls Hpnl Hlev. unfold generate_trading_insights.
  rewrite (groupby_agg_ok _ _ _ _ _ _ Hcls Hpnl). simpl rbind.
  rewrite (groupby_agg_ok _ _ _ _ _ _ Hcls Hlev). simpl rbind.
  rewrite !series_get_grouped by discriminate.
  fold (mean_where cls pnl (nrows (merged_data self)) (VStr "Fear")).
  fold (mean_where cls pnl (nrows (merged_data self)) (VStr "Greed")).
  fold (mean_where cls lev (nrows (merged_data self)) (VStr "Fear")).
  fold (mean_where cls lev (nrows (merged_data self)) (VStr "Greed")).
  fold (lookup_mean cls pnl (nrows (merged_data self)) (VStr "Fear")).
  fold (lookup_mean cls pnl (nrows (merged_data self)) (VStr "Greed")).
  fold (lookup_mean cls lev (nrows (merged_data self)) (VStr "Fear")).
  fold (lookup_mean cls lev (nrows (merged_data self)) (VStr "Greed")).
  rewrite !format_lookup_mean. simpl rbind.
  destruct (lt_zero _), (gt_zero _); reflexivity.
Qed.






Lemma present_take_nil (idx : list nat) (v : list (option Q)) :
  present (take_num idx v) = [] <-> forall i, In i idx -> nth i v None = None.
Proof.
  unfold take_num. induction idx as [| i idx IH]; simpl.
  - split; [intros _ j [] | reflexivity].
  - destruct (nth i v None) eqn:E.
    + split; [discriminate |]. intros H. specialize (H i (or_introl eq_refl)). congruence.
    + rewrite IH. split.
      * intros H j [<- | Hj]; auto.
      * intros H j Hj. apply H. now right.
Qed.

Lemma format_2f_shows (q : Q) : two_decimals_of q (format_2f q).
Proof.
  exists (round_half_even (Qabs q * (100 # 1))). split; [| split].
  - apply round_half_even_ge. change (inject_Z 0) with (0 # 1)%Q.
    apply Qmult_le_0_compat; [apply Qabs_nonneg | discriminate].
  - apply round_half_even_half.
  - reflexivity.
Qed.

Lemma lookup_mean_text (cls : Series) (lev : list (option Q)) (n : nat) (label : cell) :
  leverage_text_ok cls lev n label (float_text (lookup_mean cls lev n label)).
Proof.
  unfold leverage_text_ok, lookup_mean.
  destruct (existsb _ _) eqn:Ex.
  - apply label_occurs in Ex. split; [tauto |]. split.
    + intros (i & Hi & Ei & Hnn). unfold mean_where, agg_mean.
      destruct (present _) as [| x xs] eqn:Ep.
      * exfalso. apply Hnn. rewrite present_take_nil in Ep. apply Ep.
        now apply rows_labelled_In.
      * exists (float64_round (Qmean (x :: xs))).
        split; [unfold values_where; rewrite Ep; apply float64_round_nearest |].
        split; [reflexivity |].
        split; [apply format_2f_shows | apply format_2f_two_decimal].
    + intros _ Hall. unfold mean_where, agg_mean.
      replace (present (take_num (rows_labelled cls n label) lev)) with (@nil Q);
        [reflexivity |].
      symmetry. apply present_take_nil. intros i Hi.
      apply rows_labelled_In in Hi. now apply Hall.
  - assert (Hno : ~ (exists i, i < n /\ nth i cls VNull = label)).
    { rewrite <- label_occurs, Ex. discriminate. }
    split; [reflexivity |]. split.
    + intros (i & Hi & Ei & _). exfalso. apply Hno. eauto.
    + intros Hsome. contradiction.
Qed.


(** ** A missing leverage column *)

Lemma rename_label_leverage (c : string) :
  rename_label column_mapping c = "leverage" -> c = "leverage".
Proof.
  unfold column_mapping, rename_label.
  repeat match goal with
         | |- context [String.eqb ?a ?b] => destruct (String.eqb a b)
         end; intros H; try discriminate H; assumption.
Qed.

Lemma rename_no_leverage (csv : DataFrame) :
  ~ In "leverage" (columns csv) ->
  ~ In "leverage" (columns (rename column_mapping csv)).
Proof.
  intros Hno Hin. apply Hno. unfold columns, rename in *. simpl in Hin.
  rewrite map_map in Hin. apply in_map_iff in Hin. destruct Hin as ([c s] & E & Hin).
  simpl in E. apply rename_label_leverage in E. subst c.
  apply in_map_iff. exists ("leverage", s). auto.
Qed.

Lemma append_suffix_not_leverage (c : string) (sfx : string) :
  sfx = "_x" \/ sfx = "_y" -> (c ++ sfx)%string <> "leverage".
Proof.
  intros [-> | ->] H;
    do 9 (destruct c as [| ? c]; [simpl in H; discriminate H |]);
    simpl in H; discriminate H.
Qed.

Lemma suffixed_leverage (on : string) (others : list string) (sfx c : string) :
  sfx = "_x" \/ sfx = "_y" ->
  suffixed on others sfx c = "leverage" ->
  c = "leverage" /\ negb (String.eqb c on) && mem_label c others = false.
Proof.
  intros Hs. unfold suffixed.
  destruct (negb (String.eqb c on) && mem_label c others); intros H.
  - exfalso. exact (append_suffix_not_leverage c sfx Hs H).
  - auto.
Qed.

Lemma mem_label_In (c : string) (l : list string) : mem_label c l = true <-> In c l.
Proof.
  unfold mem_label. rewrite existsb_exists. split.
  - intros (x & Hx & E). apply String.eqb_eq in E. now subst.
  - intros H. exists c. split; [assumption | apply String.eqb_refl].
Qed.

Lemma take_all_null (idx : list nat) (s : Series) :
  Forall (eq VNull) s -> Forall (eq VNull) (take idx s).
Proof.
  intros Hs. unfold take. apply Forall_forall. intros c Hc.
  apply in_map_iff in Hc. destruct Hc as (i & <- & _).
  destruct (Nat.lt_ge_cases i (List.length s)) as [Hi | Hi].
  - rewrite Forall_forall in Hs. apply Hs. now apply nth_In.
  - now rewrite nth_overflow.
Qed.

Lemma merged_leverage_null (left right merged : DataFrame) (on : string) :
  merge left right on = inr merged ->
  on <> "leverage" ->
  In "leverage" (columns left) ->
  (forall s, In ("leverage", s) (cols left) -> Forall (eq VNull) s) ->
  forall s, getitem merged "leverage" = inr s -> Forall (eq VNull) s.
Proof.
  intros Hm Hon Hin Hnull s Hs.
  destruct (merge_keys _ _ _ _ Hm) as (lk & rk & Hl & Hr).
  rewrite (merge_ok _ _ _ _ _ Hl Hr) in Hm. injection Hm as <-.
  unfold getitem in Hs. simpl cols in Hs.
  destruct (lookup_col "leverage" _) as [s' |] eqn:E; [| discriminate].
  injection Hs as ->. apply lookup_col_In in E. apply in_app_iff in E.
  destruct E as [E | E]; apply in_map_iff in E; destruct E as ([c s0] & E & Hc);
    simpl in E; injection E as E <-.
  - apply suffixed_leverage in E; [| now left]. destruct E as [-> _].
    apply take_all_null. now apply Hnull.
  - exfalso. apply filter_In in Hc. destruct Hc as [_ Hc]. simpl in Hc.
    apply suffixed_leverage in E; [| now right]. destruct E as [-> E].
    rewrite Hc in E. simpl in E.
    apply mem_label_In in Hin. congruence.
Qed.

Lemma loaded_trades_leverage (conv : bool -> cell -> option (date * Z))
    (csv : DataFrame) (raw : Series) :
  ~ In "leverage" (columns (rename column_mapping csv)) ->
  In "leverage" (columns (loaded_trades conv csv raw))
  /\ forall s, In ("leverage", s) (cols (loaded_trades conv csv raw)) ->
               Forall (eq VNull) s.
Proof.
  intros Hno. unfold loaded_trades.
  set (df := setitem (setitem (rename column_mapping csv) "time" _) "Date" _).
  assert (Hdf : ~ In "leverage" (columns df)).
  { unfold df, columns, setitem. simpl cols.
    rewrite !assign_col_labels. intros [H | [H | H]]; try discriminate. contradiction. }
  assert (Hb : has_column "leverage" df = false).
  { destruct (has_column "leverage" df) eqn:E; [| reflexivity].
    apply has_column_In in E. contradiction. }
  rewrite Hb. simpl negb. cbv iota. unfold setitem, columns. simpl cols.
  rewrite assign_col_fresh by exact Hdf. split.
  - rewrite map_app, in_app_iff. right. now left.
  - intros s Hs. apply in_app_iff in Hs. destruct Hs as [Hs | [Hs | []]].
    + exfalso. apply Hdf. apply in_map_iff. exists ("leverage", s). auto.
    + injection Hs as <-. apply Forall_forall. intros c Hc.
      apply repeat_spec in Hc. congruence.
Qed.

Lemma numeric_all_null (s : Series) (v : list (option Q)) :
  numeric s = inr v -> Forall (eq VNull) s -> forall i, nth i v None = None.
Proof.
  unfold numeric. revert v. induction s as [| c s IH]; simpl; intros v Hv Hs i.
  - inv_ok. subst v. now destruct i.
  - inversion Hs as [| ? ? Hc Hs']; subst. simpl in Hv. inv_ok. subst v.
    destruct i as [| i]; simpl; [reflexivity | now apply IH].
Qed.

Lemma agg_mean_all_null (idx : list nat) (v : list (option Q)) :
  (forall i, nth i v None = None) -> agg_mean (take_num idx v) = VNull.
Proof.
  intros Hv. unfold agg_mean.
  replace (present (take_num idx v)) with (@nil Q); [reflexivity |].
  symmetry. apply present_take_nil. auto.
Qed.

Lemma groupby_agg_inv (agg : list (option Q) -> cell) (df : DataFrame) (key col : string)
    (r : LabelledSeries) :
  groupby_agg agg df key col = inr r ->
  exists k v, getitem df key = inr k /\ get_numeric df col = inr v.
Proof.
  unfold groupby_agg. intros H. inv_ok. eauto.
Qed.

Lemma numeric_of_nulls (s : Series) :
  Forall (eq VNull) s -> numeric s = inr (map (fun _ => None) s).
Proof.
  intros Hs. unfold numeric. apply mapM_map. intros c Hc.
  rewrite Forall_forall in Hs. now rewrite <- (Hs c Hc).
Qed.

(** Claim C10.  When the trade input has no [leverage] column, the
    loader's all-null column makes every grouped mean of leverage null.
    For a constructed object whose merged set has distinct labels, the
    key columns, numeric [closedPnL] and [size] columns and a [leverage]
    column (the one of the loader: the sentiment file brings none),
    [calculate_trader_metrics] returns a table with an [avg_leverage]
    value for every row, at least one when some merged row has its three
    keys, and every one of them null; and [generate_trading_insights]
    returns insights that end with the two leverage statements, showing
    "nan" for a classification that occurs in the merged set and "0.00"
    only for one that does not. *)
Theorem missing_leverage_column_gives_null_means
    (conv : bool -> cell -> option (date * Z))
    (trader_file fear_greed_file : DataFrame) (out : string) (a : Analysis)
    (acc dat cls : Series) (pnl size : list (option Q)) :
  ~ In "leverage" (columns trader_file) ->
  init conv trader_file fear_greed_file out = inr a ->
  unique_columns (merged_data a) ->
  In "leverage" (columns (merged_data a)) ->
  getitem (merged_data a) "account" = inr acc ->
  getitem (merged_data a) "Date" = inr dat ->
  getitem (merged_data a) "Classification" = inr cls ->
  get_numeric (merged_data a) "closedPnL" = inr pnl ->
  get_numeric (merged_data a) "size" = inr size ->
  (exists tm avg,
      calculate_trader_metrics a = inr tm
      /\ getitem tm "avg_leverage" = inr avg
      /\ List.length avg = nrows tm
      /\ ((exists i, i < nrows (merged_data a)
                     /\ nth i acc VNull <> VNull /\ nth i dat VNull <> VNull
                     /\ nth i cls VNull <> VNull) ->
          avg <> [])
      /\ Forall (eq VNull) avg)
  /\ (exists insights front tf tg,
        generate_trading_insights a = inr insights
        /\ insights = (front ++ [ (fear_leverage_prefix ++ tf)%string;
                                  (greed_leverage_prefix ++ tg)%string ])%list
        /\ ((exists i, i < nrows (merged_data a) /\ nth i cls VNull = VStr "Fear") ->
            tf = "nan")
        /\ ((exists i, i < nrows (merged_data a) /\ nth i cls VNull = VStr "Greed") ->
            tg = "nan")
        /\ (~ (exists i, i < nrows (merged_data a) /\ nth i cls VNull = VStr "Fear") ->
            tf = "0.00")
        /\ (~ (exists i, i < nrows (merged_data a) /\ nth i cls VNull = VStr "Greed") ->
            tg = "0.00")).
Proof.
  intros Hno Hinit _ Hin Hacc Hdat Hcls Hpnl Hsize. apply rename_no_leverage in Hno.
  destruct (init_ok _ _ _ _ _ Hinit) as (Ht & _ & Hm & _).
  destruct (lookup_col_Some _ _ Hin) as (s & Hs).
  assert (Hget : getitem (merged_data a) "leverage" = inr s).
  { unfold getitem. now rewrite Hs. }
  assert (Hnull : Forall (eq VNull) s).
  { destruct (has_column "time" (rename column_mapping trader_file)) eqn:Htime.
    - apply has_column_In in Htime.
      destruct (load_trader_data_time conv trader_file Htime) as (raw & _ & Hload).
      rewrite Hload in Ht. injection Ht as Ht.
      destruct (loaded_trades_leverage conv trader_file raw Hno) as [Hl Hn].
      rewrite Ht in Hl, Hn.
      apply (merged_leverage_null _ _ _ _ Hm); auto. discriminate.
    - unfold load_trader_data in Ht. rewrite Htime in Ht. discriminate. }
  set (lev := map (fun _ : cell => @None Q) s).
  assert (Hlev : get_numeric (merged_data a) "leverage" = inr lev).
  { unfold get_numeric. rewrite Hget. simpl rbind. now apply numeric_of_nulls. }
  assert (Hall : forall i, nth i lev None = None).
  { apply (numeric_all_null s lev); [now apply numeric_of_nulls | exact Hnull]. }
  split.
  - set (m := merged_data a) in *.
    set (ks := group_keys [acc; dat; cls] (nrows m)).
    set (rows := group_rows [acc; dat; cls] (nrows m)).
    do 2 eexists. split; [| split; [| split; [| split]]].
    + unfold calculate_trader_metrics. fold m. simpl mapM.
      rewrite Hacc, Hdat, Hcls. simpl rbind. rewrite Hpnl, Hlev, Hsize. simpl rbind.
      fold ks. fold rows. reflexivity.
    + reflexivity.
    + simpl nrows. apply length_map.
    + intros (i & Hi & Na & Nd & Nc).
      assert (Hk : In [nth i acc VNull; nth i dat VNull; nth i cls VNull] ks).
      { apply group_keys_In. exists i. rewrite row_key3.
        repeat split; [assumption |]. simpl.
        destruct (nth i acc VNull), (nth i dat VNull), (nth i cls VNull);
          simpl; congruence. }
      intros E. apply map_eq_nil in E. rewrite E in Hk. exact Hk.
    + apply Forall_forall. intros c Hc. apply in_map_iff in Hc.
      destruct Hc as (k & <- & _). symmetry. now apply agg_mean_all_null.
  - pose proof (generate_trading_insights_eq a cls pnl lev Hcls Hpnl Hlev) as E.
    rewrite app_assoc in E.
    do 4 eexists. split; [exact E |]. split; [reflexivity |].
    pose proof (lookup_mean_text cls lev (nrows (merged_data a)) (VStr "Fear"))
      as (F0 & _ & Fn).
    pose proof (lookup_mean_text cls lev (nrows (merged_data a)) (VStr "Greed"))
      as (G0 & _ & Gn).
    repeat split; auto.
Qed.

(** ** Transitions *)

Lemma append_assoc (a b c : string) : ((a ++ b) ++ c = a ++ b ++ c)%string.
Proof.
  induction a as [| x a IH]; simpl; [reflexivity | now rewrite IH].
Qed.

Lemma add_arrow_total (s : Series) :
  Forall text_or_null s ->
  mapM (fun c => add_cells c (VStr arrow)) s
  = inr (map (fun c => match c with VStr a => VStr (a ++ arrow) | _ => VNull end) s).
Proof.
  intros Hs. apply mapM_map. intros c Hc. rewrite Forall_forall in Hs.
  specialize (Hs c Hc). destruct c; simpl in Hs; try contradiction; reflexivity.
Qed.

Lemma add_series_cons (x y : cell) (a b : Series) :
  add_series (x :: a) (y :: b)
  = (c <- add_cells x y ;; r <- add_series a b ;; ok (c :: r)).
Proof. reflexivity. Qed.

Lemma add_series_steps (l : Series) :
  Forall text_or_null l ->
  add_series
    (map (fun c => match c with VStr a => VStr (a ++ arrow) | _ => VNull end) (removelast l))
    (tl l)
  = inr (step_labels l).
Proof.
  unfold step_labels, consecutive.
  induction l as [| c0 l IH]; intros Hl; [reflexivity |].
  destruct l as [| c1 r]; [reflexivity |].
  inversion Hl as [| ? ? H0 Hl']; subst.
  specialize (IH Hl'). simpl tl in *.
  change (removelast (c0 :: c1 :: r)) with (c0 :: removelast (c1 :: r)).
  rewrite map_cons, add_series_cons, IH.
  inversion Hl' as [| ? ? H1 _]; subst.
  destruct c0, c1; simpl in H0, H1; try contradiction; simpl;
    rewrite ?append_assoc; reflexivity.
Qed.

Lemma transition_labels_eq (cls : Series) :
  Forall text_or_null cls -> numeric_dtype cls = false ->
  transition_labels (shift1 cls) cls
  = inr (match cls with [] => [] | _ :: _ => VNull :: step_labels cls end).
Proof.
  intros Hcls Hd. unfold transition_labels. rewrite Hd.
  destruct cls as [| c0 l]; [reflexivity |].
  unfold shift1.
  rewrite add_arrow_total.
  - cbn [rbind map add_series add_cells].
    pose proof (add_series_steps (c0 :: l) Hcls) as E. cbn [tl] in E.
    rewrite E. reflexivity.
  - constructor; [exact I |]. apply Forall_forall. intros c Hc.
    rewrite Forall_forall in Hcls. apply Hcls.
    destruct l as [| c1 r]; [contradiction |].
    change (removelast (c0 :: c1 :: r)) with (c0 :: removelast (c1 :: r)) in Hc.
    destruct Hc as [<- | Hc]; [now left |].
    right. clear - Hc. revert c1 Hc. induction r as [| x r IH]; intros c1 Hc.
    + contradiction.
    + change (removelast (c1 :: x :: r)) with (c1 :: removelast (x :: r)) in Hc.
      destruct Hc as [<- | Hc]; [now left | right; eauto].
Qed.

Lemma count_of_pos (c : cell) (s : Series) : 0 < count_of c s <-> In c s.
Proof.
  unfold count_of. induction s as [| x s IH]; simpl.
  - split; [lia | tauto].
  - destruct (cell_eqb c x) eqn:E; simpl.
    + apply cell_eqb_eq in E. subst. split; [auto | lia].
    + rewrite IH. apply cell_eqb_neq in E. split; [auto | intros [H | H]; congruence].
Qed.

Lemma count_of_nonnull (c : cell) (s : Series) :
  c <> VNull -> count_of c (filter (fun x => negb (is_null x)) s) = count_of c s.
Proof.
  intros Hc. unfold count_of. induction s as [| x s IH]; simpl; [reflexivity |].
  destruct (is_null x) eqn:Hx; simpl.
  - destruct x; try discriminate.
    destruct (cell_eqb c VNull) eqn:E; [| exact IH].
    apply cell_eqb_eq in E. contradiction.
  - destruct (cell_eqb c x); simpl; now rewrite IH.
Qed.

Lemma value_counts_spec (s : Series) :
  NoDup (map fst (value_counts s))
  /\ forall c n, In (c, n) (value_counts s)
                 <-> c <> VNull /\ 0 < n /\ n = count_of c s.
Proof.
  unfold value_counts. set (vs := filter (fun c => negb (is_null c)) s). split.
  - eapply Permutation_NoDup; [apply Permutation_map, sort_by_perm |].
    rewrite map_map. simpl. rewrite map_id. apply (uniq_NoDup cell_eqb cell_eqb_eq).
  - intros c n. rewrite sort_by_In, in_map_iff. split.
    + intros (c' & E & Hc'). injection E as -> <-.
      apply (proj1 (uniq_In cell_eqb cell_eqb_eq _ _)) in Hc'. unfold vs in Hc'.
      apply filter_In in Hc'. destruct Hc' as [Hin Hnn].
      assert (Hc : c <> VNull) by (intros ->; discriminate).
      unfold vs. rewrite count_of_nonnull by assumption.
      repeat split; [assumption |]. now apply count_of_pos.
    + intros (Hc & Hpos & ->). exists c. split.
      * unfold vs. now rewrite count_of_nonnull.
      * apply (proj2 (uniq_In cell_eqb cell_eqb_eq _ _)). unfold vs. apply filter_In.
        split; [now apply count_of_pos |]. destruct c; auto.
Qed.

Lemma getitem_setitem_same (df : DataFrame) (c : string) (s : Series) :
  getitem (setitem df c s) c = inr s.
Proof.
  unfold getitem, setitem. simpl. now rewrite lookup_assign_same.
Qed.

Lemma getitem_setitem_other (df : DataFrame) (c c0 : string) (s : Series) :
  c0 <> c -> getitem (setitem df c s) c0 = getitem df c0.
Proof.
  intros H. unfold getitem, setitem. simpl. now rewrite lookup_assign_other.
Qed.

Lemma read_write_file (path : string) (a : artifact) (fs : list (string * artifact)) :
  read_file path (write_file path a fs) = Some a.
Proof.
  unfold read_file, write_file. simpl. now rewrite String.eqb_refl.
Qed.

(** The sentiment loader only renames labels and rewrites [Date]: the
    classification column is the one of the file, row for row. *)
Lemma sentiment_loader_keeps_classification
    (conv : bool -> cell -> option (date * Z)) (csv df : DataFrame) :
  load_fear_greed_data conv csv = inr df ->
  getitem df "Classification"
  = getitem (rename [("date", "Date"); ("classification", "Classification")] csv)
            "Classification".
Proof.
  unfold load_fear_greed_data. intros H. inv_ok. subst df.
  apply getitem_setitem_other. discriminate.
Qed.

(** The state [sentiment_transition_analysis] leaves, written out. *)
Lemma sentiment_transition_analysis_ok (st : State) (cls tr : Series) :
  getitem (fear_greed_data (fst st)) "Classification" = inr cls ->
  transition_labels (shift1 cls) cls = inr tr ->
  sentiment_transition_analysis st
  = (inr tt,
     (mkAnalysis (output_file (fst st)) (trader_data (fst st))
        (setitem (setitem (fear_greed_data (fst st)) "Prev_Sentiment" (shift1 cls))
                 "Transition" tr)
        (merged_data (fst st)),
      mkWorld (write_file "sentiment_transitions.png"
                 (Figure "bar" "Sentiment Transitions Over Time"
                         (counts_series (value_counts tr)))
                 (files (snd st)))
              (stdout (snd st)))).
Proof.
  intros Hcls Htr. destruct st as [self w].
  unfold sentiment_transition_analysis, bind, get_self, lift, set_fear_greed_column,
    savefig, save, ok.
  cbn [fst snd] in *. rewrite Hcls.
  cbn [fst snd fear_greed_data output_file trader_data merged_data files stdout].
  rewrite getitem_setitem_same.
  rewrite getitem_setitem_other by discriminate. rewrite Hcls, Htr.
  cbn [fst snd fear_greed_data output_file trader_data merged_data files stdout].
  rewrite getitem_setitem_same. reflexivity.
Qed.

Lemma nth_removelast (l : Series) (i : nat) :
  S i < List.length l -> nth i (removelast l) VNull = nth i l VNull.
Proof.
  revert i. induction l as [| x l IH]; intros i Hi; [simpl in Hi; lia |].
  destruct l as [| y l]; [simpl in Hi; lia |].
  change (removelast (x :: y :: l)) with (x :: removelast (y :: l)).
  destruct i as [| i]; [reflexivity |]. simpl nth. apply IH. simpl in *. lia.
Qed.

Lemma length_removelast_cons (x : cell) (l : Series) :
  List.length (removelast (x :: l)) = List.length l.
Proof.
  revert x. induction l as [| y l IH]; intros x; [reflexivity |].
  change (removelast (x :: y :: l)) with (x :: removelast (y :: l)).
  cbn [List.length]. f_equal. apply IH.
Qed.

Lemma shift1_length (s : Series) : List.length (shift1 s) = List.length s.
Proof.
  destruct s as [| x l]; [reflexivity |]. unfold shift1.
  cbn [List.length]. f_equal. apply length_removelast_cons.
Qed.

Lemma shift1_nth (s : Series) (i : nat) :
  S i < List.length s -> nth (S i) (shift1 s) VNull = nth i s VNull.
Proof.
  intros Hi. destruct s as [| x l]; [simpl in Hi; lia |].
  unfold shift1. change (nth (S i) (VNull :: removelast (x :: l)) VNull)
    with (nth i (removelast (x :: l)) VNull). now apply nth_removelast.
Qed.

Lemma In_not_nil {A : Type} (x : A) (l : list A) : In x l -> l <> [].
Proof.
  intros H E. rewrite E in H. exact H.
Qed.

Lemma step_labels_length (s : Series) : List.length (step_labels s) = List.length s - 1.
Proof.
  unfold step_labels, consecutive. rewrite length_map, length_combine.
  destruct s; cbn [List.length tl]; lia.
Qed.

Lemma step_labels_nth (s : Series) (i : nat) :
  S i < List.length s ->
  nth i (step_labels s) VNull = pair_label (nth i s VNull) (nth (S i) s VNull).
Proof.
  unfold step_labels, consecutive. revert i.
  induction s as [| x s IH]; intros i Hi; [simpl in Hi; lia |].
  destruct s as [| y s]; [simpl in Hi; lia |].
  destruct i as [| i]; [reflexivity |].
  simpl tl in *. change (combine (x :: y :: s) (y :: s)) with ((x, y) :: combine (y :: s) s).
  simpl map. simpl nth at 1. rewrite IH by (simpl in *; lia). reflexivity.
Qed.

(** Claim C8.  On a sentiment frame with distinct labels whose
    [Classification] column holds text (or nulls) and has two consecutive
    rows with a classification, so that there is a transition to chart,
    the transition analysis pairs every row with the row just before it
    in the order of the frame, which is the order of the file:
    [Prev_Sentiment] is the column shifted down by one row (null on the
    first row, the classification of the row before on every later
    row), and [Transition] is null on the first row and, on every later
    row, the label "previous -> current" of that row and its
    predecessor.  The chart it saves is not empty and holds, for each distinct label, the
    number of consecutive pairs with that label; the first row, which
    has no predecessor, is in no pair and is not counted.  The sentiment
    loader hands the classification column over as read, rows in place. *)
Theorem transitions_pair_consecutive_rows (st : State) (cls : Series) :
  unique_columns (fear_greed_data (fst st)) ->
  getitem (fear_greed_data (fst st)) "Classification" = inr cls ->
  Forall text_or_null cls ->
  numeric_dtype cls = false ->
  (exists i, S i < List.length cls
             /\ nth i cls VNull <> VNull /\ nth (S i) cls VNull <> VNull) ->
  exists st' counts,
    sentiment_transition_analysis st = (inr tt, st')
    /\ getitem (fear_greed_data (fst st')) "Prev_Sentiment" = inr (shift1 cls)
    /\ getitem (fear_greed_data (fst st')) "Transition"
       = inr (match cls with [] => [] | _ :: _ => VNull :: step_labels cls end)
    /\ read_file "sentiment_transitions.png" (files (snd st'))
       = Some (Figure "bar" "Sentiment Transitions Over Time" (counts_series counts))
    /\ counts <> []
    /\ NoDup (map fst counts)
    /\ (forall label n,
          In (label, n) counts
          <-> label <> VNull /\ 0 < n /\ n = count_of label (step_labels cls))
    /\ (List.length (shift1 cls) = List.length cls
        /\ nth 0 (shift1 cls) VNull = VNull
        /\ forall i, S i < List.length cls ->
                     nth (S i) (shift1 cls) VNull = nth i cls VNull)
    /\ (forall conv csv df,
          load_fear_greed_data conv csv = inr df ->
          getitem df "Classification"
          = getitem (rename [("date", "Date"); ("classification", "Classification")] csv)
                    "Classification").
Proof.
  intros _ Hcls Htext Hd (j & Hj & Hj0 & Hj1).
  pose proof (transition_labels_eq cls Htext Hd) as Htr.
  set (tr := match cls with [] => [] | _ :: _ => VNull :: step_labels cls end) in *.
  eexists. exists (value_counts tr).
  split; [apply (sentiment_transition_analysis_ok st cls tr Hcls Htr) |].
  simpl fst. simpl snd. simpl fear_greed_data. simpl files.
  split; [rewrite getitem_setitem_other by discriminate; apply getitem_setitem_same |].
  split; [apply getitem_setitem_same |].
  split; [apply read_write_file |].
  destruct (value_counts_spec tr) as [Hnd Hin].
  split.
  { apply (In_not_nil (nth (S j) tr VNull, count_of (nth (S j) tr VNull) tr)).
    apply Hin.
    assert (Hnn : nth (S j) tr VNull <> VNull).
    { unfold tr. destruct cls as [| c l]; [simpl in Hj; lia |].
      simpl nth at 1. rewrite (step_labels_nth _ _ Hj). rewrite Forall_forall in Htext.
      assert (H0 : In (nth j (c :: l) VNull) (c :: l)) by (apply nth_In; lia).
      assert (H1 : In (nth (S j) (c :: l) VNull) (c :: l)) by (apply nth_In; lia).
      pose proof (Htext _ H0). pose proof (Htext _ H1).
      destruct (nth j (c :: l) VNull), (nth (S j) (c :: l) VNull);
        simpl in *; try contradiction; try congruence; discriminate. }
    split; [exact Hnn |]. split; [| reflexivity].
    apply count_of_pos, nth_In.
    unfold tr. destruct cls as [| c l]; [simpl in Hj; lia |].
    simpl List.length. rewrite step_labels_length. simpl in *. lia. }
  split; [exact Hnd |].
  split;
    [| split;
       [split; [apply shift1_length
               | split; [destruct cls; reflexivity | intros i Hi; now apply shift1_nth]]
       | intros conv csv df Hload;
         apply (sentiment_loader_keeps_classification _ _ _ Hload)]].
  intros label n. rewrite Hin.
  assert (E : label <> VNull -> count_of label tr = count_of label (step_labels cls)).
  { intros Hl. unfold tr. destruct cls as [| c0 l]; [reflexivity |].
    unfold count_of. simpl.
    destruct (cell_eqb label VNull) eqn:El; [| reflexivity].
    apply cell_eqb_eq in El. contradiction. }
  split; intros (Hl & Hpos & ->); rewrite E in * by assumption; auto.
Qed.

(** ** What the methods change *)

Lemma bind_inv {A B : Type} (m : M A) (k : A -> M B) (st st' : State) (b : B) :
  bind m k st = (inr b, st') ->
  exists a st1, m st = (inr a, st1) /\ k a st1 = (inr b, st').
Proof.
  unfold bind. destruct (m st) as [[e | a] st1]; intros H; [discriminate | eauto].
Qed.

Lemma preserves_bind {A B : Type} (m : M A) (k : A -> M B) :
  preserves_object m -> (forall a, preserves_object (k a)) ->
  preserves_object (bind m k).
Proof.
  intros Hm Hk st. unfold bind. specialize (Hm st).
  destruct (m st) as [[e | a] st1]; simpl in *; [assumption |].
  rewrite Hk. assumption.
Qed.

Lemma touches_bind {A B : Type} (m : M A) (k : A -> M B) :
  touches_only_sentiment m -> (forall a, touches_only_sentiment (k a)) ->
  touches_only_sentiment (bind m k).
Proof.
  intros Hm Hk st. unfold bind. specialize (Hm st).
  destruct (m st) as [[e | a] st1]; simpl in *; [assumption |].
  destruct Hm as (H1 & H2 & H3). destruct (Hk a st1) as (K1 & K2 & K3).
  repeat split; congruence.
Qed.

Lemma preserves_touches {A : Type} (m : M A) :
  preserves_object m -> touches_only_sentiment m.
Proof.
  intros H st. rewrite H. auto.
Qed.

Lemma keeps_files_bind {A B : Type} (m : M A) (k : A -> M B) :
  keeps_files m -> (forall a, keeps_files (k a)) -> keeps_files (bind m k).
Proof.
  intros Hm Hk st. unfold bind. specialize (Hm st).
  destruct (m st) as [[e | a] st1]; simpl in *; [assumption |].
  rewrite Hk. assumption.
Qed.

Lemma preserves_ret {A : Type} (a : A) : preserves_object (ret a).
Proof. intros st. reflexivity. Qed.

Lemma preserves_lift {A : Type} (r : Result A) : preserves_object (lift r).
Proof. intros st. reflexivity. Qed.

Lemma preserves_get_self : preserves_object get_self.
Proof. intros st. reflexivity. Qed.

Lemma preserves_call {A : Type} (f : Analysis -> Result A) : preserves_object (call f).
Proof. intros st. reflexivity. Qed.

Lemma preserves_save (path : string) (a : artifact) : preserves_object (save path a).
Proof. intros st. reflexivity. Qed.

Lemma preserves_print (line : string) : preserves_object (print line).
Proof. intros st. reflexivity. Qed.

Lemma preserves_for_each {A : Type} (l : list A) (body : A -> M unit) :
  (forall a, preserves_object (body a)) -> preserves_object (for_each l body).
Proof.
  intros Hb. induction l as [| a l IH]; simpl.
  - apply preserves_ret.
  - apply preserves_bind; auto.
Qed.

Lemma keeps_files_print (line : string) : keeps_files (print line).
Proof. intros st. reflexivity. Qed.


Ltac frame :=
  repeat first
    [ apply preserves_bind; [| intros ?]
    | apply preserves_for_each; intros ?
    | apply preserves_ret | apply preserves_lift | apply preserves_get_self
    | apply preserves_call | apply preserves_save | apply preserves_print ].

Lemma preserves_analyze_sentiment_distribution :
  preserves_object analyze_sentiment_distribution.
Proof. unfold analyze_sentiment_distribution, savefig. frame. Qed.

Lemma preserves_analyze_performance_by_sentiment :
  preserves_object analyze_performance_by_sentiment.
Proof. unfold analyze_performance_by_sentiment, savefig. frame. Qed.

Lemma preserves_analyze_top_performers : preserves_object analyze_top_performers.
Proof. unfold analyze_top_performers, savefig. frame. Qed.

Lemma preserves_style_excel_workbook : preserves_object style_excel_workbook.
Proof.
  intros st. unfold style_excel_workbook.
  destruct (read_file _ _) as [[? ? ? | sheets] |]; reflexivity.
Qed.

Lemma preserves_export_to_excel : preserves_object export_to_excel.
Proof.
  unfold export_to_excel. frame. apply preserves_style_excel_workbook.
Qed.

Lemma touches_set_fear_greed_column (c : string) (s : Series) :
  touches_only_sentiment (set_fear_greed_column c s).
Proof. intros st. simpl. auto. Qed.

Lemma touches_sentiment_transition_analysis :
  touches_only_sentiment sentiment_transition_analysis.
Proof.
  unfold sentiment_transition_analysis, savefig.
  repeat first
    [ apply touches_bind; [| intros ?]
    | apply touches_set_fear_greed_column
    | apply preserves_touches; frame ].
Qed.

Lemma touches_run_all_analyses : touches_only_sentiment run_all_analyses.
Proof.
  unfold run_all_analyses.
  apply touches_bind;
    [apply preserves_touches, preserves_analyze_sentiment_distribution | intros _].
  apply touches_bind;
    [apply preserves_touches, preserves_analyze_performance_by_sentiment | intros _].
  apply touches_bind;
    [apply preserves_touches, preserves_analyze_top_performers | intros _].
  apply touches_bind; [apply touches_sentiment_transition_analysis | intros _].
  apply preserves_touches. frame.
Qed.

Lemma touches_script_body : touches_only_sentiment script_body.
Proof.
  unfold script_body.
  apply touches_bind; [apply touches_run_all_analyses | intros _].
  apply touches_bind; [apply preserves_touches, preserves_export_to_excel | intros _].
  apply preserves_touches. frame.
Qed.

Lemma sentiment_transition_analysis_inv (st st' : State) :
  sentiment_transition_analysis st = (inr tt, st') ->
  exists cls tr,
    getitem (fear_greed_data (fst st)) "Classification" = inr cls
    /\ transition_labels (shift1 cls) cls = inr tr
    /\ fst st'
       = mkAnalysis (output_file (fst st)) (trader_data (fst st))
           (setitem (setitem (fear_greed_data (fst st)) "Prev_Sentiment" (shift1 cls))
                    "Transition" tr)
           (merged_data (fst st)).
Proof.
  intros H.
  destruct (getitem (fear_greed_data (fst st)) "Classification") as [e | cls] eqn:Hcls.
  - exfalso. destruct st as [self w].
    unfold sentiment_transition_analysis, bind, get_self, lift, ok in H.
    cbn [fst snd] in *. rewrite Hcls in H. discriminate.
  - destruct (transition_labels (shift1 cls) cls) as [e | tr] eqn:Htr.
    + exfalso. destruct st as [self w].
      unfold sentiment_transition_analysis, bind, get_self, lift, set_fear_greed_column,
        ok in H.
      cbn [fst snd] in *. rewrite Hcls in H.
      cbn [fst snd fear_greed_data] in H.
      rewrite getitem_setitem_same in H.
      rewrite getitem_setitem_other in H by discriminate.
      rewrite Hcls, Htr in H. discriminate.
    + exists cls, tr. rewrite (sentiment_transition_analysis_ok st cls tr Hcls Htr) in H.
      injection H as <-. auto.
Qed.

Lemma export_to_excel_inv (st st' : State) :
  export_to_excel st = (inr tt, st') ->
  exists tm,
    calculate_trader_metrics (fst st) = inr tm
    /\ read_file (output_file (fst st)) (files (snd st'))
       = Some (Workbook [ mkSheet "Trader Metrics" tm true;
                          mkSheet "Merged Data" (merged_data (fst st)) true ]).
Proof.
  destruct st as [self w]. unfold export_to_excel, bind, call, get_self, save, ok.
  cbn [fst snd]. destruct (calculate_trader_metrics self) as [e | tm]; [discriminate |].
  unfold style_excel_workbook. cbn [fst snd files stdout].
  rewrite read_write_file. intros H. injection H as <-.
  exists tm. split; [reflexivity |]. cbn [fst snd files]. apply read_write_file.
Qed.

Lemma setitem_two_fresh (df : DataFrame) (c1 c2 : string) (s1 s2 : Series) :
  c1 <> c2 -> ~ In c1 (columns df) -> ~ In c2 (columns df) ->
  setitem (setitem df c1 s1) c2 s2
  = mkFrame (nrows df) (cols df ++ [(c1, s1); (c2, s2)]).
Proof.
  intros Hne H1 H2. unfold setitem. simpl. f_equal.
  rewrite (assign_col_fresh c1) by exact H1.
  rewrite assign_col_fresh.
  - now rewrite <- app_assoc.
  - rewrite map_app, in_app_iff. simpl. intros [H | [H | []]]; [contradiction | congruence].
Qed.

Lemma run_of {A : Type} (m : M A) (st st' : State) (r : Result A) :
  m st = (r, st') -> snd (m st) = st'.
Proof. intros ->. reflexivity. Qed.

(** Claim C9.  Whatever the outcome of the script after the object is
    built, the merged dataset, the trade frame and the output path of the
    object are what they were: every analysis, the insight generator,
    the metrics and the export leave the object untouched, and the
    transition analysis touches the sentiment frame only.  When the run
    succeeds, the "Merged Data" sheet of the workbook holds the merged
    dataset as it was constructed, and, the sentiment frame having no
    column named [Prev_Sentiment] or [Transition] beforehand, the
    sentiment frame is the original one with exactly these two columns
    appended. *)
Theorem run_changes_only_the_sentiment_frame (st st' : State) (r : Result unit) :
  script_body st = (r, st') ->
  merged_data (fst st') = merged_data (fst st)
  /\ trader_data (fst st') = trader_data (fst st)
  /\ output_file (fst st') = output_file (fst st)
  /\ preserves_object analyze_sentiment_distribution
  /\ preserves_object analyze_performance_by_sentiment
  /\ preserves_object analyze_top_performers
  /\ preserves_object (call generate_trading_insights)
  /\ preserves_object (call calculate_trader_metrics)
  /\ preserves_object export_to_excel
  /\ touches_only_sentiment sentiment_transition_analysis
  /\ (r = inr tt ->
      (exists tm,
          read_file (output_file (fst st)) (files (snd st'))
          = Some (Workbook [ mkSheet "Trader Metrics" tm true;
                             mkSheet "Merged Data" (merged_data (fst st)) true ]))
      /\ (~ In "Prev_Sentiment" (columns (fear_greed_data (fst st))) ->
          ~ In "Transition" (columns (fear_greed_data (fst st))) ->
          exists prev tr,
            fear_greed_data (fst st')
            = mkFrame (nrows (fear_greed_data (fst st)))
                (cols (fear_greed_data (fst st))
                 ++ [("Prev_Sentiment", prev); ("Transition", tr)]))).
Proof.
  intros Hrun.
  destruct (touches_script_body st) as (Hout & Htd & Hmd).
  rewrite (run_of _ _ _ _ Hrun) in Hout, Htd, Hmd.
  split; [exact Hmd |]. split; [exact Htd |]. split; [exact Hout |].
  split; [apply preserves_analyze_sentiment_distribution |].
  split; [apply preserves_analyze_performance_by_sentiment |].
  split; [apply preserves_analyze_top_performers |].
  split; [apply preserves_call |]. split; [apply preserves_call |].
  split; [apply preserves_export_to_excel |].
  split; [apply touches_sentiment_transition_analysis |].
  intros ->. unfold script_body in Hrun.
  apply bind_inv in Hrun. destruct Hrun as ([] & s1 & Hall & Hrun).
  apply bind_inv in Hrun. destruct Hrun as ([] & s2 & Hexp & Hrest).
  (* the closing messages write no file and leave the object *)
  assert (Hfiles : files (snd st') = files (snd s2)).
  { rewrite <- (run_of _ _ _ _ Hrest).
    apply (keeps_files_bind get_self); [intros ?; reflexivity | intros self].
    apply keeps_files_bind; [apply keeps_files_print | intros _; apply keeps_files_print]. }
  assert (Hobj2 : fst st' = fst s2).
  { rewrite <- (run_of _ _ _ _ Hrest).
    assert (P : preserves_object
                  (self <~ get_self ;; print "" ;;;
                   print ("Analysis complete. Results exported to: " ++ output_file self)))
      by frame.
    apply P. }
  assert (Hobj1 : fst s2 = fst s1).
  { rewrite <- (run_of _ _ _ _ Hexp). apply preserves_export_to_excel. }
  destruct (touches_run_all_analyses st) as (Hout1 & _ & Hmd1).
  rewrite (run_of _ _ _ _ Hall) in Hout1, Hmd1.
  split.
  - destruct (export_to_excel_inv _ _ Hexp) as (tm & _ & Hread).
    exists tm. rewrite Hfiles, <- Hout1, <- Hmd1. exact Hread.
  - intros Hp Ht. unfold run_all_analyses in Hall.
    apply bind_inv in Hall. destruct Hall as ([] & sa & Ha & Hall).
    apply bind_inv in Hall. destruct Hall as ([] & sb & Hb & Hall).
    apply bind_inv in Hall. destruct Hall as ([] & sc & Hc & Hall).
    apply bind_inv in Hall. destruct Hall as ([] & sd & Hd & Hall).
    assert (Ea : fst sa = fst st).
    { rewrite <- (run_of _ _ _ _ Ha). apply preserves_analyze_sentiment_distribution. }
    assert (Eb : fst sb = fst sa).
    { rewrite <- (run_of _ _ _ _ Hb). apply preserves_analyze_performance_by_sentiment. }
    assert (Ec : fst sc = fst sb).
    { rewrite <- (run_of _ _ _ _ Hc). apply preserves_analyze_top_performers. }
    assert (Ee : fst s1 = fst sd).
    { rewrite <- (run_of _ _ _ _ Hall).
      assert (P : preserves_object
                    (insights <~ call generate_trading_insights ;;
                     print "" ;;; print "Generated Insights:" ;;;
                     for_each insights (fun i => print ("- " ++ i))))
        by frame.
      apply P. }
    destruct (sentiment_transition_analysis_inv _ _ Hd) as (cls & tr & _ & _ & Ed).
    exists (shift1 cls), tr.
    rewrite Hobj2, Hobj1, Ee, Ed. simpl fear_greed_data.
    rewrite Ec, Eb, Ea. apply setitem_two_fresh; [discriminate | assumption | assumption].
Qed.

(** ** The sentiment loader on a date it cannot read *)

(** Claim C4 (not met by the code).  The sentiment loader converts its
    dates with pandas' default [errors="raise"]: on the sample sentiment
    file whose second date is "not a date" the conversion of that cell
    raises, the loader raises, and the script stops before an object is
    built, with no file written.  The trade loader, which passes
    [errors="coerce"], loads the sample trades although one of their
    timestamps ("soon") cannot be read. *)
Theorem sentiment_loader_raises_on_unreadable_date :
  to_datetime_cell read_timestamp false ErrorsRaise (VStr "not a date")
  = inl (ValueError "Unknown datetime string format")
  /\ load_fear_greed_data read_timestamp sample_sentiment_bad_date
     = inl (ValueError "Unknown datetime string format")
  /\ main read_timestamp sample_trades sample_sentiment_bad_date "out.xlsx" empty_world
     = (inl (ValueError "Unknown datetime string format"), None, empty_world)
  /\ to_datetime_cell read_timestamp true ErrorsCoerce (VStr "soon") = inr VNull
  /\ load_trader_data read_timestamp sample_trades = inr (trader_data sample_analysis).
Proof.
  repeat split; vm_compute; reflexivity.
Qed.

(** ** A leverage statement that is not a two-decimal number *)



(** ** The merger on a trade without a date *)

(** Claim C1 as stated fails on a sentiment file with an empty date.  The
    third sample trade, stamped "soon", has no date, so no sentiment
    record has its date; yet it is in the merged set, joined to the
    sentiment row whose date is empty and classified "Greed".  The merged
    set has three rows, while two trade rows have a date that occurs
    among the sentiment dates. *)
Lemma dateless_trade_is_joined :
  init read_timestamp sample_trades sample_sentiment_empty_date "out.xlsx"
  = inr (built sample_trades sample_sentiment_empty_date)
  /\ nth 2 (column_of (rename column_mapping sample_trades) "time") VNull = VStr "soon"
  /\ nth 2 (column_of (trader_data (built sample_trades sample_sentiment_empty_date)) "Date")
         VNull = VNull
  /\ row_at (merged_data (built sample_trades sample_sentiment_empty_date)) 2
     = joined_row (trader_data (built sample_trades sample_sentiment_empty_date))
                  (fear_greed_data (built sample_trades sample_sentiment_empty_date))
                  "Date" 2 1
  /\ nth 2 (column_of (merged_data (built sample_trades sample_sentiment_empty_date))
                      "Classification") VNull = VStr "Greed"
  /\ nrows (merged_data (built sample_trades sample_sentiment_empty_date)) = 3
  /\ List.length
       (filter (fun i =>
                  match nth i (column_of (trader_data
                                 (built sample_trades sample_sentiment_empty_date)) "Date")
                            VNull with
                  | VDate d =>
                      existsb (cell_eqb (VDate d))
                        (column_of (fear_greed_data
                           (built sample_trades sample_sentiment_empty_date)) "Date")
                  | _ => false
                  end)
               (seq 0 (nrows (trader_data
                         (built sample_trades sample_sentiment_empty_date))))) = 2.
Proof.
  repeat split; vm_compute; reflexivity.
Qed.

(** ** The statements at the sample inputs *)

Ltac not_in :=
  let H := fresh "H" in
  simpl; intros H; repeat (destruct H as [H | H]; [discriminate H |]); exact H.

Ltac distinct_labels :=
  repeat (apply NoDup_cons; [not_in |]); apply NoDup_nil.

Ltac not_in_sample :=
  let H := fresh "H" in
  vm_compute; intros H; repeat (destruct H as [H | H]; [discriminate H |]); exact H.

Ltac in_sample :=
  vm_compute; repeat (first [left; reflexivity | right]).

Ltac unique_sample :=
  vm_compute; repeat (apply NoDup_cons; [not_in_sample |]); apply NoDup_nil.

Ltac first_present :=
  exists 0; split; [vm_compute; lia | vm_compute; discriminate].

Ltac first_two_present :=
  exists 0; split; [vm_compute; lia | split; vm_compute; discriminate].

Ltac other_days :=
  let i := fresh "i" in
  let j := fresh "j" in
  let Hi := fresh "Hi" in
  let Hj := fresh "Hj" in
  intros i j Hi Hj; vm_compute in Hi, Hj;
  repeat (destruct i as [| i];
          [ repeat (destruct j as [| j];
                    [vm_compute; discriminate | try solve [exfalso; lia]])
          | try solve [exfalso; lia] ]).

(** The sample trades without their timestamp column. *)
Lemma missing_time_column_aborts_run_witness :
  ~ In "time" (columns (rename column_mapping sample_trades_no_time))
  /\ load_trader_data read_timestamp sample_trades_no_time
     = inl (KeyError "No valid time column found in trader data")
  /\ main read_timestamp sample_trades_no_time sample_sentiment "out.xlsx" empty_world
     = (inl (KeyError "No valid time column found in trader data"), None, empty_world).
Proof.
  assert (H : ~ In "time" (columns (rename column_mapping sample_trades_no_time)))
    by not_in.
  split; [exact H |].
  exact (missing_time_column_aborts_run read_timestamp sample_trades_no_time
           sample_sentiment "out.xlsx" empty_world H).
Defined.

(** The sample trades, one of whose timestamps cannot be read. *)
Lemma trade_loader_keeps_every_row_witness :
  wf_frame (rename column_mapping sample_trades)
  /\ In "time" (columns (rename column_mapping sample_trades))
  /\ exists df raw t d,
       load_trader_data read_timestamp sample_trades = inr df
       /\ nrows df = nrows sample_trades
       /\ Forall (fun cs => List.length (snd cs) = nrows sample_trades) (cols df)
       /\ getitem (rename column_mapping sample_trades) "time" = inr raw
       /\ getitem df "time" = inr t
       /\ getitem df "Date" = inr d
       /\ forall i, i < nrows sample_trades ->
            (read_timestamp true (nth i raw VNull) = None ->
             nth i t VNull = VNull /\ nth i d VNull = VNull)
            /\ (forall day secs,
                  nth i raw VNull <> VNull ->
                  read_timestamp true (nth i raw VNull) = Some (day, secs) ->
                  nth i t VNull = VTime day secs /\ nth i d VNull = VDate day).
Proof.
  assert (Hwf : wf_frame (rename column_mapping sample_trades)).
  { split; [vm_compute; distinct_labels | vm_compute; repeat constructor]. }
  assert (Hin : In "time" (columns (rename column_mapping sample_trades))).
  { vm_compute. tauto. }
  split; [exact Hwf |]. split; [exact Hin |].
  exact (trade_loader_keeps_every_row read_timestamp sample_trades Hwf Hin).
Defined.

(** The object built from the sample files. *)
Lemma merger_is_inner_join_on_date_witness :
  init read_timestamp sample_trades sample_sentiment "out.xlsx" = inr sample_analysis
  /\ exists lk rk pairs,
       getitem (trader_data sample_analysis) "Date" = inr lk
       /\ getitem (fear_greed_data sample_analysis) "Date" = inr rk
       /\ pairs = join_indexers lk rk (nrows (trader_data sample_analysis))
                                (nrows (fear_greed_data sample_analysis))
       /\ nrows (merged_data sample_analysis) = List.length pairs
       /\ NoDup pairs
       /\ (forall k, k < nrows (merged_data sample_analysis) ->
             row_at (merged_data sample_analysis) k
             = joined_row (trader_data sample_analysis) (fear_greed_data sample_analysis)
                 "Date" (fst (nth k pairs (0, 0))) (snd (nth k pairs (0, 0))))
       /\ (forall i j, In (i, j) pairs
             <-> i < nrows (trader_data sample_analysis)
                 /\ j < nrows (fear_greed_data sample_analysis)
                 /\ nth i lk VNull = nth j rk VNull)
       /\ (forall i, (forall j, j < nrows (fear_greed_data sample_analysis) ->
                        nth i lk VNull <> nth j rk VNull) ->
             ~ In i (map fst pairs))
       /\ (forall j, (forall i, i < nrows (trader_data sample_analysis) ->
                        nth i lk VNull <> nth j rk VNull) ->
             ~ In j (map snd pairs))
       /\ (NoDup rk -> List.length rk = nrows (fear_greed_data sample_analysis) ->
           nrows (merged_data sample_analysis)
           = List.length
               (filter (fun i => existsb (cell_eqb (nth i lk VNull)) rk)
                       (seq 0 (nrows (trader_data sample_analysis)))))
       /\ (forall i j, i < nrows (trader_data sample_analysis) ->
             j < nrows (fear_greed_data sample_analysis) ->
             nth i lk VNull = VNull ->
             (In (i, j) pairs <-> nth j rk VNull = VNull)).
Proof.
  assert (H : init read_timestamp sample_trades sample_sentiment "out.xlsx"
              = inr sample_analysis) by (vm_compute; reflexivity).
  split; [exact H |].
  exact (merger_is_inner_join_on_date read_timestamp sample_trades sample_sentiment
           "out.xlsx" sample_analysis H).
Defined.

(** The whole script on the leveraged sample. *)
Lemma run_changes_only_the_sentiment_frame_witness :
  script_body sample_state
  = (fst (script_body sample_state), snd (script_body sample_state))
  /\ merged_data (fst (snd (script_body sample_state))) = merged_data (fst sample_state)
  /\ trader_data (fst (snd (script_body sample_state))) = trader_data (fst sample_state)
  /\ output_file (fst (snd (script_body sample_state))) = output_file (fst sample_state)
  /\ preserves_object analyze_sentiment_distribution
  /\ preserves_object analyze_performance_by_sentiment
  /\ preserves_object analyze_top_performers
  /\ preserves_object (call generate_trading_insights)
  /\ preserves_object (call calculate_trader_metrics)
  /\ preserves_object export_to_excel
  /\ touches_only_sentiment sentiment_transition_analysis
  /\ (fst (script_body sample_state) = inr tt ->
      (exists tm,
          read_file (output_file (fst sample_state))
                    (files (snd (snd (script_body sample_state))))
          = Some (Workbook [ mkSheet "Trader Metrics" tm true;
                             mkSheet "Merged Data" (merged_data (fst sample_state)) true ]))
      /\ (~ In "Prev_Sentiment" (columns (fear_greed_data (fst sample_state))) ->
          ~ In "Transition" (columns (fear_greed_data (fst sample_state))) ->
          exists prev tr,
            fear_greed_data (fst (snd (script_body sample_state)))
            = mkFrame (nrows (fear_greed_data (fst sample_state)))
                (cols (fear_greed_data (fst sample_state))
                 ++ [("Prev_Sentiment", prev); ("Transition", tr)]))).
Proof.
  assert (H : script_body sample_state
              = (fst (script_body sample_state), snd (script_body sample_state)))
    by apply surjective_pairing.
  split; [exact H |].
  exact (run_changes_only_the_sentiment_frame sample_state
           (snd (script_body sample_state)) (fst (script_body sample_state)) H).
Defined.




(** The transitions of the sample sentiment file. *)
Lemma transitions_pair_consecutive_rows_witness :
  (unique_columns (fear_greed_data (fst sample_state)))
  /\ (getitem (fear_greed_data (fst sample_state)) "Classification" =
      inr (column_of (fear_greed_data (fst sample_state)) "Classification"))
  /\ (Forall text_or_null
      (column_of (fear_greed_data (fst sample_state)) "Classification"))
  /\ (numeric_dtype (column_of (fear_greed_data (fst sample_state)) "Classification") =
      false)
  /\ ((exists i : nat,
      S i <
      List.length
        (column_of (fear_greed_data (fst sample_state)) "Classification") /\
      nth i (column_of (fear_greed_data (fst sample_state)) "Classification") VNull <>
      VNull /\
      nth (S i) (column_of (fear_greed_data (fst sample_state)) "Classification") VNull <>
      VNull))
  /\ (exists (st' : State) (counts : list (cell * nat)),
      sentiment_transition_analysis sample_state = (inr tt, st') /\
      getitem (fear_greed_data (fst st')) "Prev_Sentiment" =
      inr (shift1 (column_of (fear_greed_data (fst sample_state)) "Classification")) /\
      getitem (fear_greed_data (fst st')) "Transition" =
      inr
        match column_of (fear_greed_data (fst sample_state)) "Classification" with
        | [] => []
        | _ :: _ =>
            VNull
            :: step_labels
                 (column_of (fear_greed_data (fst sample_state)) "Classification")
        end /\
      read_file "sentiment_transitions.png" (files (snd st')) =
      Some (Figure "bar" "Sentiment Transitions Over Time" (counts_series counts)) /\
      counts <> [] /\
      NoDup (map fst counts) /\
      (forall (label : cell) (n : nat),
       In (label, n) counts <->
       label <> VNull /\
       0 < n /\
       n =
       count_of label
         (step_labels (column_of (fear_greed_data (fst sample_state)) "Classification"))) /\
      (List.length
         (shift1 (column_of (fear_greed_data (fst sample_state)) "Classification")) =
       List.length
         (column_of (fear_greed_data (fst sample_state)) "Classification") /\
       nth 0 (shift1 (column_of (fear_greed_data (fst sample_state)) "Classification"))
         VNull =
       VNull /\
       (forall i : nat,
        S i <
        List.length
          (column_of (fear_greed_data (fst sample_state)) "Classification") ->
        nth (S i)
          (shift1 (column_of (fear_greed_data (fst sample_state)) "Classification"))
          VNull =
        nth i (column_of (fear_greed_data (fst sample_state)) "Classification") VNull)) /\
      (forall (conv : bool -> cell -> option (date * Z)) (csv df : DataFrame),
       load_fear_greed_data conv csv = inr df ->
       getitem df "Classification" =
       getitem (rename [("date", "Date"); ("classification", "Classification")] csv)
         "Classification")).
Proof.
  split; [unique_sample |].
  split; [vm_compute; reflexivity |].
  split; [vm_compute; repeat constructor |].
  split; [vm_compute; reflexivity |].
  split; [first_two_present |].
  apply (transitions_pair_consecutive_rows sample_state (column_of (fear_greed_data (fst
    sample_state)) "Classification")).
  - unique_sample.
  - vm_compute; reflexivity.
  - vm_compute; repeat constructor.
  - vm_compute; reflexivity.
  - first_two_present.
Defined.

(** The sample trades, which have no leverage column. *)
Lemma missing_leverage_column_gives_null_means_witness :
  (~ In "leverage" (columns sample_trades))
  /\ (init read_timestamp sample_trades sample_sentiment "out.xlsx" = inr sample_analysis)
  /\ (unique_columns (merged_data sample_analysis))
  /\ (In "leverage" (columns (merged_data sample_analysis)))
  /\ (getitem (merged_data sample_analysis) "account" =
      inr (column_of (merged_data sample_analysis) "account"))
  /\ (getitem (merged_data sample_analysis) "Date" =
      inr (column_of (merged_data sample_analysis) "Date"))
  /\ (getitem (merged_data sample_analysis) "Classification" =
      inr (column_of (merged_data sample_analysis) "Classification"))
  /\ (get_numeric (merged_data sample_analysis) "closedPnL" =
      inr (numbers_of (merged_data sample_analysis) "closedPnL"))
  /\ (get_numeric (merged_data sample_analysis) "size" =
      inr (numbers_of (merged_data sample_analysis) "size"))
  /\ ((exists (tm : DataFrame) (avg : Series),
         calculate_trader_metrics sample_analysis = inr tm /\
         getitem tm "avg_leverage" = inr avg /\
         List.length avg = nrows tm /\
         ((exists i : nat,
             i < nrows (merged_data sample_analysis) /\
             nth i (column_of (merged_data sample_analysis) "account") VNull <> VNull /\
             nth i (column_of (merged_data sample_analysis) "Date") VNull <> VNull /\
             nth i (column_of (merged_data sample_analysis) "Classification") VNull <>
             VNull) ->
          avg <> []) /\
         Forall (eq VNull) avg) /\
      exists (insights front : list string) (tf tg : string),
        generate_trading_insights sample_analysis = inr insights /\
        insights =
        (front ++
         [(fear_leverage_prefix ++ tf)%string; (greed_leverage_prefix ++ tg)%string])%list /\
        ((exists i : nat,
            i < nrows (merged_data sample_analysis) /\
            nth i (column_of (merged_data sample_analysis) "Classification") VNull =
            VStr "Fear") ->
         tf = "nan") /\
        ((exists i : nat,
            i < nrows (merged_data sample_analysis) /\
            nth i (column_of (merged_data sample_analysis) "Classification") VNull =
            VStr "Greed") ->
         tg = "nan") /\
        (~
         (exists i : nat,
            i < nrows (merged_data sample_analysis) /\
            nth i (column_of (merged_data sample_analysis) "Classification") VNull =
            VStr "Fear") ->
         tf = "0.00") /\
        (~
         (exists i : nat,
            i < nrows (merged_data sample_analysis) /\
            nth i (column_of (merged_data sample_analysis) "Classification") VNull =
            VStr "Greed") ->
         tg = "0.00")).
Proof.
  split; [not_in_sample |].
  split; [vm_compute; reflexivity |].
  split; [unique_sample |].
  split; [in_sample |].
  split; [vm_compute; reflexivity |].
  split; [vm_compute; reflexivity |].
  split; [vm_compute; reflexivity |].
  split; [vm_compute; reflexivity |].
  split; [vm_compute; reflexivity |].
  apply (missing_leverage_column_gives_null_means read_timestamp sample_trades sample_sentiment
    "out.xlsx" sample_analysis (column_of (merged_data sample_analysis) "account") (column_of
    (merged_data sample_analysis) "Date") (column_of (merged_data sample_analysis)
    "Classification") (numbers_of (merged_data sample_analysis) "closedPnL") (numbers_of
    (merged_data sample_analysis) "size")).
  - not_in_sample.
  - vm_compute; reflexivity.
  - unique_sample.
  - in_sample.
  - vm_compute; reflexivity.
  - vm_compute; reflexivity.
  - vm_compute; reflexivity.
  - vm_compute; reflexivity.
  - vm_compute; reflexivity.
Defined.

(** * Further properties of the code *)

(** ** The loaders, column by column *)

Lemma In_assign_other (c k : string) (s v : Series) (l : list (string * Series)) :
  In (c, s) l -> c <> k -> In (c, s) (assign_col k v l).
Proof.
  intros Hin Hne. induction l as [| [c' s'] l IH]; simpl; [contradiction |].
  destruct (String.eqb_spec c' k) as [-> | Hk].
  - destruct Hin as [E | Hin]; [injection E as -> ->; congruence | now right].
  - destruct Hin as [E | Hin]; [now left | right; auto].
Qed.

Lemma load_trader_data_inv (conv : bool -> cell -> option (date * Z))
    (csv df : DataFrame) :
  load_trader_data conv csv = inr df ->
  exists raw,
    getitem (rename column_mapping csv) "time" = inr raw
    /\ df = loaded_trades conv csv raw.
Proof.
  intros H. destruct (has_column "time" (rename column_mapping csv)) eqn:Ht.
  - apply has_column_In in Ht.
    destruct (load_trader_data_time conv csv Ht) as (raw & Hraw & Hload).
    exists raw. split; [exact Hraw | congruence].
  - unfold load_trader_data in H. rewrite Ht in H. discriminate.
Qed.

Lemma rename_cols_In (mapping : list (string * string)) (df : DataFrame)
    (c : string) (s : Series) :
  In (c, s) (cols df) -> In (rename_label mapping c, s) (cols (rename mapping df)).
Proof.
  intros H. unfold rename. simpl. apply in_map_iff. exists (c, s). auto.
Qed.

Lemma rename_columns (mapping : list (string * string)) (df : DataFrame) :
  columns (rename mapping df) = map (rename_label mapping) (columns df).
Proof.
  unfold columns, rename. simpl. now rewrite !map_map.
Qed.

(** The trade loader rewrites [time], sets [Date] and may add
    [leverage]; it changes nothing else.  Every other column of the file
    is in the loaded frame under its renamed label with the cells it
    had, and the loaded frame has no label besides the renamed ones,
    [Date] and [leverage]. *)
Theorem trade_loader_changes_only_three_columns
    (conv : bool -> cell -> option (date * Z)) (csv df : DataFrame) :
  load_trader_data conv csv = inr df ->
  (forall c s,
      In (c, s) (cols csv) ->
      rename_label column_mapping c <> "time" ->
      rename_label column_mapping c <> "Date" ->
      In (rename_label column_mapping c, s) (cols df))
  /\ (forall c,
        In c (columns df) ->
        c = "Date" \/ c = "leverage"
        \/ exists c0, In c0 (columns csv) /\ c = rename_label column_mapping c0).
Proof.
  intros H. destruct (load_trader_data_inv conv csv df H) as (raw & Hraw & ->).
  unfold loaded_trades.
  set (df2 := setitem (setitem (rename column_mapping csv) "time" _) "Date" _).
  assert (Hkeep : forall c s, In (c, s) (cols csv) ->
            rename_label column_mapping c <> "time" ->
            rename_label column_mapping c <> "Date" ->
            In (rename_label column_mapping c, s) (cols df2)).
  { intros c s Hin Ht Hd. unfold df2, setitem. simpl cols.
    apply In_assign_other; [| exact Hd]. apply In_assign_other; [| exact Ht].
    now apply rename_cols_In. }
  assert (Hlab : forall c, In c (columns df2) ->
            c = "Date" \/ c = "time" \/ In c (columns (rename column_mapping csv))).
  { intros c. unfold df2, columns, setitem. simpl cols.
    rewrite !assign_col_labels. tauto. }
  assert (Htime : In "time" (columns (rename column_mapping csv))).
  { unfold getitem in Hraw.
    destruct (lookup_col "time" (cols (rename column_mapping csv))) eqn:E; [| discriminate].
    apply lookup_col_In in E. apply in_map_iff. exists ("time", s). auto. }
  assert (Hren : forall c, In c (columns (rename column_mapping csv)) ->
            exists c0, In c0 (columns csv) /\ c = rename_label column_mapping c0).
  { intros c Hc. rewrite rename_columns in Hc. apply in_map_iff in Hc.
    destruct Hc as (c0 & <- & Hc0). eauto. }
  destruct (has_column "leverage" df2) eqn:Hlev; simpl negb; cbv iota.
  - split; [exact Hkeep |]. intros c Hc.
    destruct (Hlab c Hc) as [-> | [-> | Hc']]; auto.
  - split.
    + intros c s Hin Ht Hd. unfold setitem. simpl cols.
      apply In_assign_other; [now apply Hkeep |].
      intros E. assert (Hin2 : In "leverage" (columns df2)).
      { apply in_map_iff. exists ("leverage", s). split; [reflexivity |].
        rewrite <- E. now apply Hkeep. }
      apply has_column_In in Hin2. congruence.
    + intros c Hc. unfold columns, setitem in Hc. simpl cols in Hc.
      apply assign_col_labels in Hc. destruct Hc as [-> | Hc]; [auto |].
      destruct (Hlab c Hc) as [-> | [-> | Hc']]; auto.
Qed.

(** A leverage column of the trade file is kept as it is; only when the
    file has none does the loader add one, null on every row. *)
Theorem trade_loader_leverage_kept_or_null
    (conv : bool -> cell -> option (date * Z)) (csv df : DataFrame) :
  load_trader_data conv csv = inr df ->
  (forall s, getitem (rename column_mapping csv) "leverage" = inr s ->
             getitem df "leverage" = inr s)
  /\ (~ In "leverage" (columns csv) ->
      getitem df "leverage" = inr (repeat VNull (nrows csv))).
Proof.
  intros H. destruct (load_trader_data_inv conv csv df H) as (raw & Hraw & ->).
  unfold loaded_trades.
  set (df2 := setitem (setitem (rename column_mapping csv) "time" _) "Date" _).
  assert (Hget : getitem df2 "leverage" = getitem (rename column_mapping csv) "leverage").
  { unfold df2. now rewrite !getitem_setitem_other by discriminate. }
  assert (Hin : In "leverage" (columns df2)
                <-> In "leverage" (columns (rename column_mapping csv))).
  { unfold df2, columns, setitem. simpl cols. rewrite !assign_col_labels.
    split; [intros [E | [E | E]]; try discriminate; exact E | auto]. }
  split.
  - intros s Hs.
    assert (Hb : has_column "leverage" df2 = true).
    { apply has_column_In, Hin. unfold getitem in Hs.
      destruct (lookup_col "leverage" (cols (rename column_mapping csv))) eqn:E;
        [| discriminate].
      apply lookup_col_In in E. apply in_map_iff. exists ("leverage", s0). auto. }
    rewrite Hb. simpl. congruence.
  - intros Hno. apply rename_no_leverage in Hno.
    assert (Hb : has_column "leverage" df2 = false).
    { destruct (has_column "leverage" df2) eqn:E; [| reflexivity].
      apply has_column_In, Hin in E. contradiction. }
    rewrite Hb. simpl negb. cbv iota. apply getitem_setitem_same.
Qed.

Lemma to_datetime_raise_ok (conv : bool -> cell -> option (date * Z))
    (dayfirst : bool) (s : Series) :
  Forall (readable conv dayfirst) s ->
  to_datetime conv dayfirst ErrorsRaise s = inr (map (coerced conv dayfirst) s).
Proof.
  intros Hs. apply mapM_map. intros c Hc. rewrite Forall_forall in Hs.
  specialize (Hs c Hc). unfold to_datetime_cell, coerced.
  destruct Hs as [-> | Hs]; [reflexivity |].
  destruct c; try reflexivity;
    destruct (conv dayfirst _) as [[dd tt] |]; try reflexivity; congruence.
Qed.

Lemma to_datetime_raise_inv (conv : bool -> cell -> option (date * Z))
    (dayfirst : bool) (s r : Series) :
  to_datetime conv dayfirst ErrorsRaise s = inr r -> Forall (readable conv dayfirst) s.
Proof.
  intros H. apply Forall_forall. intros c Hc.
  destruct c; try (right; intros E;
    rewrite (to_datetime_raise conv dayfirst s _ Hc ltac:(discriminate) E) in H;
    discriminate).
  now left.
Qed.

(** For a sentiment file whose renamed labels are distinct, the loader
    succeeds exactly when the file has a date column all of whose
    non-empty cells can be read.  It then keeps
    every row: an empty date stays null, a date that is read becomes its
    calendar day, and every other column is kept as it is. *)
Theorem sentiment_loader_succeeds_iff_dates_readable
    (conv : bool -> cell -> option (date * Z)) (csv : DataFrame) :
  unique_columns (rename [("date", "Date"); ("classification", "Classification")] csv) ->
  ((exists df, load_fear_greed_data conv csv = inr df)
   <-> exists raw,
         getitem (rename [("date", "Date"); ("classification", "Classification")] csv)
                 "Date" = inr raw
         /\ Forall (readable conv false) raw)
  /\ (forall df raw,
        load_fear_greed_data conv csv = inr df ->
        getitem (rename [("date", "Date"); ("classification", "Classification")] csv)
                "Date" = inr raw ->
        nrows df = nrows csv
        /\ getitem df "Date" = inr (map (fun c => dt_date_cell (coerced conv false c)) raw)
        /\ forall c s,
             c <> "Date" ->
             In (c, s) (cols (rename [("date", "Date");
                                      ("classification", "Classification")] csv)) ->
             In (c, s) (cols df)).
Proof.
  intros _. split.
  - split.
    + intros (df & H). unfold load_fear_greed_data in H. inv_ok.
      eexists. split; [eassumption |]. eapply to_datetime_raise_inv. eassumption.
    + intros (raw & Hraw & Hall). unfold load_fear_greed_data.
      rewrite Hraw. simpl rbind. rewrite (to_datetime_raise_ok _ _ _ Hall).
      eexists. reflexivity.
  - intros df raw H Hraw. unfold load_fear_greed_data in H.
    rewrite Hraw in H. simpl rbind in H.
    destruct (to_datetime conv false ErrorsRaise raw) as [e | d'] eqn:Hd;
      [discriminate |].
    pose proof (to_datetime_raise_inv _ _ _ _ Hd) as Hall.
    rewrite (to_datetime_raise_ok _ _ _ Hall) in Hd. injection Hd as <-.
    simpl in H. injection H as <-.
    split; [reflexivity |]. split.
    + rewrite getitem_setitem_same. unfold dt_date. now rewrite map_map.
    + intros c s Hc Hin. unfold setitem. simpl cols. now apply In_assign_other.
Qed.

(** A sentiment file without a date column makes the sentiment loader
    raise [KeyError], and, the trade file having one timestamp column,
    the script stops there: no object is built and nothing is written or
    printed. *)
Theorem sentiment_file_without_date_aborts_run
    (conv : bool -> cell -> option (date * Z))
    (trader_file fear_greed_file : DataFrame) (out : string) (w : World) :
  ~ In "Date" (columns (rename [("date", "Date"); ("classification", "Classification")]
                               fear_greed_file)) ->
  unique_columns (rename column_mapping trader_file) ->
  In "time" (columns (rename column_mapping trader_file)) ->
  load_fear_greed_data conv fear_greed_file = inl (KeyError "Date")
  /\ main conv trader_file fear_greed_file out w = (inl (KeyError "Date"), None, w).
Proof.
  intros Hno _ Htime.
  assert (E : load_fear_greed_data conv fear_greed_file = inl (KeyError "Date")).
  { unfold load_fear_greed_data, getitem.
    apply lookup_col_None in Hno. unfold columns in Hno. rewrite Hno. reflexivity. }
  split; [exact E |].
  destruct (load_trader_data_time conv trader_file Htime) as (raw & _ & Hload).
  unfold main, init. rewrite Hload. simpl rbind. rewrite E. reflexivity.
Qed.

(** ** The constructor, from the files to the merged set *)

Lemma init_inv (conv : bool -> cell -> option (date * Z))
    (trader_file fear_greed_file : DataFrame) (out : string) (a : Analysis) :
  init conv trader_file fear_greed_file out = inr a ->
  exists traw sraw,
    getitem (rename column_mapping trader_file) "time" = inr traw
    /\ trader_data a = loaded_trades conv trader_file traw
    /\ getitem (rename [("date", "Date"); ("classification", "Classification")]
                       fear_greed_file) "Date" = inr sraw
    /\ Forall (readable conv false) sraw
    /\ fear_greed_data a
       = setitem (rename [("date", "Date"); ("classification", "Classification")]
                         fear_greed_file)
                 "Date" (map (fun c => dt_date_cell (coerced conv false c)) sraw)
    /\ merge (trader_data a) (fear_greed_data a) "Date" = inr (merged_data a).
Proof.
  intros H. destruct (init_ok _ _ _ _ _ H) as (Ht & Hf & Hm & _).
  destruct (load_trader_data_inv _ _ _ Ht) as (traw & Htraw & Et).
  unfold load_fear_greed_data in Hf.
  destruct (getitem (rename [("date", "Date"); ("classification", "Classification")]
                            fear_greed_file) "Date") as [e | sraw] eqn:Hs;
    [discriminate |].
  simpl rbind in Hf.
  destruct (to_datetime conv false ErrorsRaise sraw) as [e | d'] eqn:Hd; [discriminate |].
  pose proof (to_datetime_raise_inv _ _ _ _ Hd) as Hall.
  rewrite (to_datetime_raise_ok _ _ _ Hall) in Hd. injection Hd as <-.
  simpl in Hf. injection Hf as Hf.
  exists traw, sraw. split; [exact Htraw |]. split; [exact Et |].
  split; [reflexivity |]. split; [exact Hall |]. split; [| exact Hm].
  rewrite <- Hf. unfold dt_date. now rewrite map_map.
Qed.

Lemma nth_map_null {A : Type} (f : A -> cell) (l : list A) (d : A) (i : nat) :
  i < List.length l -> nth i (map f l) VNull = f (nth i l d).
Proof. intros Hi. now apply nth_map_lt. Qed.

(** A trade whose timestamp is empty or cannot be read gets a null date
    and is not lost for that alone: the join pairs it with exactly the
    sentiment rows whose date cell is empty.  When the sentiment file has
    no empty date, such a trade is in no merged row. *)
Theorem unreadable_timestamps_join_empty_dates
    (conv : bool -> cell -> option (date * Z))
    (trader_file fear_greed_file : DataFrame) (out : string) (a : Analysis)
    (traw sraw : Series) :
  init conv trader_file fear_greed_file out = inr a ->
  getitem (rename column_mapping trader_file) "time" = inr traw ->
  getitem (rename [("date", "Date"); ("classification", "Classification")]
                  fear_greed_file) "Date" = inr sraw ->
  List.length sraw = nrows fear_greed_file ->
  exists lk rk,
    getitem (trader_data a) "Date" = inr lk
    /\ getitem (fear_greed_data a) "Date" = inr rk
    /\ forall i j,
         i < nrows trader_file -> j < nrows fear_greed_file ->
         coerced conv true (nth i traw VNull) = VNull ->
         (In (i, j) (join_indexers lk rk (nrows (trader_data a))
                                   (nrows (fear_greed_data a)))
          <-> nth j sraw VNull = VNull).
Proof.
  intros Hinit Htraw Hsraw Hlen.
  destruct (init_inv _ _ _ _ _ Hinit) as (traw' & sraw' & Ht' & Et & Hs' & Hall & Ef & _).
  assert (traw' = traw) by congruence. assert (sraw' = sraw) by congruence. subst.
  exists (dt_date (map (coerced conv true) traw)),
    (map (fun c => dt_date_cell (coerced conv false c)) sraw).
  split; [rewrite Et; apply loaded_trades_Date |].
  split; [rewrite Ef; apply getitem_setitem_same |].
  intros i j Hi Hj Hnull. rewrite join_indexers_In.
  rewrite Et, loaded_trades_nrows, Ef. simpl nrows.
  rewrite nth_dt_date, nth_coerced, Hnull. simpl dt_date_cell.
  rewrite (nth_map_null _ sraw VNull) by lia.
  split.
  - intros (_ & _ & E). rewrite Forall_forall in Hall.
    assert (Hr : readable conv false (nth j sraw VNull)) by (apply Hall, nth_In; lia).
    destruct Hr as [Hr | Hr]; [exact Hr |].
    unfold coerced in E. destruct (nth j sraw VNull); try reflexivity;
      destruct (conv false _) as [[dd tt] |]; try discriminate E; congruence.
  - intros E. rewrite E. repeat split; assumption.
Qed.

Lemma list_sum_le_const (f : nat -> nat) (l : list nat) (m : nat) :
  (forall i, f i <= m) -> list_sum (map f l) <= List.length l * m.
Proof.
  intros Hf. induction l as [| i l IH]; simpl; [lia |]. specialize (Hf i). lia.
Qed.

Lemma join_indexers_count (lk rk : Series) (n m : nat) :
  List.length (join_indexers lk rk n m)
  = list_sum (map (fun i => List.length
                              (filter (fun j => cell_eqb (nth i lk VNull) (nth j rk VNull))
                                      (seq 0 m)))
                  (seq 0 n)).
Proof.
  unfold join_indexers. induction (seq 0 n) as [| i l IH]; simpl; [reflexivity |].
  now rewrite length_app, length_map, IH.
Qed.

(** Fan-out of the join: a trade row appears in the merged set once for
    every sentiment row that has its date, so the merged row count is the
    sum, over the trade rows, of the number of sentiment rows with the
    same date; it never exceeds the product of the two row counts. *)
Theorem merged_row_count_is_sum_of_matches
    (conv : bool -> cell -> option (date * Z))
    (trader_file fear_greed_file : DataFrame) (out : string) (a : Analysis) :
  init conv trader_file fear_greed_file out = inr a ->
  exists lk rk,
    getitem (trader_data a) "Date" = inr lk
    /\ getitem (fear_greed_data a) "Date" = inr rk
    /\ nrows (merged_data a) <= nrows (trader_data a) * nrows (fear_greed_data a)
    /\ (List.length rk = nrows (fear_greed_data a) ->
        nrows (merged_data a)
        = list_sum (map (fun i => count_of (nth i lk VNull) rk)
                        (seq 0 (nrows (trader_data a))))).
Proof.
  intros Hinit. destruct (init_ok _ _ _ _ _ Hinit) as (_ & _ & Hm & _).
  destruct (merge_keys _ _ _ _ Hm) as (lk & rk & Hl & Hr).
  exists lk, rk. split; [exact Hl |]. split; [exact Hr |].
  rewrite (merge_ok _ _ _ _ _ Hl Hr) in Hm. injection Hm as <-. simpl nrows.
  rewrite join_indexers_count. split.
  - etransitivity; [apply list_sum_le_const | rewrite length_seq; reflexivity].
    intros i. etransitivity; [apply filter_length_le | now rewrite length_seq].
  - intros Hlen. rewrite <- Hlen. f_equal. apply map_ext. intros i.
    apply (filter_positions_length (cell_eqb (nth i lk VNull)) rk).
Qed.

Lemma rectangular_rename (mapping : list (string * string)) (df : DataFrame) :
  rectangular df -> rectangular (rename mapping df).
Proof.
  unfold rectangular, rename. simpl. intros H. apply Forall_map.
  eapply Forall_impl; [| exact H]. auto.
Qed.

Lemma getitem_length (df : DataFrame) (c : string) (s : Series) :
  rectangular df -> getitem df c = inr s -> List.length s = nrows df.
Proof.
  unfold rectangular, getitem. intros Hrect H.
  destruct (lookup_col c (cols df)) as [s' |] eqn:E; [| discriminate].
  injection H as ->. apply lookup_col_In in E. rewrite Forall_forall in Hrect.
  apply (Hrect _ E).
Qed.

Lemma take_length (idx : list nat) (s : Series) : List.length (take idx s) = List.length idx.
Proof. unfold take. apply length_map. Qed.

(** The frames of the object are rectangular: every column of the merged
    set has as many cells as the merged set has rows, whatever the
    files; and the loaded trade and sentiment frames are rectangular when
    the files are. *)
Theorem built_frames_are_rectangular
    (conv : bool -> cell -> option (date * Z))
    (trader_file fear_greed_file : DataFrame) (out : string) (a : Analysis) :
  init conv trader_file fear_greed_file out = inr a ->
  rectangular (merged_data a)
  /\ (rectangular trader_file -> rectangular (trader_data a))
  /\ (rectangular fear_greed_file -> rectangular (fear_greed_data a)).
Proof.
  intros Hinit.
  destruct (init_inv _ _ _ _ _ Hinit) as (traw & sraw & Ht & Et & Hs & _ & Ef & Hm).
  split; [| split].
  - destruct (merge_keys _ _ _ _ Hm) as (lk & rk & Hl & Hr).
    rewrite (merge_ok _ _ _ _ _ Hl Hr) in Hm. injection Hm as <-.
    unfold rectangular. simpl. apply Forall_app.
    split; apply Forall_map, Forall_forall; intros cs _; simpl;
      now rewrite take_length, length_map.
  - intros Hrect. apply (rectangular_rename column_mapping) in Hrect.
    rewrite Et. unfold rectangular. rewrite loaded_trades_nrows.
    apply loaded_trades_lengths; [exact Hrect |].
    apply (getitem_length _ _ _ Hrect Ht).
  - intros Hrect.
    apply (rectangular_rename [("date", "Date"); ("classification", "Classification")])
      in Hrect.
    rewrite Ef. unfold rectangular, setitem. simpl.
    apply assign_col_lengths; [| exact Hrect].
    rewrite length_map. apply (getitem_length _ _ _ Hrect Hs).
Qed.

Lemma join_indexers_nil (lk rk : Series) (n m : nat) :
  (forall i j, i < n -> j < m -> nth i lk VNull <> nth j rk VNull) ->
  join_indexers lk rk n m = [].
Proof.
  intros Hno. destruct (join_indexers lk rk n m) as [| [i j] l] eqn:E; [reflexivity |].
  exfalso. assert (Hin : In (i, j) (join_indexers lk rk n m)) by (rewrite E; now left).
  apply join_indexers_In in Hin. destruct Hin as (Hi & Hj & Heq).
  exact (Hno i j Hi Hj Heq).
Qed.

Lemma getitem_all_empty (df : DataFrame) (c : string) :
  (forall cs, In cs (cols df) -> snd cs = []) ->
  In c (columns df) -> getitem df c = inr [].
Proof.
  intros Hall Hin. unfold getitem.
  destruct (lookup_col_Some _ _ Hin) as (s & E). rewrite E.
  apply lookup_col_In in E. specialize (Hall _ E). simpl in Hall. now subst.
Qed.

(** When no trade falls on a day of the sentiment file, the merged set
    has no row; if it has the columns the report reads, each once, the
    metrics table is then empty and the insights are just the two leverage
    statements, both showing 0.00. *)
Theorem no_common_day_gives_empty_report
    (conv : bool -> cell -> option (date * Z))
    (trader_file fear_greed_file : DataFrame) (out : string) (a : Analysis)
    (lk rk : Series) :
  init conv trader_file fear_greed_file out = inr a ->
  getitem (trader_data a) "Date" = inr lk ->
  getitem (fear_greed_data a) "Date" = inr rk ->
  (forall i j, i < nrows (trader_data a) -> j < nrows (fear_greed_data a) ->
               nth i lk VNull <> nth j rk VNull) ->
  nrows (merged_data a) = 0
  /\ (unique_columns (merged_data a) ->
      (forall c, In c ["account"; "Date"; "Classification"; "closedPnL"; "leverage"; "size"] ->
                 In c (columns (merged_data a))) ->
      calculate_trader_metrics a
      = inr (mkFrame 0 [ ("account", []); ("Date", []); ("Classification", []);
                         ("total_pnl", []); ("avg_leverage", []);
                         ("trade_count", []); ("avg_size", []) ])
      /\ generate_trading_insights a
         = inr [ "Avg leverage during Fear: 0.00"; "Avg leverage during Greed: 0.00" ]).
Proof.
  intros Hinit Hl Hr Hno. destruct (init_ok _ _ _ _ _ Hinit) as (_ & _ & Hm & _).
  rewrite (merge_ok _ _ _ _ _ Hl Hr) in Hm.
  rewrite (join_indexers_nil _ _ _ _ Hno) in Hm. injection Hm as Hm.
  assert (Hn : nrows (merged_data a) = 0) by (rewrite <- Hm; reflexivity).
  assert (Hempty : forall cs, In cs (cols (merged_data a)) -> snd cs = []).
  { rewrite <- Hm. simpl cols. intros cs Hcs. apply in_app_iff in Hcs.
    destruct Hcs as [Hcs | Hcs]; apply in_map_iff in Hcs;
      destruct Hcs as (cs0 & <- & _); reflexivity. }
  split; [exact Hn |]. intros _ Hcols.
  assert (G : forall c, In c ["account"; "Date"; "Classification"; "closedPnL";
                              "leverage"; "size"] ->
                        getitem (merged_data a) c = inr []).
  { intros c Hc. apply getitem_all_empty; auto. }
  split.
  - unfold calculate_trader_metrics, get_numeric. simpl mapM.
    rewrite !G by (simpl; tauto). rewrite Hn. reflexivity.
  - unfold generate_trading_insights, groupby_agg, get_numeric.
    rewrite !G by (simpl; tauto). rewrite Hn. reflexivity.
Qed.

Lemma loaded_trades_has_leverage (conv : bool -> cell -> option (date * Z))
    (csv : DataFrame) (raw : Series) :
  In "leverage" (columns (loaded_trades conv csv raw)).
Proof.
  unfold loaded_trades.
  destruct (has_column "leverage" _) eqn:E; simpl negb; cbv iota.
  - now apply has_column_In.
  - unfold columns, setitem. simpl cols. apply assign_col_labels. now left.
Qed.

Lemma suffixed_never_leverage (on : string) (others : list string) (sfx c : string) :
  sfx = "_x" \/ sfx = "_y" -> on <> "leverage" -> In "leverage" others ->
  suffixed on others sfx c <> "leverage".
Proof.
  intros Hs Hon Hin E. destruct (suffixed_leverage _ _ _ _ Hs E) as [-> Hc].
  apply mem_label_In in Hin. rewrite Hin, andb_true_r in Hc.
  apply negb_false_iff, String.eqb_eq in Hc. congruence.
Qed.

(** When the sentiment file has a leverage column too, the join renames
    the two to [leverage_x] and [leverage_y]; the merged set then has no
    [leverage] column, and both [calculate_trader_metrics] and
    [generate_trading_insights] raise. *)
Theorem leverage_in_both_files_breaks_the_report
    (conv : bool -> cell -> option (date * Z))
    (trader_file fear_greed_file : DataFrame) (out : string) (a : Analysis) :
  init conv trader_file fear_greed_file out = inr a ->
  In "leverage" (columns fear_greed_file) ->
  In "leverage_x" (columns (merged_data a))
  /\ In "leverage_y" (columns (merged_data a))
  /\ getitem (merged_data a) "leverage" = inl (KeyError "leverage")
  /\ (exists e, calculate_trader_metrics a = inl e)
  /\ (exists e, generate_trading_insights a = inl e).
Proof.
  intros Hinit Hlev.
  destruct (init_inv _ _ _ _ _ Hinit) as (traw & sraw & _ & Et & _ & _ & Ef & Hm).
  assert (HT : In "leverage" (columns (trader_data a))).
  { rewrite Et. apply loaded_trades_has_leverage. }
  assert (HS : In "leverage" (columns (fear_greed_data a))).
  { rewrite Ef. unfold columns, setitem. cbn [cols]. apply assign_col_labels. right.
    apply in_map_iff in Hlev. destruct Hlev as ([c s] & Ec & Hin). simpl in Ec. subst c.
    apply in_map_iff. exists ("leverage", s). split; [reflexivity |].
    exact (rename_cols_In [("date", "Date"); ("classification", "Classification")]
                          _ _ _ Hin). }
  destruct (merge_keys _ _ _ _ Hm) as (lk & rk & Hl & Hr).
  rewrite (merge_ok _ _ _ _ _ Hl Hr) in Hm.
  set (ix := join_indexers lk rk (nrows (trader_data a)) (nrows (fear_greed_data a))) in *.
  assert (Hcols : columns (merged_data a)
                  = (map (suffixed "Date" (columns (fear_greed_data a)) "_x")
                         (columns (trader_data a))
                     ++ map (suffixed "Date" (columns (trader_data a)) "_y")
                            (map fst (filter (fun cs => negb (String.eqb (fst cs) "Date"))
                                             (cols (fear_greed_data a)))))%list).
  { injection Hm as <-. unfold columns. simpl cols. now rewrite map_app, !map_map. }
  assert (Hget : getitem (merged_data a) "leverage" = inl (KeyError "leverage")).
  { unfold getitem.
    destruct (lookup_col "leverage" (cols (merged_data a))) as [s |] eqn:E; [| reflexivity].
    exfalso. apply lookup_col_In in E.
    assert (Hin : In "leverage" (columns (merged_data a))).
    { apply in_map_iff. exists ("leverage", s). auto. }
    rewrite Hcols in Hin. apply in_app_iff in Hin.
    destruct Hin as [Hin | Hin]; apply in_map_iff in Hin; destruct Hin as (c & Ec & _).
    - revert Ec. apply suffixed_never_leverage; auto. discriminate.
    - revert Ec. apply suffixed_never_leverage; auto. discriminate. }
  split; [| split; [| split; [exact Hget | split]]].
  - rewrite Hcols. apply in_app_iff. left. apply in_map_iff. exists "leverage".
    split; [| exact HT]. unfold suffixed. apply mem_label_In in HS. now rewrite HS.
  - rewrite Hcols. apply in_app_iff. right. apply in_map_iff. exists "leverage".
    split.
    + unfold suffixed. apply mem_label_In in HT. now rewrite HT.
    + unfold columns in HS. apply in_map_iff in HS. destruct HS as ([c s] & Ec & Hin).
      simpl in Ec. subst c. apply in_map_iff. exists ("leverage", s).
      split; [reflexivity |]. apply filter_In. split; [exact Hin | reflexivity].
  - unfold calculate_trader_metrics.
    destruct (mapM _ _) as [e | keys]; [eexists; reflexivity |]. simpl rbind.
    destruct (get_numeric (merged_data a) "closedPnL") as [e | pnl];
      [eexists; reflexivity |].
    simpl rbind. unfold get_numeric at 1. rewrite Hget. eexists; reflexivity.
  - unfold generate_trading_insights.
    destruct (groupby_agg agg_mean (merged_data a) "Classification" "closedPnL")
      as [e | perf] eqn:E1; [eexists; reflexivity |].
    simpl rbind. destruct (groupby_agg_inv _ _ _ _ _ E1) as (k & _ & Hk & _).
    unfold groupby_agg at 1. rewrite Hk. simpl rbind.
    unfold get_numeric. rewrite Hget. eexists; reflexivity.
Qed.

(** ** Sorting, counting and grouping, in general *)

Lemma insert_sorted_In {A : Type} (leb : A -> A -> bool) (x z : A) (l : list A) :
  In z (insert_sorted leb x l) <-> z = x \/ In z l.
Proof.
  split.
  - intros H. apply (Permutation_in _ (Permutation_sym (insert_sorted_perm leb x l))) in H.
    destruct H as [-> | H]; auto.
  - intros H. apply (Permutation_in _ (insert_sorted_perm leb x l)).
    destruct H as [-> | H]; [now left | now right].
Qed.

Section SortedBy.

Context {A : Type} (leb : A -> A -> bool) (P : A -> Prop).
Hypothesis leb_total : forall a b, P a -> P b -> leb a b = true \/ leb b a = true.
Hypothesis leb_trans :
  forall a b c, P a -> P b -> P c -> leb a b = true -> leb b c = true -> leb a c = true.

Lemma insert_sorted_sorted (x : A) (l : list A) :
  P x -> Forall P l ->
  StronglySorted (fun a b => leb a b = true) l ->
  StronglySorted (fun a b => leb a b = true) (insert_sorted leb x l).
Proof.
  intros Px Pl Hs. induction Hs as [| y l Hs IH Hy]; simpl.
  - repeat constructor.
  - inversion Pl as [| ? ? Py Pl']; subst.
    destruct (leb x y) eqn:E.
    + constructor; [constructor; assumption |].
      constructor; [exact E |].
      rewrite Forall_forall in *. intros z Hz.
      apply (leb_trans x y z); auto.
    + constructor; [now apply IH |].
      apply Forall_forall. intros z Hz. apply insert_sorted_In in Hz.
      destruct Hz as [-> | Hz].
      * destruct (leb_total x y Px Py) as [H | H]; [congruence | exact H].
      * rewrite Forall_forall in Hy. now apply Hy.
Qed.

Lemma sort_by_sorted (l : list A) :
  Forall P l -> StronglySorted (fun a b => leb a b = true) (sort_by leb l).
Proof.
  induction l as [| x l IH]; simpl; intros Hl; [constructor |].
  inversion Hl; subst. apply insert_sorted_sorted; auto.
  apply Forall_forall. intros z Hz. apply sort_by_In in Hz.
  rewrite Forall_forall in *. auto.
Qed.

End SortedBy.


Lemma StronglySorted_impl {A : Type} (R R' : A -> A -> Prop) (l : list A) :
  (forall a b, R a b -> R' a b) -> StronglySorted R l -> StronglySorted R' l.
Proof.
  intros HR. induction 1; constructor; auto.
  eapply Forall_impl; [| eassumption]. auto.
Qed.

Lemma list_sum_perm (l l' : list nat) : Permutation l l' -> list_sum l = list_sum l'.
Proof.
  induction 1; simpl; lia.
Qed.

Lemma list_sum_map_add {A : Type} (f g : A -> nat) (l : list A) :
  list_sum (map (fun a => f a + g a) l) = list_sum (map f l) + list_sum (map g l).
Proof.
  induction l as [| a l IH]; simpl; lia.
Qed.

Lemma uniq_length_le {A : Type} (eqb : A -> A -> bool) (l : list A) :
  List.length (uniq eqb l) <= List.length l.
Proof.
  induction l as [| x l IH]; simpl; [lia |].
  pose proof (filter_length_le (fun y => negb (eqb x y)) (uniq eqb l)). lia.
Qed.


Section SumByKey.

Context {K I : Type} (eqb : K -> K -> bool).
Hypothesis eqb_eq : forall a b, eqb a b = true <-> a = b.

Lemma hits_once (x : K) (ks : list K) :
  NoDup ks ->
  list_sum (map (fun k => if eqb x k then 1 else 0) ks)
  = if existsb (eqb x) ks then 1 else 0.
Proof.
  induction 1 as [| k ks Hk Hnd IH]; simpl; [reflexivity |].
  rewrite IH. destruct (eqb x k) eqn:E; simpl; [| reflexivity].
  apply eqb_eq in E. subst k.
  destruct (existsb (eqb x) ks) eqn:Ex; [| reflexivity].
  apply existsb_exists in Ex. destruct Ex as (y & Hy & Ey).
  apply eqb_eq in Ey. subst y. contradiction.
Qed.

(** The sizes of the groups of distinct keys add up to the number of
    items whose key is one of them. *)
Lemma sum_by_key (f : I -> K) (ks : list K) (items : list I) :
  NoDup ks ->
  list_sum (map (fun k => List.length (filter (fun i => eqb (f i) k) items)) ks)
  = List.length (filter (fun i => existsb (eqb (f i)) ks) items).
Proof.
  intros Hnd. induction items as [| i items IH]; simpl.
  - clear Hnd. induction ks; simpl; auto.
  - transitivity
      (list_sum (map (fun k => (if eqb (f i) k then 1 else 0)
                               + List.length (filter (fun j => eqb (f j) k) items)) ks)).
    + f_equal. apply map_ext. intros k. destruct (eqb (f i) k); reflexivity.
    + rewrite list_sum_map_add, IH, (hits_once (f i) ks Hnd).
      destruct (existsb (eqb (f i)) ks); reflexivity.
Qed.

End SumByKey.

Lemma filter_all {A : Type} (f : A -> bool) (l : list A) :
  (forall x, In x l -> f x = true) -> filter f l = l.
Proof.
  induction l as [| x l IH]; simpl; intros H; [reflexivity |].
  rewrite (H x (or_introl eq_refl)). f_equal. apply IH. auto.
Qed.

Lemma cell_eqb_sym (a b : cell) : cell_eqb a b = cell_eqb b a.
Proof.
  destruct (cell_eqb a b) eqn:E.
  - apply cell_eqb_eq in E. subst. symmetry. apply cell_eqb_refl.
  - symmetry. apply cell_eqb_neq. apply cell_eqb_neq in E. congruence.
Qed.

(** What [value_counts] returns: distinct non-null labels, each with the
    number of its occurrences, most frequent first; the counts add up to
    the number of non-null cells. *)
Lemma value_counts_sorted_and_total (s : Series) :
  counts_descending (value_counts s)
  /\ list_sum (map snd (value_counts s))
     = List.length (filter (fun c => negb (is_null c)) s).
Proof.
  unfold value_counts. set (vs := filter (fun c => negb (is_null c)) s). split.
  - unfold counts_descending.
    eapply StronglySorted_impl;
      [| apply (sort_by_sorted (fun a b : cell * nat => snd b <=? snd a) (fun _ => True))].
    + intros a b H. now apply Nat.leb_le.
    + intros a b _ _. destruct (Nat.le_ge_cases (snd a) (snd b)) as [H | H];
        [right | left]; now apply Nat.leb_le.
    + intros a b c _ _ _ H1 H2. apply Nat.leb_le in H1, H2. apply Nat.leb_le. lia.
    + apply Forall_forall. auto.
  - rewrite <- (list_sum_perm _ _ (Permutation_map snd (sort_by_perm _ _))).
    rewrite map_map. simpl. unfold count_of.
    transitivity (List.length (filter (fun c => existsb (cell_eqb c) (uniq cell_eqb vs)) vs)).
    + rewrite <- (sum_by_key cell_eqb cell_eqb_eq (fun c => c))
        by apply (uniq_NoDup cell_eqb cell_eqb_eq).
      f_equal. apply map_ext. intros k. f_equal. apply filter_ext. intros c.
      apply cell_eqb_sym.
    + f_equal. apply filter_all. intros c Hc.
      apply existsb_exists. exists c. split; [| apply cell_eqb_refl].
      now apply (uniq_In cell_eqb cell_eqb_eq).
Qed.

(** ** The metrics table as a whole *)

Lemma calculate_trader_metrics_inv (self : Analysis) (tm : DataFrame) :
  calculate_trader_metrics self = inr tm ->
  exists acc dat cls pnl lev size,
    getitem (merged_data self) "account" = inr acc
    /\ getitem (merged_data self) "Date" = inr dat
    /\ getitem (merged_data self) "Classification" = inr cls
    /\ get_numeric (merged_data self) "closedPnL" = inr pnl
    /\ get_numeric (merged_data self) "leverage" = inr lev
    /\ get_numeric (merged_data self) "size" = inr size
    /\ tm = mkFrame
              (List.length (group_keys [acc; dat; cls] (nrows (merged_data self))))
              [ ("account", map (fun k => nth 0 k VNull)
                                (group_keys [acc; dat; cls] (nrows (merged_data self))));
                ("Date", map (fun k => nth 1 k VNull)
                             (group_keys [acc; dat; cls] (nrows (merged_data self))));
                ("Classification",
                 map (fun k => nth 2 k VNull)
                     (group_keys [acc; dat; cls] (nrows (merged_data self))));
                ("total_pnl",
                 map (fun k => agg_sum (take_num
                        (group_rows [acc; dat; cls] (nrows (merged_data self)) k) pnl))
                     (group_keys [acc; dat; cls] (nrows (merged_data self))));
                ("avg_leverage",
                 map (fun k => agg_mean (take_num
                        (group_rows [acc; dat; cls] (nrows (merged_data self)) k) lev))
                     (group_keys [acc; dat; cls] (nrows (merged_data self))));
                ("trade_count",
                 map (fun k => agg_count (take
                        (group_rows [acc; dat; cls] (nrows (merged_data self)) k) acc))
                     (group_keys [acc; dat; cls] (nrows (merged_data self))));
                ("avg_size",
                 map (fun k => agg_mean (take_num
                        (group_rows [acc; dat; cls] (nrows (merged_data self)) k) size))
                     (group_keys [acc; dat; cls] (nrows (merged_data self)))) ].
Proof.
  unfold calculate_trader_metrics. simpl mapM. intros H.
  destruct (getitem (merged_data self) "account") as [e | acc]; [discriminate |].
  simpl rbind in H.
  destruct (getitem (merged_data self) "Date") as [e | dat]; [discriminate |].
  simpl rbind in H.
  destruct (getitem (merged_data self) "Classification") as [e | cls]; [discriminate |].
  simpl rbind in H.
  destruct (get_numeric (merged_data self) "closedPnL") as [e | pnl]; [discriminate |].
  simpl rbind in H.
  destruct (get_numeric (merged_data self) "leverage") as [e | lev]; [discriminate |].
  simpl rbind in H.
  destruct (get_numeric (merged_data self) "size") as [e | size]; [discriminate |].
  simpl rbind in H. injection H as <-.
  exists acc, dat, cls, pnl, lev, size. repeat split; reflexivity.
Qed.

Lemma group_keys_length_le (keys : list Series) (n : nat) :
  List.length (group_keys keys n) <= n.
Proof.
  unfold group_keys.
  rewrite <- (Permutation_length (sort_by_perm key_leb _)).
  etransitivity; [apply uniq_length_le |].
  etransitivity; [apply filter_length_le |].
  now rewrite length_map, length_seq.
Qed.

(** The metrics table has exactly the three key columns and the four
    aggregates, in this order, all of the length of the table; it has
    at most as many rows as the merged set, and no two of its rows carry
    the same (account, date, classification). *)
Theorem trader_metrics_table_shape (self : Analysis) (tm : DataFrame) :
  calculate_trader_metrics self = inr tm ->
  columns tm = [ "account"; "Date"; "Classification"; "total_pnl"; "avg_leverage";
                 "trade_count"; "avg_size" ]
  /\ rectangular tm
  /\ nrows tm <= nrows (merged_data self)
  /\ forall r r', r < nrows tm -> r' < nrows tm ->
       nth r (column_of tm "account") VNull = nth r' (column_of tm "account") VNull ->
       nth r (column_of tm "Date") VNull = nth r' (column_of tm "Date") VNull ->
       nth r (column_of tm "Classification") VNull
       = nth r' (column_of tm "Classification") VNull ->
       r = r'.
Proof.
  intros H.
  destruct (calculate_trader_metrics_inv self tm H)
    as (acc & dat & cls & pnl & lev & size & _ & _ & _ & _ & _ & _ & ->).
  set (ks := group_keys [acc; dat; cls] (nrows (merged_data self))).
  split; [reflexivity |]. split; [| split].
  - unfold rectangular. simpl. repeat constructor; simpl; apply length_map.
  - apply group_keys_length_le.
  - simpl nrows. unfold column_of, getitem. simpl.
    intros r r' Hr Hr' E0 E1 E2.
    rewrite !(nth_map_lt _ _ [] _ _ Hr) in *.
    rewrite (nth_map_lt _ ks [] _ _ Hr') in E0.
    rewrite (nth_map_lt _ ks [] _ _ Hr') in E1.
    rewrite (nth_map_lt _ ks [] _ _ Hr') in E2.
    apply (proj1 (NoDup_nth ks []) (group_keys_NoDup _ _)); auto.
    assert (K : In (nth r ks []) ks) by now apply nth_In.
    assert (K' : In (nth r' ks []) ks) by now apply nth_In.
    apply group_keys_In in K, K'.
    destruct K as (i & _ & Ei & _). destruct K' as (i' & _ & Ei' & _).
    rewrite <- Ei, <- Ei' in *. rewrite !row_key3 in *. simpl in E0, E1, E2. congruence.
Qed.

(** The trade counts of the metrics table add up to the number of merged
    rows whose account, date and classification are all present: every
    such row is counted in exactly one group, and a row lacking one of
    the three is counted in none. *)
Theorem trade_counts_add_up (self : Analysis) (tm : DataFrame) (acc dat cls : Series) :
  getitem (merged_data self) "account" = inr acc ->
  getitem (merged_data self) "Date" = inr dat ->
  getitem (merged_data self) "Classification" = inr cls ->
  calculate_trader_metrics self = inr tm ->
  exists counts,
    getitem tm "trade_count" = inr (map nat_cell counts)
    /\ list_sum counts
       = List.length
           (filter (fun i => negb (is_null (nth i acc VNull) || is_null (nth i dat VNull)
                                   || is_null (nth i cls VNull)))
                   (seq 0 (nrows (merged_data self)))).
Proof.
  intros Ha Hd Hc H.
  destruct (calculate_trader_metrics_inv self tm H)
    as (acc' & dat' & cls' & pnl & lev & size & Ha' & Hd' & Hc' & _ & _ & _ & ->).
  assert (acc' = acc) by congruence. assert (dat' = dat) by congruence.
  assert (cls' = cls) by congruence. subst.
  set (n := nrows (merged_data self)).
  set (ks := group_keys [acc; dat; cls] n).
  exists (map (fun k => List.length (group_rows [acc; dat; cls] n k)) ks).
  split.
  - unfold getitem. simpl. rewrite map_map. unfold ok. f_equal. apply map_ext_in.
    intros k Hk. apply agg_count_all. intros j Hj.
    apply group_rows_In in Hj. destruct Hj as [_ Ej].
    apply group_keys_In in Hk. destruct Hk as (_ & _ & _ & Hnull).
    rewrite row_key3 in Ej. subst k. simpl in Hnull.
    apply orb_false_iff in Hnull. destruct Hnull as [Hnull _].
    intros E. rewrite E in Hnull. discriminate.
  - unfold group_rows.
    rewrite (sum_by_key key_eqb key_eqb_eq (row_key [acc; dat; cls]))
      by apply group_keys_NoDup.
    f_equal. apply filter_ext_in. intros i Hi. apply in_seq in Hi.
    apply eq_true_iff_eq. rewrite existsb_exists, negb_true_iff. split.
    + intros (k & Hk & Ek). apply key_eqb_eq in Ek. subst k.
      apply group_keys_In in Hk. destruct Hk as (_ & _ & _ & Hnull).
      rewrite row_key3 in Hnull. simpl in Hnull.
      now rewrite orb_false_r, orb_assoc in Hnull.
    + intros Hnull. exists (row_key [acc; dat; cls] i). split; [| apply key_eqb_refl].
      apply group_keys_In. exists i. repeat split; [lia |].
      rewrite row_key3. simpl. now rewrite orb_false_r, orb_assoc.
Qed.

(** ** The charts *)


(** The pie chart counts the rows of the sentiment file itself, joined
    with a trade or not: it is saved under its name, with nothing else
    written or printed and the object untouched, and holds each distinct
    classification once, with the number of sentiment rows that have it,
    most frequent first; the counts add up to the number of sentiment
    rows that have a classification.  The labels of the sentiment frame
    are distinct and some row has a classification, so that there is
    something to draw. *)
Theorem sentiment_distribution_counts_every_row (st : State) (cls : Series) :
  unique_columns (fear_greed_data (fst st)) ->
  getitem (fear_greed_data (fst st)) "Classification" = inr cls ->
  some_present cls (List.length cls) ->
  exists counts,
    analyze_sentiment_distribution st
    = (inr tt,
       (fst st,
        mkWorld (write_file "sentiment_distribution.png"
                   (Figure "pie" "Fear/Greed Distribution" (counts_series counts))
                   (files (snd st)))
                (stdout (snd st))))
    /\ counts <> []
    /\ NoDup (map fst counts)
    /\ (forall c n, In (c, n) counts <-> c <> VNull /\ 0 < n /\ n = count_of c cls)
    /\ counts_descending counts
    /\ list_sum (map snd counts) = List.length (filter (fun c => negb (is_null c)) cls).
Proof.
  intros _ Hcls (i & Hi & Hnn). exists (value_counts cls). split.
  - destruct st as [self w]. unfold analyze_sentiment_distribution, bind, get_self, lift,
      savefig, save, ok. cbn [fst snd] in *. rewrite Hcls. reflexivity.
  - destruct (value_counts_spec cls) as [H1 H2].
    destruct (value_counts_sorted_and_total cls) as [H3 H4].
    split; [| auto].
    apply (In_not_nil (nth i cls VNull, count_of (nth i cls VNull) cls)).
    apply H2. split; [exact Hnn |]. split; [| reflexivity].
    apply count_of_pos, nth_In. exact Hi.
Qed.




(** ** Running the analyses in sequence *)

Lemma read_write_other (p q : string) (a : artifact) (fs : list (string * artifact)) :
  p <> q -> read_file p (write_file q a fs) = read_file p fs.
Proof.
  intros Hne. unfold read_file, write_file. simpl.
  destruct (String.eqb_spec q p) as [E | _]; [congruence |].
  induction fs as [| [x b] fs IH]; simpl; [reflexivity |].
  destruct (String.eqb_spec x q) as [-> | Hx]; simpl.
  - destruct (String.eqb_spec q p) as [E | _]; [congruence | exact IH].
  - destruct (String.eqb_spec x p); [reflexivity | exact IH].
Qed.

Lemma filter_twice {A : Type} (f : A -> bool) (l : list A) :
  filter f (filter f l) = filter f l.
Proof.
  induction l as [| x l IH]; simpl; [reflexivity |].
  destruct (f x) eqn:E; simpl; [rewrite E; f_equal |]; exact IH.
Qed.

Lemma write_file_twice (p : string) (a b : artifact) (fs : list (string * artifact)) :
  write_file p b (write_file p a fs) = write_file p b fs.
Proof.
  unfold write_file. simpl. rewrite String.eqb_refl. simpl. now rewrite filter_twice.
Qed.

Lemma analyze_sentiment_distribution_run (st : State) :
  analyze_sentiment_distribution st
  = match getitem (fear_greed_data (fst st)) "Classification" with
    | inl e => (inl e, st)
    | inr cls =>
        (inr tt,
         (fst st,
          mkWorld (write_file "sentiment_distribution.png"
                     (Figure "pie" "Fear/Greed Distribution"
                             (counts_series (value_counts cls)))
                     (files (snd st)))
                  (stdout (snd st))))
    end.
Proof.
  destruct st as [self w]. unfold analyze_sentiment_distribution, bind, get_self, lift,
    savefig, save, ok. cbn [fst snd].
  destruct (getitem (fear_greed_data self) "Classification"); reflexivity.
Qed.

Lemma analyze_performance_by_sentiment_run (st : State) :
  analyze_performance_by_sentiment st
  = match groupby_agg agg_mean (merged_data (fst st)) "Classification" "closedPnL" with
    | inl e => (inl e, st)
    | inr perf =>
        (inr tt,
         (fst st,
          mkWorld (write_file "performance_by_sentiment.png"
                     (Figure "bar" "Avg Trader PnL by Sentiment" perf) (files (snd st)))
                  (stdout (snd st))))
    end.
Proof.
  destruct st as [self w]. unfold analyze_performance_by_sentiment, bind, get_self, lift,
    savefig, save, ok. cbn [fst snd].
  destruct (groupby_agg agg_mean (merged_data self) "Classification" "closedPnL");
    reflexivity.
Qed.

Lemma analyze_top_performers_run (st : State) :
  analyze_top_performers st
  = match groupby_agg agg_sum (merged_data (fst st)) "account" "closedPnL" with
    | inl e => (inl e, st)
    | inr totals =>
        (inr tt,
         (fst st,
          mkWorld (write_file "top_traders.png"
                     (Figure "bar" "Top 10 Traders by PnL"
                             (firstn 10 (sort_values_desc totals)))
                     (files (snd st)))
                  (stdout (snd st))))
    end.
Proof.
  destruct st as [self w]. unfold analyze_top_performers, bind, get_self, lift,
    savefig, save, ok. cbn [fst snd].
  destruct (groupby_agg agg_sum (merged_data self) "account" "closedPnL"); reflexivity.
Qed.

Lemma getitem_missing (df : DataFrame) (c : string) :
  ~ In c (columns df) -> getitem df c = inl (KeyError c).
Proof.
  intros H. unfold getitem. apply lookup_col_None in H. now rewrite H.
Qed.

(** The charts are written one at a time, and a failure does not take
    back what was written: when the merged set has no [closedPnL] column,
    [run_all_analyses] raises a [KeyError] at the second chart, after the
    pie chart has been saved; no other file is written and nothing is
    printed.  The labels of the two frames are distinct and some
    sentiment row has a classification. *)
Theorem charts_are_written_one_at_a_time (st : State) (cls k : Series) :
  unique_columns (fear_greed_data (fst st)) ->
  unique_columns (merged_data (fst st)) ->
  getitem (fear_greed_data (fst st)) "Classification" = inr cls ->
  some_present cls (List.length cls) ->
  getitem (merged_data (fst st)) "Classification" = inr k ->
  ~ In "closedPnL" (columns (merged_data (fst st))) ->
  exists msg,
    run_all_analyses st
    = (inl (KeyError msg),
       (fst st,
        mkWorld (write_file "sentiment_distribution.png"
                   (Figure "pie" "Fear/Greed Distribution" (counts_series (value_counts cls)))
                   (files (snd st)))
                (stdout (snd st)))).
Proof.
  intros _ _ Hcls _ Hk Hno. exists "closedPnL". unfold run_all_analyses, bind.
  rewrite analyze_sentiment_distribution_run, Hcls.
  rewrite analyze_performance_by_sentiment_run. cbn [fst snd].
  unfold groupby_agg, get_numeric. rewrite Hk. simpl rbind.
  rewrite (getitem_missing _ _ Hno). reflexivity.
Qed.

Lemma export_to_excel_run (st : State) :
  export_to_excel st
  = match calculate_trader_metrics (fst st) with
    | inl e => (inl e, st)
    | inr trader_metrics =>
        (inr tt,
         (fst st,
          mkWorld (write_file (output_file (fst st))
                     (Workbook [ mkSheet "Trader Metrics" trader_metrics true;
                                 mkSheet "Merged Data" (merged_data (fst st)) true ])
                     (files (snd st)))
                  (stdout (snd st))))
    end.
Proof.
  destruct st as [self w]. unfold export_to_excel, bind, call, get_self, save, ok.
  cbn [fst snd]. destruct (calculate_trader_metrics self) as [e | tm]; [reflexivity |].
  unfold style_excel_workbook. cbn [fst snd files stdout].
  rewrite read_write_file, write_file_twice. reflexivity.
Qed.

Lemma for_each_print (f : string -> string) (l : list string) (st : State) :
  for_each l (fun i => print (f i)) st
  = (inr tt, (fst st, mkWorld (files (snd st)) (stdout (snd st) ++ map f l))).
Proof.
  revert st. induction l as [| x l IH]; intros [self w]; simpl.
  - unfold ret, ok. simpl. rewrite app_nil_r. now destruct w.
  - unfold bind, print at 1. cbn [fst snd]. rewrite IH. cbn [fst snd files stdout].
    now rewrite <- app_assoc.
Qed.

Lemma generate_reads_merged_only (a b : Analysis) :
  merged_data a = merged_data b ->
  generate_trading_insights a = generate_trading_insights b.
Proof.
  unfold generate_trading_insights. now intros ->.
Qed.

Lemma generate_length (self : Analysis) (insights : list string) :
  generate_trading_insights self = inr insights ->
  2 <= List.length insights <= 4.
Proof.
  intros H. assert (H' := H). unfold generate_trading_insights in H'. inv_ok.
  match goal with
  | H1 : groupby_agg _ _ _ "closedPnL" = inr _,
    H2 : groupby_agg _ _ _ "leverage" = inr _ |- _ =>
      destruct (groupby_agg_inv _ _ _ _ _ H1) as (cls & pnl & Hcls & Hpnl);
      destruct (groupby_agg_inv _ _ _ _ _ H2) as (cls' & lev & _ & Hlev)
  end.
  rewrite (generate_trading_insights_eq self cls pnl lev Hcls Hpnl Hlev) in H.
  injection H as <-.
  rewrite !length_app.
  repeat match goal with
         | |- context [if ?b then _ else _] => destruct b
         end; simpl; lia.
Qed.

Lemma sentiment_transition_analysis_full (st st' : State) :
  sentiment_transition_analysis st = (inr tt, st') ->
  exists cls tr,
    getitem (fear_greed_data (fst st)) "Classification" = inr cls
    /\ transition_labels (shift1 cls) cls = inr tr
    /\ st' = (mkAnalysis (output_file (fst st)) (trader_data (fst st))
                (setitem (setitem (fear_greed_data (fst st)) "Prev_Sentiment" (shift1 cls))
                         "Transition" tr)
                (merged_data (fst st)),
              mkWorld (write_file "sentiment_transitions.png"
                         (Figure "bar" "Sentiment Transitions Over Time"
                                 (counts_series (value_counts tr)))
                         (files (snd st)))
                      (stdout (snd st))).
Proof.
  intros H. destruct (sentiment_transition_analysis_inv _ _ H) as (cls & tr & Hcls & Htr & _).
  exists cls, tr. split; [exact Hcls |]. split; [exact Htr |].
  rewrite (sentiment_transition_analysis_ok st cls tr Hcls Htr) in H. now injection H.
Qed.

(** A run of the analyses that succeeds prints, after what was printed
    before, an empty line, the heading and one bullet per insight, in the
    order of the insights, which are those of the merged set and number
    between two and four; and it leaves the four charts on file. *)
Theorem successful_run_prints_each_insight (st st' : State) :
  run_all_analyses st = (inr tt, st') ->
  exists insights,
    generate_trading_insights (fst st) = inr insights
    /\ stdout (snd st')
       = (stdout (snd st)
          ++ "" :: "Generated Insights:" :: map (fun i => ("- " ++ i)%string) insights)%list
    /\ 2 <= List.length insights <= 4
    /\ forall p, In p chart_files ->
         exists kind title data,
           read_file p (files (snd st')) = Some (Figure kind title data).
Proof.
  intros H. unfold run_all_analyses in H.
  apply bind_inv in H. destruct H as ([] & s1 & H1 & H).
  apply bind_inv in H. destruct H as ([] & s2 & H2 & H).
  apply bind_inv in H. destruct H as ([] & s3 & H3 & H).
  apply bind_inv in H. destruct H as ([] & s4 & H4 & H).
  apply bind_inv in H. destruct H as (insights & s5 & H5 & H).
  rewrite analyze_sentiment_distribution_run in H1.
  destruct (getitem (fear_greed_data (fst st)) "Classification") as [e | cls];
    [discriminate |].
  injection H1 as <-.
  rewrite analyze_performance_by_sentiment_run in H2. cbn [fst snd files stdout] in H2.
  destruct (groupby_agg agg_mean (merged_data (fst st)) "Classification" "closedPnL")
    as [e | perf]; [discriminate |].
  injection H2 as <-.
  rewrite analyze_top_performers_run in H3. cbn [fst snd files stdout] in H3.
  destruct (groupby_agg agg_sum (merged_data (fst st)) "account" "closedPnL")
    as [e | totals]; [discriminate |].
  injection H3 as <-.
  destruct (sentiment_transition_analysis_full _ _ H4) as (cls' & tr & _ & _ & ->).
  cbn [fst snd files stdout output_file trader_data fear_greed_data merged_data] in *.
  unfold call in H5. cbn [fst snd] in H5.
  injection H5 as H5 <-.
  unfold bind, print at 1 2 in H. cbn [fst snd files stdout] in H.
  rewrite for_each_print in H. cbn [fst snd files stdout] in H. injection H as <-.
  exists insights. cbn [fst snd files stdout].
  split; [rewrite <- H5; now apply generate_reads_merged_only |].
  split; [now rewrite <- !app_assoc |].
  split; [exact (generate_length _ _ H5) |].
  intros p Hp. simpl in Hp.
  destruct Hp as [<- | [<- | [<- | [<- | []]]]];
    repeat first [ rewrite read_write_file
                 | rewrite read_write_other by discriminate ];
    do 3 eexists; reflexivity.
Qed.

(** A failure of the export comes after the insights: when the merged
    set has no [size] column, a run of the analyses that succeeds is
    followed by a [KeyError] from the export.  The script stops in the
    state the run left, with the charts on file and the insights
    printed; no workbook is written and the closing message is not
    printed. *)
Theorem missing_size_fails_after_the_insights (st st1 : State) :
  run_all_analyses st = (inr tt, st1) ->
  ~ In "size" (columns (merged_data (fst st))) ->
  exists msg, script_body st = (inl (KeyError msg), st1).
Proof.
  intros Hrun Hno.
  assert (Hm : merged_data (fst st1) = merged_data (fst st)).
  { destruct (touches_run_all_analyses st) as (_ & _ & H).
    now rewrite (run_of _ _ _ _ Hrun) in H. }
  assert (Hcalc : exists msg, calculate_trader_metrics (fst st1) = inl (KeyError msg)).
  { unfold run_all_analyses in Hrun.
    apply bind_inv in Hrun. destruct Hrun as ([] & s1 & H1 & H).
    apply bind_inv in H. destruct H as ([] & s2 & H2 & H).
    apply bind_inv in H. destruct H as ([] & s3 & H3 & H).
    apply bind_inv in H. destruct H as ([] & s4 & H4 & H).
    apply bind_inv in H. destruct H as (insights & s5 & H5 & _).
    rewrite analyze_sentiment_distribution_run in H1.
    destruct (getitem (fear_greed_data (fst st)) "Classification") as [e | cls];
      [discriminate |].
    injection H1 as <-.
    rewrite analyze_performance_by_sentiment_run in H2. cbn [fst snd files stdout] in H2.
    destruct (groupby_agg agg_mean (merged_data (fst st)) "Classification" "closedPnL")
      as [e | perf] eqn:Eperf; [discriminate |].
    injection H2 as <-.
    rewrite analyze_top_performers_run in H3. cbn [fst snd files stdout] in H3.
    destruct (groupby_agg agg_sum (merged_data (fst st)) "account" "closedPnL")
      as [e | totals] eqn:Etot; [discriminate |].
    injection H3 as <-.
    destruct (sentiment_transition_analysis_full _ _ H4) as (cls' & tr & _ & _ & ->).
    cbn [fst snd files stdout output_file trader_data fear_greed_data merged_data] in *.
    unfold call in H5. cbn [fst snd] in H5. injection H5 as H5 _.
    unfold generate_trading_insights in H5.
    cbn [merged_data] in H5. inv_ok.
    match goal with
    | H : groupby_agg _ _ _ "leverage" = inr _ |- _ =>
        destruct (groupby_agg_inv _ _ _ _ _ H) as (k0 & lev & _ & Hlev)
    end.
    destruct (groupby_agg_inv _ _ _ _ _ Eperf) as (k & pnl & Hk & Hpnl).
    destruct (groupby_agg_inv _ _ _ _ _ Etot) as (acc & pnl' & Hacc & _).
    unfold calculate_trader_metrics. rewrite Hm.
    cbn [mapM]. rewrite Hacc, Hk. cbn [rbind].
    destruct (getitem (merged_data (fst st)) "Date") as [e | dat] eqn:Edat.
    - unfold getitem in Edat.
      destruct (lookup_col "Date" (cols (merged_data (fst st)))); [discriminate |].
      injection Edat as <-. eexists. reflexivity.
    - cbn [rbind ok]. rewrite Hpnl. cbn [rbind]. rewrite Hlev. cbn [rbind].
      unfold get_numeric at 1. rewrite (getitem_missing _ _ Hno). eexists. reflexivity. }
  destruct Hcalc as (msg & Hcalc). exists msg.
  unfold script_body. unfold bind at 1. rewrite Hrun.
  unfold bind at 1. rewrite export_to_excel_run, Hcalc. reflexivity.
Qed.

(** ** Files the script does not own *)

Lemma writes_only_bind {A B : Type} (m : M A) (k : A -> M B) :
  writes_only_outputs m -> (forall a, writes_only_outputs (k a)) ->
  writes_only_outputs (bind m k).
Proof.
  intros Hm Hk st. unfold bind. specialize (Hm st).
  destruct (m st) as [[e | a] st1]; simpl in *; [assumption |].
  destruct Hm as [Ho Hf]. destruct (Hk a st1) as [Ko Kf]. split; [congruence |].
  intros p Hp Hne. rewrite Kf; [auto | assumption | congruence].
Qed.

Lemma writes_only_quiet {A : Type} (m : M A) :
  preserves_object m -> keeps_files m -> writes_only_outputs m.
Proof.
  intros Hp Hf st. rewrite Hp, Hf. auto.
Qed.

Lemma writes_only_chart (p : string) (a : artifact) :
  In p chart_files -> writes_only_outputs (savefig p a).
Proof.
  intros Hp st. split; [reflexivity |]. intros q Hq _. simpl.
  apply read_write_other. intros ->. contradiction.
Qed.

Lemma writes_only_workbook (a : Analysis -> artifact) :
  writes_only_outputs (self <~ get_self ;; save (output_file self) (a self)).
Proof.
  intros [self w]. split; [reflexivity |]. intros q _ Hq. simpl.
  apply read_write_other. simpl in Hq. congruence.
Qed.

Lemma writes_only_style : writes_only_outputs style_excel_workbook.
Proof.
  intros [self w]. unfold style_excel_workbook. cbn [fst snd].
  destruct (read_file (output_file self) (files w)) as [[? ? ? | sheets] |];
    (split; [reflexivity |]); intros q _ Hq; try reflexivity.
  simpl. apply read_write_other. simpl in Hq. congruence.
Qed.

Lemma keeps_files_for_each_print (f : string -> string) (l : list string) :
  keeps_files (for_each l (fun i => print (f i))).
Proof. intros st. now rewrite for_each_print. Qed.

Ltac quiet :=
  apply writes_only_quiet;
  [ frame
  | repeat first [ apply keeps_files_bind; [| intros ?]
                 | apply keeps_files_for_each_print
                 | apply keeps_files_print
                 | intros ?; reflexivity ] ].

Lemma writes_only_set_column (c : string) (s : Series) :
  writes_only_outputs (set_fear_greed_column c s).
Proof. intros st. simpl. auto. Qed.

Lemma writes_only_run_all : writes_only_outputs run_all_analyses.
Proof.
  unfold run_all_analyses, analyze_sentiment_distribution,
    analyze_performance_by_sentiment, analyze_top_performers,
    sentiment_transition_analysis.
  repeat first
    [ apply writes_only_bind; [| intros ?]
    | apply writes_only_chart; simpl; tauto
    | apply writes_only_set_column
    | solve [quiet] ].
Qed.

Lemma writes_only_export : writes_only_outputs export_to_excel.
Proof.
  intros st. rewrite export_to_excel_run.
  destruct (calculate_trader_metrics (fst st)) as [e | tm]; cbn [fst snd files].
  - auto.
  - split; [reflexivity |]. intros p _ Hne. apply read_write_other. congruence.
Qed.

(** Whatever its outcome, the script writes to no path but those of the
    four charts and of the workbook: any other file is, after the run,
    what it was before. *)
Theorem script_leaves_other_files_alone (st st' : State) (r : Result unit) (p : string) :
  script_body st = (r, st') ->
  ~ In p chart_files ->
  p <> output_file (fst st) ->
  read_file p (files (snd st')) = read_file p (files (snd st)).
Proof.
  intros Hrun Hp Hne.
  assert (W : writes_only_outputs script_body).
  { unfold script_body.
    apply writes_only_bind; [apply writes_only_run_all | intros _].
    apply writes_only_bind; [apply writes_only_export | intros _].
    quiet. }
  destruct (W st) as [_ Hf]. rewrite (run_of _ _ _ _ Hrun) in Hf. now apply Hf.
Qed.

(** ** The transition analysis, row by row and run again *)

Lemma assign_col_same (c : string) (s : Series) (l : list (string * Series)) :
  lookup_col c l = Some s -> assign_col c s l = l.
Proof.
  induction l as [| [c' s'] l IH]; simpl; [discriminate |].
  destruct (String.eqb_spec c' c) as [-> | Hne].
  - intros H. injection H as ->. reflexivity.
  - intros H. f_equal. auto.
Qed.

Lemma setitem_same (df : DataFrame) (c : string) (s : Series) :
  getitem df c = inr s -> setitem df c s = df.
Proof.
  unfold getitem, setitem. intros H.
  destruct (lookup_col c (cols df)) as [s' |] eqn:E; [| discriminate].
  injection H as ->. rewrite (assign_col_same _ _ _ E). now destruct df.
Qed.

(** Running the transition analysis a second time changes nothing: it
    overwrites its two columns and its chart with what they hold
    already, and adds no column. *)
Theorem transition_analysis_is_repeatable (st st' : State) :
  sentiment_transition_analysis st = (inr tt, st') ->
  sentiment_transition_analysis st' = (inr tt, st').
Proof.
  intros H. destruct (sentiment_transition_analysis_full _ _ H) as (cls & tr & Hcls & Htr & ->).
  set (fg' := setitem (setitem (fear_greed_data (fst st)) "Prev_Sentiment" (shift1 cls))
                      "Transition" tr).
  assert (Hcls' : getitem fg' "Classification" = inr cls).
  { unfold fg'. now rewrite !getitem_setitem_other by discriminate. }
  rewrite (sentiment_transition_analysis_ok _ cls tr) by (cbn [fst fear_greed_data]; auto).
  cbn [fst snd output_file trader_data fear_greed_data merged_data files stdout].
  fold fg'. rewrite write_file_twice.
  assert (E1 : setitem fg' "Prev_Sentiment" (shift1 cls) = fg').
  { apply setitem_same. unfold fg'.
    rewrite getitem_setitem_other by discriminate. apply getitem_setitem_same. }
  rewrite E1.
  assert (E2 : setitem fg' "Transition" tr = fg').
  { apply setitem_same. apply getitem_setitem_same. }
  rewrite E2. reflexivity.
Qed.

(** The transition analysis row by row.  Its two columns are as long as
    the frame; on the first row both are null; on every later row
    [Prev_Sentiment] is the classification of the row before and
    [Transition] is the label of the step from that row to this one.  The
    counts of the chart add up to the number of rows that have a
    non-null transition, which is one less than the number of rows when
    every row has a classification.  The labels of the sentiment frame
    are distinct and two consecutive rows have a classification, so that
    there is a bar to draw. *)
Theorem transition_of_each_row (st : State) (cls : Series) :
  unique_columns (fear_greed_data (fst st)) ->
  getitem (fear_greed_data (fst st)) "Classification" = inr cls ->
  Forall text_or_null cls ->
  numeric_dtype cls = false ->
  (exists i, S i < List.length cls
             /\ nth i cls VNull <> VNull /\ nth (S i) cls VNull <> VNull) ->
  exists st' prev tr counts,
    sentiment_transition_analysis st = (inr tt, st')
    /\ getitem (fear_greed_data (fst st')) "Prev_Sentiment" = inr prev
    /\ getitem (fear_greed_data (fst st')) "Transition" = inr tr
    /\ read_file "sentiment_transitions.png" (files (snd st'))
       = Some (Figure "bar" "Sentiment Transitions Over Time" (counts_series counts))
    /\ counts <> []
    /\ List.length prev = List.length cls
    /\ List.length tr = List.length cls
    /\ nth 0 prev VNull = VNull
    /\ nth 0 tr VNull = VNull
    /\ (forall i, S i < List.length cls ->
          nth (S i) prev VNull = nth i cls VNull
          /\ nth (S i) tr VNull = pair_label (nth i cls VNull) (nth (S i) cls VNull))
    /\ list_sum (map snd counts)
       = List.length (filter (fun c => negb (is_null c)) tr)
    /\ (Forall (fun c => c <> VNull) cls ->
        list_sum (map snd counts) = List.length cls - 1).
Proof.
  intros _ Hcls Htext Hd (j & Hj & Hj0 & Hj1).
  pose proof (transition_labels_eq cls Htext Hd) as Htr.
  set (tr := match cls with [] => [] | _ :: _ => VNull :: step_labels cls end) in *.
  eexists. exists (shift1 cls), tr, (value_counts tr).
  split; [apply (sentiment_transition_analysis_ok st cls tr Hcls Htr) |].
  cbn [fst snd fear_greed_data files].
  split; [rewrite getitem_setitem_other by discriminate; apply getitem_setitem_same |].
  split; [apply getitem_setitem_same |].
  split; [apply read_write_file |].
  assert (Hlen : List.length tr = List.length cls).
  { unfold tr. destruct cls as [| c l]; [reflexivity |].
    simpl List.length. rewrite step_labels_length. simpl. lia. }
  assert (Hstep : forall i, S i < List.length cls ->
            nth (S i) tr VNull = pair_label (nth i cls VNull) (nth (S i) cls VNull)).
  { intros i Hi. unfold tr. destruct cls as [| c l]; [simpl in Hi; lia |].
    simpl nth at 1. now apply step_labels_nth. }
  split.
  { apply (In_not_nil (nth (S j) tr VNull, count_of (nth (S j) tr VNull) tr)).
    apply value_counts_spec.
    assert (Hnn : nth (S j) tr VNull <> VNull).
    { rewrite (Hstep j Hj). rewrite Forall_forall in Htext.
      assert (H0 : In (nth j cls VNull) cls) by (apply nth_In; lia).
      assert (H1 : In (nth (S j) cls VNull) cls) by (apply nth_In; lia).
      pose proof (Htext _ H0). pose proof (Htext _ H1).
      destruct (nth j cls VNull), (nth (S j) cls VNull);
        simpl in *; try contradiction; try congruence; discriminate. }
    split; [exact Hnn |]. split; [| reflexivity].
    apply count_of_pos, nth_In. lia. }
  split; [apply shift1_length |].
  split; [exact Hlen |].
  split; [destruct cls; reflexivity |].
  split; [unfold tr; destruct cls; reflexivity |].
  split; [| split].
  - intros i Hi. split; [now apply shift1_nth | now apply Hstep].
  - apply value_counts_sorted_and_total.
  - intros Hnn. rewrite (proj2 (value_counts_sorted_and_total tr)).
    unfold tr. destruct cls as [| c l]; [reflexivity |].
    simpl filter. rewrite filter_all.
    + rewrite step_labels_length. reflexivity.
    + intros x Hx. destruct (In_nth _ _ VNull Hx) as (i & Hi & <-).
      rewrite step_labels_length in Hi.
      rewrite step_labels_nth by lia.
      rewrite Forall_forall in Hnn, Htext.
      assert (H1 : In (nth i (c :: l) VNull) (c :: l)) by (apply nth_In; lia).
      assert (H2 : In (nth (S i) (c :: l) VNull) (c :: l)) by (apply nth_In; lia).
      pose proof (Hnn _ H1). pose proof (Hnn _ H2).
      pose proof (Htext _ H1). pose proof (Htext _ H2).
      destruct (nth i (c :: l) VNull), (nth (S i) (c :: l) VNull);
        simpl in *; try contradiction; try congruence; reflexivity.
Qed.

(** ** The further properties at sample inputs *)

(** The sample trades. *)
Lemma trade_loader_changes_only_three_columns_witness :
  (load_trader_data read_timestamp sample_trades = inr (trader_data sample_analysis))
  /\ ((forall (c : string) (s : Series),
       In (c, s) (cols sample_trades) ->
       rename_label column_mapping c <> "time" ->
       rename_label column_mapping c <> "Date" ->
       In (rename_label column_mapping c, s) (cols (trader_data sample_analysis))) /\
      (forall c : string,
       In c (columns (trader_data sample_analysis)) ->
       c = "Date" \/
       c = "leverage" \/
       exists c0 : string,
         In c0 (columns sample_trades) /\ c = rename_label column_mapping c0)).
Proof.
  split; [vm_compute; reflexivity |].
  apply (trade_loader_changes_only_three_columns read_timestamp sample_trades (trader_data
    sample_analysis)).
  - vm_compute; reflexivity.
Defined.

(** The sample trades with a leverage column. *)
Lemma trade_loader_leverage_kept_or_null_witness :
  (load_trader_data read_timestamp sample_trades_leveraged =
   inr (trader_data sample_analysis_leveraged))
  /\ ((forall s : Series,
       getitem (rename column_mapping sample_trades_leveraged) "leverage" = inr s ->
       getitem (trader_data sample_analysis_leveraged) "leverage" = inr s) /\
      (~ In "leverage" (columns sample_trades_leveraged) ->
       getitem (trader_data sample_analysis_leveraged) "leverage" =
       inr (repeat VNull (nrows sample_trades_leveraged)))).
Proof.
  split; [vm_compute; reflexivity |].
  apply (trade_loader_leverage_kept_or_null read_timestamp sample_trades_leveraged (trader_data
    sample_analysis_leveraged)).
  - vm_compute; reflexivity.
Defined.

(** The sample sentiment file. *)
Lemma sentiment_loader_succeeds_iff_dates_readable_witness :
  (unique_columns
   (rename [("date", "Date"); ("classification", "Classification")] sample_sentiment))
  /\ (((exists df : DataFrame,
          load_fear_greed_data read_timestamp sample_sentiment = inr df) <->
       exists raw : Series,
         getitem
           (rename [("date", "Date"); ("classification", "Classification")]
              sample_sentiment)
           "Date" =
         inr raw /\ Forall (readable read_timestamp false) raw) /\
      (forall (df : DataFrame) (raw : Series),
       load_fear_greed_data read_timestamp sample_sentiment = inr df ->
       getitem
         (rename [("date", "Date"); ("classification", "Classification")] sample_sentiment)
         "Date" =
       inr raw ->
       nrows df = nrows sample_sentiment /\
       getitem df "Date" =
       inr (map (fun c : cell => dt_date_cell (coerced read_timestamp false c)) raw) /\
       (forall (c : string) (s : Series),
        c <> "Date" ->
        In (c, s)
          (cols
             (rename [("date", "Date"); ("classification", "Classification")]
                sample_sentiment)) ->
        In (c, s) (cols df)))).
Proof.
  split; [unique_sample |].
  apply (sentiment_loader_succeeds_iff_dates_readable read_timestamp sample_sentiment).
  - unique_sample.
Defined.

(** The sentiment sample without its date column. *)
Lemma sentiment_file_without_date_aborts_run_witness :
  (~
   In "Date"
     (columns
        (rename [("date", "Date"); ("classification", "Classification")]
           sample_sentiment_no_date)))
  /\ (unique_columns (rename column_mapping sample_trades))
  /\ (In "time" (columns (rename column_mapping sample_trades)))
  /\ (load_fear_greed_data read_timestamp sample_sentiment_no_date = inl (KeyError "Date") /\
      main read_timestamp sample_trades sample_sentiment_no_date "out.xlsx" empty_world =
      (inl (KeyError "Date"), None, empty_world)).
Proof.
  split; [not_in_sample |].
  split; [unique_sample |].
  split; [in_sample |].
  apply (sentiment_file_without_date_aborts_run read_timestamp sample_trades
    sample_sentiment_no_date "out.xlsx" empty_world).
  - not_in_sample.
  - unique_sample.
  - in_sample.
Defined.

(** A trade with an unreadable timestamp and a sentiment row with an empty date. *)
Lemma unreadable_timestamps_join_empty_dates_witness :
  (init read_timestamp sample_trades sample_sentiment_empty_date "out.xlsx" =
   inr (built sample_trades sample_sentiment_empty_date))
  /\ (getitem (rename column_mapping sample_trades) "time" =
      inr (column_of (rename column_mapping sample_trades) "time"))
  /\ (getitem
        (rename [("date", "Date"); ("classification", "Classification")]
           sample_sentiment_empty_date)
        "Date" =
      inr
        (column_of
           (rename [("date", "Date"); ("classification", "Classification")]
              sample_sentiment_empty_date)
           "Date"))
  /\ (List.length
        (column_of
           (rename [("date", "Date"); ("classification", "Classification")]
              sample_sentiment_empty_date)
           "Date") =
      nrows sample_sentiment_empty_date)
  /\ (exists lk rk : Series,
      getitem (trader_data (built sample_trades sample_sentiment_empty_date)) "Date" =
      inr lk /\
      getitem (fear_greed_data (built sample_trades sample_sentiment_empty_date)) "Date" =
      inr rk /\
      (forall i j : nat,
       i < nrows sample_trades ->
       j < nrows sample_sentiment_empty_date ->
       coerced read_timestamp true
         (nth i (column_of (rename column_mapping sample_trades) "time") VNull) =
       VNull ->
       In (i, j)
         (join_indexers lk rk
            (nrows (trader_data (built sample_trades sample_sentiment_empty_date)))
            (nrows (fear_greed_data (built sample_trades sample_sentiment_empty_date)))) <->
       nth j
         (column_of
            (rename [("date", "Date"); ("classification", "Classification")]
               sample_sentiment_empty_date)
            "Date")
         VNull =
       VNull)).
Proof.
  split; [vm_compute; reflexivity |].
  split; [vm_compute; reflexivity |].
  split; [vm_compute; reflexivity |].
  split; [vm_compute; reflexivity |].
  apply (unreadable_timestamps_join_empty_dates read_timestamp sample_trades
    sample_sentiment_empty_date "out.xlsx" (built sample_trades sample_sentiment_empty_date)
    (column_of (rename column_mapping sample_trades) "time") (column_of (rename [("date",
    "Date"); ("classification", "Classification")] sample_sentiment_empty_date) "Date")).
  - vm_compute; reflexivity.
  - vm_compute; reflexivity.
  - vm_compute; reflexivity.
  - vm_compute; reflexivity.
Defined.

(** A sentiment file in which a day occurs twice. *)
Lemma merged_row_count_is_sum_of_matches_witness :
  (init read_timestamp sample_trades sample_sentiment_twice "out.xlsx" =
   inr (built sample_trades sample_sentiment_twice))
  /\ (exists lk rk : Series,
      getitem (trader_data (built sample_trades sample_sentiment_twice)) "Date" = inr lk /\
      getitem (fear_greed_data (built sample_trades sample_sentiment_twice)) "Date" =
      inr rk /\
      nrows (merged_data (built sample_trades sample_sentiment_twice)) <=
      nrows (trader_data (built sample_trades sample_sentiment_twice)) *
      nrows (fear_greed_data (built sample_trades sample_sentiment_twice)) /\
      (List.length rk =
       nrows (fear_greed_data (built sample_trades sample_sentiment_twice)) ->
       nrows (merged_data (built sample_trades sample_sentiment_twice)) =
       list_sum
         (map (fun i : nat => count_of (nth i lk VNull) rk)
            (seq 0 (nrows (trader_data (built sample_trades sample_sentiment_twice))))))).
Proof.
  split; [vm_compute; reflexivity |].
  apply (merged_row_count_is_sum_of_matches read_timestamp sample_trades sample_sentiment_twice
    "out.xlsx" (built sample_trades sample_sentiment_twice)).
  - vm_compute; reflexivity.
Defined.

(** The object built from the sample files. *)
Lemma built_frames_are_rectangular_witness :
  (init read_timestamp sample_trades sample_sentiment "out.xlsx" = inr sample_analysis)
  /\ (rectangular (merged_data sample_analysis) /\
      (rectangular sample_trades -> rectangular (trader_data sample_analysis)) /\
      (rectangular sample_sentiment -> rectangular (fear_greed_data sample_analysis))).
Proof.
  split; [vm_compute; reflexivity |].
  apply (built_frames_are_rectangular read_timestamp sample_trades sample_sentiment "out.xlsx"
    sample_analysis).
  - vm_compute; reflexivity.
Defined.

(** Trades and sentiment on different days. *)
Lemma no_common_day_gives_empty_report_witness :
  (init read_timestamp sample_trades sample_sentiment_other_days "out.xlsx" =
   inr (built sample_trades sample_sentiment_other_days))
  /\ (getitem (trader_data (built sample_trades sample_sentiment_other_days)) "Date" =
      inr
        (column_of (trader_data (built sample_trades sample_sentiment_other_days)) "Date"))
  /\ (getitem (fear_greed_data (built sample_trades sample_sentiment_other_days)) "Date" =
      inr
        (column_of (fear_greed_data (built sample_trades sample_sentiment_other_days))
           "Date"))
  /\ ((forall i j : nat,
      i < nrows (trader_data (built sample_trades sample_sentiment_other_days)) ->
      j < nrows (fear_greed_data (built sample_trades sample_sentiment_other_days)) ->
      nth i
        (column_of (trader_data (built sample_trades sample_sentiment_other_days)) "Date")
        VNull <>
      nth j
        (column_of (fear_greed_data (built sample_trades sample_sentiment_other_days))
           "Date")
        VNull))
  /\ (nrows (merged_data (built sample_trades sample_sentiment_other_days)) = 0 /\
      (unique_columns (merged_data (built sample_trades sample_sentiment_other_days)) ->
       (forall c : string,
        In c ["account"; "Date"; "Classification"; "closedPnL"; "leverage"; "size"] ->
        In c (columns (merged_data (built sample_trades sample_sentiment_other_days)))) ->
       calculate_trader_metrics (built sample_trades sample_sentiment_other_days) =
       inr
         {|
           nrows := 0;
           cols :=
             [("account", []); ("Date", []); ("Classification", []); (
              "total_pnl", []); ("avg_leverage", []); ("trade_count", []);
              ("avg_size", [])]
         |} /\
       generate_trading_insights (built sample_trades sample_sentiment_other_days) =
       inr ["Avg leverage during Fear: 0.00"; "Avg leverage during Greed: 0.00"])).
Proof.
  split; [vm_compute; reflexivity |].
  split; [vm_compute; reflexivity |].
  split; [vm_compute; reflexivity |].
  split; [other_days |].
  apply (no_common_day_gives_empty_report read_timestamp sample_trades
    sample_sentiment_other_days "out.xlsx" (built sample_trades sample_sentiment_other_days)
    (column_of (trader_data (built sample_trades sample_sentiment_other_days)) "Date")
    (column_of (fear_greed_data (built sample_trades sample_sentiment_other_days)) "Date")).
  - vm_compute; reflexivity.
  - vm_compute; reflexivity.
  - vm_compute; reflexivity.
  - other_days.
Defined.

(** A sentiment file with a leverage column. *)
Lemma leverage_in_both_files_breaks_the_report_witness :
  (init read_timestamp sample_trades sample_sentiment_with_leverage "out.xlsx" =
   inr (built sample_trades sample_sentiment_with_leverage))
  /\ (In "leverage" (columns sample_sentiment_with_leverage))
  /\ (In "leverage_x"
        (columns (merged_data (built sample_trades sample_sentiment_with_leverage))) /\
      In "leverage_y"
        (columns (merged_data (built sample_trades sample_sentiment_with_leverage))) /\
      getitem (merged_data (built sample_trades sample_sentiment_with_leverage))
        "leverage" =
      inl (KeyError "leverage") /\
      (exists e : exn,
         calculate_trader_metrics (built sample_trades sample_sentiment_with_leverage) =
         inl e) /\
      exists e : exn,
        generate_trading_insights (built sample_trades sample_sentiment_with_leverage) =
        inl e).
Proof.
  split; [vm_compute; reflexivity |].
  split; [in_sample |].
  apply (leverage_in_both_files_breaks_the_report read_timestamp sample_trades
    sample_sentiment_with_leverage "out.xlsx" (built sample_trades
    sample_sentiment_with_leverage)).
  - vm_compute; reflexivity.
  - in_sample.
Defined.

(** The metrics table of the leveraged sample. *)
Lemma trader_metrics_table_shape_witness :
  (calculate_trader_metrics sample_analysis_leveraged =
   inr (metrics_of sample_analysis_leveraged))
  /\ (columns (metrics_of sample_analysis_leveraged) =
      ["account"; "Date"; "Classification"; "total_pnl"; "avg_leverage"; "trade_count";
       "avg_size"] /\
      rectangular (metrics_of sample_analysis_leveraged) /\
      nrows (metrics_of sample_analysis_leveraged) <=
      nrows (merged_data sample_analysis_leveraged) /\
      (forall r r' : nat,
       r < nrows (metrics_of sample_analysis_leveraged) ->
       r' < nrows (metrics_of sample_analysis_leveraged) ->
       nth r (column_of (metrics_of sample_analysis_leveraged) "account") VNull =
       nth r' (column_of (metrics_of sample_analysis_leveraged) "account") VNull ->
       nth r (column_of (metrics_of sample_analysis_leveraged) "Date") VNull =
       nth r' (column_of (metrics_of sample_analysis_leveraged) "Date") VNull ->
       nth r (column_of (metrics_of sample_analysis_leveraged) "Classification") VNull =
       nth r' (column_of (metrics_of sample_analysis_leveraged) "Classification") VNull ->
       r = r')).
Proof.
  split; [vm_compute; reflexivity |].
  apply (trader_metrics_table_shape sample_analysis_leveraged (metrics_of
    sample_analysis_leveraged)).
  - vm_compute; reflexivity.
Defined.

(** The trade counts of the leveraged sample. *)
Lemma trade_counts_add_up_witness :
  (getitem (merged_data sample_analysis_leveraged) "account" =
   inr (column_of (merged_data sample_analysis_leveraged) "account"))
  /\ (getitem (merged_data sample_analysis_leveraged) "Date" =
      inr (column_of (merged_data sample_analysis_leveraged) "Date"))
  /\ (getitem (merged_data sample_analysis_leveraged) "Classification" =
      inr (column_of (merged_data sample_analysis_leveraged) "Classification"))
  /\ (calculate_trader_metrics sample_analysis_leveraged =
      inr (metrics_of sample_analysis_leveraged))
  /\ (exists counts : list nat,
      getitem (metrics_of sample_analysis_leveraged) "trade_count" =
      inr (map nat_cell counts) /\
      list_sum counts =
      List.length
        (filter
           (fun i : nat =>
            negb
              (is_null
                 (nth i (column_of (merged_data sample_analysis_leveraged) "account")
                    VNull)
               || is_null
                    (nth i (column_of (merged_data sample_analysis_leveraged) "Date")
                       VNull)
               || is_null
                    (nth i
                       (column_of (merged_data sample_analysis_leveraged)
                          "Classification")
                       VNull)))
           (seq 0 (nrows (merged_data sample_analysis_leveraged))))).
Proof.
  split; [vm_compute; reflexivity |].
  split; [vm_compute; reflexivity |].
  split; [vm_compute; reflexivity |].
  split; [vm_compute; reflexivity |].
  apply (trade_counts_add_up sample_analysis_leveraged (metrics_of sample_analysis_leveraged)
    (column_of (merged_data sample_analysis_leveraged) "account") (column_of (merged_data
    sample_analysis_leveraged) "Date") (column_of (merged_data sample_analysis_leveraged)
    "Classification")).
  - vm_compute; reflexivity.
  - vm_compute; reflexivity.
  - vm_compute; reflexivity.
  - vm_compute; reflexivity.
Defined.

(** The pie chart of the sample sentiment file. *)
Lemma sentiment_distribution_counts_every_row_witness :
  (unique_columns (fear_greed_data (fst sample_state)))
  /\ (getitem (fear_greed_data (fst sample_state)) "Classification" =
      inr (column_of (fear_greed_data (fst sample_state)) "Classification"))
  /\ (some_present (column_of (fear_greed_data (fst sample_state)) "Classification")
      (List.length
         (column_of (fear_greed_data (fst sample_state)) "Classification")))
  /\ (exists counts : list (cell * nat),
      analyze_sentiment_distribution sample_state =
      (inr tt,
       (fst sample_state,
        {|
          files :=
            write_file "sentiment_distribution.png"
              (Figure "pie" "Fear/Greed Distribution" (counts_series counts))
              (files (snd sample_state));
          stdout := stdout (snd sample_state)
        |})) /\
      counts <> [] /\
      NoDup (map fst counts) /\
      (forall (c : cell) (n : nat),
       In (c, n) counts <->
       c <> VNull /\
       0 < n /\
       n = count_of c (column_of (fear_greed_data (fst sample_state)) "Classification")) /\
      counts_descending counts /\
      list_sum (map snd counts) =
      List.length
        (filter (fun c : cell => negb (is_null c))
           (column_of (fear_greed_data (fst sample_state)) "Classification"))).
Proof.
  split; [unique_sample |].
  split; [vm_compute; reflexivity |].
  split; [first_present |].
  apply (sentiment_distribution_counts_every_row sample_state (column_of (fear_greed_data (fst
    sample_state)) "Classification")).
  - unique_sample.
  - vm_compute; reflexivity.
  - first_present.
Defined.



(** The trades without closed PnL. *)
Lemma charts_are_written_one_at_a_time_witness :
  (unique_columns (fear_greed_data (fst sample_state_no_pnl)))
  /\ (unique_columns (merged_data (fst sample_state_no_pnl)))
  /\ (getitem (fear_greed_data (fst sample_state_no_pnl)) "Classification" =
      inr (column_of (fear_greed_data (fst sample_state_no_pnl)) "Classification"))
  /\ (some_present
      (column_of (fear_greed_data (fst sample_state_no_pnl)) "Classification")
      (List.length
         (column_of (fear_greed_data (fst sample_state_no_pnl)) "Classification")))
  /\ (getitem (merged_data (fst sample_state_no_pnl)) "Classification" =
      inr (column_of (merged_data (fst sample_state_no_pnl)) "Classification"))
  /\ (~ In "closedPnL" (columns (merged_data (fst sample_state_no_pnl))))
  /\ (exists msg : string,
      run_all_analyses sample_state_no_pnl =
      (inl (KeyError msg),
       (fst sample_state_no_pnl,
        {|
          files :=
            write_file "sentiment_distribution.png"
              (Figure "pie" "Fear/Greed Distribution"
                 (counts_series
                    (value_counts
                       (column_of (fear_greed_data (fst sample_state_no_pnl))
                          "Classification"))))
              (files (snd sample_state_no_pnl));
          stdout := stdout (snd sample_state_no_pnl)
        |}))).
Proof.
  split; [unique_sample |].
  split; [unique_sample |].
  split; [vm_compute; reflexivity |].
  split; [first_present |].
  split; [vm_compute; reflexivity |].
  split; [not_in_sample |].
  apply (charts_are_written_one_at_a_time sample_state_no_pnl (column_of (fear_greed_data (fst
    sample_state_no_pnl)) "Classification") (column_of (merged_data (fst sample_state_no_pnl))
    "Classification")).
  - unique_sample.
  - unique_sample.
  - vm_compute; reflexivity.
  - first_present.
  - vm_compute; reflexivity.
  - not_in_sample.
Defined.

(** The analyses on the leveraged sample. *)
Lemma successful_run_prints_each_insight_witness :
  (run_all_analyses sample_state = (inr tt, snd (run_all_analyses sample_state)))
  /\ (exists insights : list string,
      generate_trading_insights (fst sample_state) = inr insights /\
      stdout (snd (snd (run_all_analyses sample_state))) =
      (stdout (snd sample_state) ++
       ""
       :: "Generated Insights:" :: map (fun i : string => ("- " ++ i)%string) insights)%list /\
      2 <= List.length insights <= 4 /\
      (forall p : string,
       In p chart_files ->
       exists (kind title : string) (data : LabelledSeries),
         read_file p (files (snd (snd (run_all_analyses sample_state)))) =
         Some (Figure kind title data))).
Proof.
  split; [vm_compute; reflexivity |].
  apply (successful_run_prints_each_insight sample_state (snd (run_all_analyses
    sample_state))).
  - vm_compute; reflexivity.
Defined.

(** The trades without size. *)
Lemma missing_size_fails_after_the_insights_witness :
  (run_all_analyses sample_state_no_size =
   (inr tt, snd (run_all_analyses sample_state_no_size)))
  /\ (~ In "size" (columns (merged_data (fst sample_state_no_size))))
  /\ (exists msg : string,
      script_body sample_state_no_size =
      (inl (KeyError msg), snd (run_all_analyses sample_state_no_size))).
Proof.
  split; [vm_compute; reflexivity |].
  split; [not_in_sample |].
  apply (missing_size_fails_after_the_insights sample_state_no_size (snd (run_all_analyses
    sample_state_no_size))).
  - vm_compute; reflexivity.
  - not_in_sample.
Defined.

(** The script in a world that holds a file of its own. *)
Lemma script_leaves_other_files_alone_witness :
  (script_body sample_state_with_notes =
   (fst (script_body sample_state_with_notes),
    snd (script_body sample_state_with_notes)))
  /\ (~ In "notes.txt" chart_files)
  /\ ("notes.txt" <> output_file (fst sample_state_with_notes))
  /\ (read_file "notes.txt" (files (snd (snd (script_body sample_state_with_notes)))) =
      read_file "notes.txt" (files (snd sample_state_with_notes))).
Proof.
  split; [apply surjective_pairing |].
  split; [not_in_sample |].
  split; [vm_compute; discriminate |].
  apply (script_leaves_other_files_alone sample_state_with_notes (snd (script_body
    sample_state_with_notes)) (fst (script_body sample_state_with_notes)) "notes.txt").
  - apply surjective_pairing.
  - not_in_sample.
  - vm_compute; discriminate.
Defined.

(** The transition analysis on the sample, twice. *)
Lemma transition_analysis_is_repeatable_witness :
  (sentiment_transition_analysis sample_state =
   (inr tt, snd (sentiment_transition_analysis sample_state)))
  /\ (sentiment_transition_analysis (snd (sentiment_transition_analysis sample_state)) =
      (inr tt, snd (sentiment_transition_analysis sample_state))).
Proof.
  split; [vm_compute; reflexivity |].
  apply (transition_analysis_is_repeatable sample_state (snd (sentiment_transition_analysis
    sample_state))).
  - vm_compute; reflexivity.
Defined.

(** The transitions of the sample sentiment file, row by row. *)
Lemma transition_of_each_row_witness :
  (unique_columns (fear_greed_data (fst sample_state)))
  /\ (getitem (fear_greed_data (fst sample_state)) "Classification" =
      inr (column_of (fear_greed_data (fst sample_state)) "Classification"))
  /\ (Forall text_or_null
      (column_of (fear_greed_data (fst sample_state)) "Classification"))
  /\ (numeric_dtype (column_of (fear_greed_data (fst sample_state)) "Classification") =
      false)
  /\ ((exists i : nat,
      S i <
      List.length
        (column_of (fear_greed_data (fst sample_state)) "Classification") /\
      nth i (column_of (fear_greed_data (fst sample_state)) "Classification") VNull <>
      VNull /\
      nth (S i) (column_of (fear_greed_data (fst sample_state)) "Classification") VNull <>
      VNull))
  /\ (exists (st' : State) (prev tr : Series) (counts : list (cell * nat)),
      sentiment_transition_analysis sample_state = (inr tt, st') /\
      getitem (fear_greed_data (fst st')) "Prev_Sentiment" = inr prev /\
      getitem (fear_greed_data (fst st')) "Transition" = inr tr /\
      read_file "sentiment_transitions.png" (files (snd st')) =
      Some (Figure "bar" "Sentiment Transitions Over Time" (counts_series counts)) /\
      counts <> [] /\
      List.length prev =
      List.length (column_of (fear_greed_data (fst sample_state)) "Classification") /\
      List.length tr =
      List.length (column_of (fear_greed_data (fst sample_state)) "Classification") /\
      nth 0 prev VNull = VNull /\
      nth 0 tr VNull = VNull /\
      (forall i : nat,
       S i <
       List.length
         (column_of (fear_greed_data (fst sample_state)) "Classification") ->
       nth (S i) prev VNull =
       nth i (column_of (fear_greed_data (fst sample_state)) "Classification") VNull /\
       nth (S i) tr VNull =
       pair_label
         (nth i (column_of (fear_greed_data (fst sample_state)) "Classification") VNull)
         (nth (S i) (column_of (fear_greed_data (fst sample_state)) "Classification")
            VNull)) /\
      list_sum (map snd counts) =
      List.length (filter (fun c : cell => negb (is_null c)) tr) /\
      (Forall (fun c : cell => c <> VNull)
         (column_of (fear_greed_data (fst sample_state)) "Classification") ->
       list_sum (map snd counts) =
       List.length
         (column_of (fear_greed_data (fst sample_state)) "Classification") -
       1)).
Proof.
  split; [unique_sample |].
  split; [vm_compute; reflexivity |].
  split; [vm_compute; repeat constructor |].
  split; [vm_compute; reflexivity |].
  split; [first_two_present |].
  apply (transition_of_each_row sample_state (column_of (fear_greed_data (fst sample_state))
    "Classification")).
  - unique_sample.
  - vm_compute; reflexivity.
  - vm_compute; repeat constructor.
  - vm_compute; reflexivity.
  - first_two_present.
Defined.
